(** * 200Model8CLI: tool registry, provider request path, tool-call
      emulation parser and workflow engine

    A shallow embedding of
      - [tools/base.py]              (BaseTool, ToolRegistry),
      - [core/api.py]                (OpenRouterClient._make_request, chat_completion),
      - [core/ollama_client.py]      (OllamaClient._parse_tool_calls),
      - [workflows/workflow_engine.py] (WorkflowEngine),
    together with the properties of these functions.

    Conventions.  Python objects of type [Any] are values of the inductive
    [value]; floats are left out (numbers are integers, and [bool] is a
    subclass of [int] as in Python).  A Python [dict] whose iteration order
    matters is an association list with unique keys; the registry's two
    dictionaries are [gmap]s.  A computation that may raise returns an
    [outcome]; only subclasses of [Exception] are modelled (the clauses
    [except Exception] of the source do not catch [KeyboardInterrupt],
    [SystemExit] and the like, which are outside this development).
    A [str] is held as the bytes of its UTF-8 encoding, so [len] counts the
    bytes that start a code point, not all of them.  Wall-clock time is read
    from an abstract world as an integer number of ticks. *)

From Stdlib Require Import ZArith Bool List Ascii String DecimalString QArith Lia.
From stdpp Require Import gmap strings list fin_maps.
Import ListNotations.

Set Warnings "-register-all".
Local Open Scope string_scope.
Local Open Scope Z_scope.

(** ** Python prelude *)

Module Py.

Inductive exn_class :=
| ValueError | TypeError | KeyError | AttributeError | NameError
| JSONDecodeError            (* json.JSONDecodeError, a ValueError *)
| ReError                    (* re.error *)
| RequestError               (* httpx.RequestError *)
| HTTPStatusError            (* httpx.HTTPStatusError *)
| OpenRouterError | AuthenticationError | RateLimitError | ModelNotFoundError
| PlainException.            (* Exception(...) itself *)

(** An exception instance: its class and [str(e)]. *)
Record exn := Exn { exn_cls : exn_class; exn_str : string }.

Inductive outcome (A : Type) :=
| Ret (a : A)
| Raise (e : exn).
Arguments Ret {A} a.
Arguments Raise {A} e.

Definition raises {A} (o : outcome A) : bool :=
  match o with Ret _ => false | Raise _ => true end.

Definition exn_class_eqb (c1 c2 : exn_class) : bool :=
  match c1, c2 with
  | ValueError, ValueError | TypeError, TypeError | KeyError, KeyError
  | AttributeError, AttributeError | NameError, NameError
  | JSONDecodeError, JSONDecodeError | ReError, ReError
  | RequestError, RequestError | HTTPStatusError, HTTPStatusError
  | OpenRouterError, OpenRouterError | AuthenticationError, AuthenticationError
  | RateLimitError, RateLimitError | ModelNotFoundError, ModelNotFoundError
  | PlainException, PlainException => true
  | _, _ => false
  end.

(** [isinstance(e, c)]: the class hierarchy of the exceptions above. *)
Definition subclass (c sup : exn_class) : bool :=
  exn_class_eqb c sup ||
  match c, sup with
  | _, PlainException => true
  | JSONDecodeError, ValueError => true
  | (AuthenticationError | RateLimitError | ModelNotFoundError), OpenRouterError => true
  | _, _ => false
  end.

Inductive value :=
| VNone
| VBool (b : bool)
| VInt (z : Z)
| VStr (s : string)
| VList (l : list value)
| VDict (d : list (string * value)).

(** Truth value of an object, as [if x] / [not x] compute it. *)
Definition truthy (v : value) : bool :=
  match v with
  | VNone => false
  | VBool b => b
  | VInt z => negb (z =? 0)
  | VStr s => negb (String.eqb s "")
  | VList l => match l with [] => false | _ => true end
  | VDict d => match d with [] => false | _ => true end
  end.

Definition is_dict (v : value) : bool :=
  match v with VDict _ => true | _ => false end.

(** [d.get(k)] on an association list with unique keys. *)
Fixpoint dict_get {A} (d : list (string * A)) (k : string) : option A :=
  match d with
  | [] => None
  | (k', v) :: d' => if String.eqb k' k then Some v else dict_get d' k
  end.

(** [d.get(k, default)]. *)
Definition default_get {A} (d : list (string * A)) (k : string) (default : A) : A :=
  match dict_get d k with Some v => v | None => default end.

(** [d[k] = v]: an existing key keeps its position, a new key goes last. *)
Fixpoint dict_set {A} (d : list (string * A)) (k : string) (v : A) : list (string * A) :=
  match d with
  | [] => [(k, v)]
  | (k', v') :: d' =>
      if String.eqb k' k then (k', v) :: d' else (k', v') :: dict_set d' k v
  end.

(** [d.update(other)]. *)
Definition dict_update {A} (d other : list (string * A)) : list (string * A) :=
  fold_left (fun acc kv => dict_set acc (fst kv) (snd kv)) other d.

(** A byte [10xxxxxx], which continues a code point in UTF-8. *)
Definition is_continuation (c : ascii) : bool :=
  match c with
  | Ascii _ _ _ _ _ _ b6 b7 => b7 && negb b6
  end.

(** [len(s)]: the number of code points of the string. *)
Fixpoint py_len (s : string) : nat :=
  match s with
  | EmptyString => 0%nat
  | String c s' => if is_continuation c then py_len s' else S (py_len s')
  end.

(** [s.startswith(p)]. *)
Fixpoint startswith (p s : string) : bool :=
  match p, s with
  | EmptyString, _ => true
  | String a p', String b s' => Ascii.eqb a b && startswith p' s'
  | String _ _, EmptyString => false
  end.

(** [s[n:]]. *)
Fixpoint string_drop (n : nat) (s : string) : string :=
  match n, s with
  | S k, String _ s' => string_drop k s'
  | _, _ => s
  end.

(** [sub in s]. *)
Fixpoint contains (sub s : string) : bool :=
  startswith sub s ||
  match s with
  | EmptyString => false
  | String _ s' => contains sub s'
  end.

(** [s.replace(old, new)] for a non-empty [old]: every non-overlapping
    occurrence, leftmost first.  [skip] counts the characters of a matched
    occurrence still to be dropped. *)
Fixpoint replace_from (old new : string) (skip : nat) (s : string) : string :=
  match s with
  | EmptyString => EmptyString
  | String c s' =>
      match skip with
      | S k => replace_from old new k s'
      | O =>
          if startswith old s
          then new +:+ replace_from old new (Nat.pred (String.length old)) s'
          else String c (replace_from old new O s')
      end
  end.

Definition replace (old new s : string) : string :=
  match old with
  | EmptyString => s    (* never reached: every [old] below is a literal or "{{" + key + "}}" *)
  | _ => replace_from old new O s
  end.

End Py.
Import Py.

(** ** tools/base.py *)

Module Base.

Inductive ToolCategory :=
| FILE_OPERATIONS | WEB_TOOLS | GIT_TOOLS | CODE_TOOLS | SYSTEM_TOOLS | CUSTOM.

#[export] Instance ToolCategory_eq_dec : EqDecision ToolCategory.
Proof. solve_decision. Defined.

Definition category_code (c : ToolCategory) : nat :=
  match c with
  | FILE_OPERATIONS => 0 | WEB_TOOLS => 1 | GIT_TOOLS => 2
  | CODE_TOOLS => 3 | SYSTEM_TOOLS => 4 | CUSTOM => 5
  end%nat.

Definition category_of_code (n : nat) : ToolCategory :=
  match n with
  | 0 => FILE_OPERATIONS | 1 => WEB_TOOLS | 2 => GIT_TOOLS
  | 3 => CODE_TOOLS | 4 => SYSTEM_TOOLS | _ => CUSTOM
  end%nat.

#[export] Instance ToolCategory_countable : Countable ToolCategory.
Proof.
  apply (inj_countable' category_code category_of_code).
  intros []; reflexivity.
Defined.

Record ToolParameter := {
  p_name : string;
  p_type : string;
  p_description : string;
  p_required : bool;
  p_default : value;
  p_enum : option (list string);
  p_pattern : option string;
  p_min_value : option Z;
  p_max_value : option Z;
  p_min_length : option Z;
  p_max_length : option Z;
}.

Record ToolResult := {
  success : bool;
  result : value;
  error : option string;
  execution_time : Z;
  metadata : list (string * value);
}.

(** [ToolResult(success=False, error=msg, execution_time=t)]. *)
Definition failure (msg : string) (t : Z) : ToolResult :=
  {| success := false; result := VNone; error := Some msg;
     execution_time := t; metadata := [] |}.

Definition set_execution_time (r : ToolResult) (t : Z) : ToolResult :=
  {| success := success r; result := result r; error := error r;
     execution_time := t; metadata := metadata r |}.

Section WithWorld.

(** Everything outside the program that a tool body may read or change,
    the clock included. [time_time] is [time.time()], in ticks; [re_match p s]
    is [re.match(p, s) is not None], which raises [re.error] on a bad
    pattern. *)
Context {World : Type}.
Variable time_time : World -> Z.
Variable re_match : string -> string -> outcome bool.

Definition kwargs := list (string * value).

Record BaseTool := {
  name : string;
  description : string;
  category : ToolCategory;
  get_parameters : list ToolParameter;
  execute : kwargs -> World -> outcome ToolResult * World;
  enabled : bool;
  execution_count : Z;
  total_execution_time : Z;
  error_count : Z;
}.

(** The metric updates of [safe_execute]: [execution_count += 1],
    [total_execution_time += dt] and, when [err], [error_count += 1]. *)
Definition record_execution (self : BaseTool) (dt : Z) (err : bool) : BaseTool :=
  {| name := name self; description := description self;
     category := category self; get_parameters := get_parameters self;
     execute := execute self; enabled := enabled self;
     execution_count := execution_count self + 1;
     total_execution_time := total_execution_time self + dt;
     error_count := if err then error_count self + 1 else error_count self |}.

Definition is_str (v : value) : bool := match v with VStr _ => true | _ => false end.
(** [isinstance(v, int)], and [isinstance(v, (int, float))] without floats. *)
Definition is_int (v : value) : bool :=
  match v with VInt _ | VBool _ => true | _ => false end.
Definition int_of (v : value) : Z :=
  match v with VInt z => z | VBool true => 1 | _ => 0 end.
Definition str_of (v : value) : string :=
  match v with VStr s => s | _ => "" end.

Definition _validate_type (v : value) (expected_type : string) : bool :=
  if String.eqb expected_type "string" then is_str v
  else if String.eqb expected_type "integer" then is_int v
  else if String.eqb expected_type "number" then is_int v
  else if String.eqb expected_type "boolean" then
    match v with VBool _ => true | _ => false end
  else if String.eqb expected_type "array" then
    match v with VList _ => true | _ => false end
  else if String.eqb expected_type "object" then is_dict v
  else true.

(** [value in param.enum] for a list of strings. *)
Definition in_enum (v : value) (enum : list string) : bool :=
  match v with
  | VStr s => existsb (String.eqb s) enum
  | _ => false
  end.

Definition nonempty_list {A} (o : option (list A)) : option (list A) :=
  match o with Some (x :: l) => Some (x :: l) | _ => None end.
Definition nonempty_str (o : option string) : option string :=
  match o with Some (String c s) => Some (String c s) | _ => None end.

(** The checks of [_validate_constraints], in the order of the source. *)
Definition enum_ok (v : value) (param : ToolParameter) : bool :=
  match nonempty_list (p_enum param) with
  | Some enum => in_enum v enum
  | None => true
  end.

Definition pattern_ok (v : value) (param : ToolParameter) : outcome bool :=
  match nonempty_str (p_pattern param) with
  | Some pat => if is_str v then re_match pat (str_of v) else Ret true
  | None => Ret true
  end.

Definition min_value_ok (v : value) (param : ToolParameter) : bool :=
  match p_min_value param with
  | Some m => negb (is_int v && (int_of v <? m))
  | None => true
  end.

Definition max_value_ok (v : value) (param : ToolParameter) : bool :=
  match p_max_value param with
  | Some m => negb (is_int v && (m <? int_of v))
  | None => true
  end.

Definition min_length_ok (v : value) (param : ToolParameter) : bool :=
  match p_min_length param with
  | Some m => negb (is_str v && (Z.of_nat (py_len (str_of v)) <? m))
  | None => true
  end.

Definition max_length_ok (v : value) (param : ToolParameter) : bool :=
  match p_max_length param with
  | Some m => negb (is_str v && (m <? Z.of_nat (py_len (str_of v))))
  | None => true
  end.

Definition _validate_constraints (v : value) (param : ToolParameter) : outcome bool :=
  if negb (enum_ok v param) then Ret false
  else match pattern_ok v param with
       | Raise e => Raise e
       | Ret false => Ret false
       | Ret true =>
           Ret (min_value_ok v param && max_value_ok v param
                && min_length_ok v param && max_length_ok v param)
       end.

(** [param_dict = {p.name: p for p in parameters}]: the last declaration
    of a name wins. *)
Definition param_dict (parameters : list ToolParameter) (n : string) : option ToolParameter :=
  List.find (fun p => String.eqb (p_name p) n) (rev parameters).

Definition has_key (kw : kwargs) (n : string) : bool :=
  match dict_get kw n with Some _ => true | None => false end.

(** The second loop of [validate_parameters], over [kwargs.items()]. *)
Fixpoint validate_items (parameters : list ToolParameter) (items : kwargs) : outcome bool :=
  match items with
  | [] => Ret true
  | (n, v) :: rest =>
      match param_dict parameters n with
      | None => validate_items parameters rest          (* unknown parameter: warning *)
      | Some param =>
          if negb (_validate_type v (p_type param)) then Ret false
          else match _validate_constraints v param with
               | Ret true => validate_items parameters rest
               | Ret false => Ret false
               | Raise e => Raise e
               end
      end
  end.

Definition validate_parameters (self : BaseTool) (kw : kwargs) : outcome bool :=
  if existsb (fun p => p_required p && negb (has_key kw (p_name p))) (get_parameters self)
  then Ret false
  else validate_items (get_parameters self) kw.

(** The [except Exception as e] branch of [safe_execute]. *)
Definition safe_execute_except (self : BaseTool) (start_time : Z) (e : exn) (w : World)
  : outcome ToolResult * BaseTool * World :=
  let execution_time := time_time w - start_time in
  (Ret (failure ("Tool execution failed: " +:+ exn_str e) execution_time),
   record_execution self execution_time true, w).

Definition safe_execute (self : BaseTool) (kw : kwargs) (w : World)
  : outcome ToolResult * BaseTool * World :=
  let start_time := time_time w in
  match validate_parameters self kw with
  | Ret false =>
      (Ret (failure "Parameter validation failed" (time_time w - start_time)), self, w)
  | Ret true =>
      match execute self kw w with
      | (Ret r, w') =>
          let execution_time := time_time w' - start_time in
          (Ret (set_execution_time r execution_time),
           record_execution self execution_time (negb (success r)), w')
      | (Raise e, w') => safe_execute_except self start_time e w'
      end
  | Raise e => safe_execute_except self start_time e w
  end.

(** *** ToolRegistry *)

Record ToolRegistry := {
  tools : gmap string BaseTool;
  categories : gmap ToolCategory (list string);
}.

Definition empty_registry : ToolRegistry := {| tools := ∅; categories := ∅ |}.

Definition name_in (n : string) (l : list string) : bool := existsb (String.eqb n) l.

(** [l.remove(n)]: the first occurrence only. *)
Fixpoint list_remove (n : string) (l : list string) : list string :=
  match l with
  | [] => []
  | x :: l' => if String.eqb x n then l' else x :: list_remove n l'
  end.

Definition register_tool (reg : ToolRegistry) (tool : BaseTool) : ToolRegistry :=
  let tools' := <[name tool := tool]> (tools reg) in
  let names := default [] (categories reg !! category tool) in
  let names' := if name_in (name tool) names then names else (names ++ [name tool])%list in
  {| tools := tools'; categories := <[category tool := names']> (categories reg) |}.

Definition unregister_tool (reg : ToolRegistry) (tool_name : string) : ToolRegistry :=
  match tools reg !! tool_name with
  | None => reg
  | Some tool =>
      let tools' := delete tool_name (tools reg) in
      let categories' :=
        match categories reg !! category tool with
        | Some names =>
            if name_in tool_name names
            then <[category tool := list_remove tool_name names]> (categories reg)
            else categories reg
        | None => categories reg
        end in
      {| tools := tools'; categories := categories' |}
  end.

Definition get_tool (reg : ToolRegistry) (tool_name : string) : option BaseTool :=
  tools reg !! tool_name.

(** [safe_execute] mutates the tool object that the registry holds. *)
Definition execute_tool (reg : ToolRegistry) (tool_name : string) (kw : kwargs) (w : World)
  : outcome ToolResult * ToolRegistry * World :=
  match get_tool reg tool_name with
  | None => (Ret (failure ("Tool '" +:+ tool_name +:+ "' not found") 0), reg, w)
  | Some tool =>
      if negb (enabled tool)
      then (Ret (failure ("Tool '" +:+ tool_name +:+ "' is disabled") 0), reg, w)
      else
        let '(r, tool', w') := safe_execute tool kw w in
        (r, {| tools := <[tool_name := tool']> (tools reg);
               categories := categories reg |}, w')
  end.

(** *** Sequences of operations *)

(** Successive calls of [safe_execute] on one tool object, with the results
    in order. *)
Fixpoint safe_execute_all (self : BaseTool) (calls : list kwargs) (w : World)
  : list (outcome ToolResult) * BaseTool * World :=
  match calls with
  | [] => ([], self, w)
  | kw :: rest =>
      let '(r, self', w') := safe_execute self kw w in
      let '(rs, self'', w'') := safe_execute_all self' rest w' in
      (r :: rs, self'', w'')
  end.

(** The call stops at the validation guard. *)
Definition short_circuits (self : BaseTool) (kw : kwargs) : bool :=
  match validate_parameters self kw with Ret false => true | _ => false end.

(** The outcome of a call is a failure. *)
Definition is_failure (o : outcome ToolResult) : bool :=
  match o with Ret r => negb (success r) | Raise _ => true end.

Definition count {A} (f : A -> bool) (l : list A) : Z := Z.of_nat (length (List.filter f l)).

Inductive registry_op :=
| Register (t : BaseTool)
| Unregister (tool_name : string).

Definition apply_op (reg : ToolRegistry) (op : registry_op) : ToolRegistry :=
  match op with
  | Register t => register_tool reg t
  | Unregister n => unregister_tool reg n
  end.

Definition apply_ops (reg : ToolRegistry) (ops : list registry_op) : ToolRegistry :=
  fold_left apply_op ops reg.

(** A name occurs in the category index. *)
Definition indexed (reg : ToolRegistry) (n : string) : Prop :=
  exists c names, categories reg !! c = Some names /\ In n names.

(** The invariant of the data model: the category index and the primary map
    hold the same names. *)
Definition registry_invariant (reg : ToolRegistry) : Prop :=
  forall n, indexed reg n <-> is_Some (tools reg !! n).

(** Every registered name is in the category index. *)
Definition covered (reg : ToolRegistry) : Prop :=
  forall n, is_Some (tools reg !! n) -> indexed reg n.

(** The body of the tool returns the argument passed under [key], unchanged,
    as the payload of a successful result. *)
Definition echoes (key : string) (t : BaseTool) : Prop :=
  forall kw w, exists r w',
    execute t kw w = (Ret r, w') /\ success r = true /\ result r = default_get kw key VNone.

(** What [safe_execute] never changes in a tool. *)
Definition same_tool (a b : BaseTool) : Prop :=
  get_parameters a = get_parameters b /\ execute a = execute b.

End WithWorld.

End Base.

(** ** core/api.py *)

Module Api.

Record Response := {
  status_code : Z;
  json : outcome value;        (* [response.json()] *)
}.

(** What [_make_request] returns: the decoded body, or the generator made by
    [_stream_request]. *)
Inductive reply :=
| Json (v : value)
| Stream.

Record ChatResponse := {
  cr_id : value;
  cr_model : value;
  cr_choices : value;
  cr_usage : value;
  cr_created : value;
}.

Record Message := {
  role : string;
  content : option string;
  tool_calls : option (list value);
  tool_call_id : option string;
}.

Definition upper_char (c : ascii) : ascii :=
  let n := nat_of_ascii c in
  if ((97 <=? n) && (n <=? 122))%nat then ascii_of_nat (n - 32) else c.

(** [s.upper()] on ASCII text. *)
Fixpoint upper (s : string) : string :=
  match s with
  | EmptyString => EmptyString
  | String c s' => String (upper_char c) (upper s')
  end.

(** What one turn of the retry loop decides. *)
Inductive turn :=
| Return (r : reply)
| SleepAndContinue (delay : Z)
| FallThrough                 (* the body ended without [return], [continue] or [raise] *)
| Throw (e : exn).

Section Client.

(** The client's configuration and the network.  [transport n] is what the
    HTTP client answers to the request sent by attempt [n]: a response, or an
    exception of the HTTP library ([RequestError] for timeouts and connection
    failures).  [status_message] is the text that [raise_for_status] puts in
    its [HTTPStatusError]. *)
Variable max_retries : Z.
Variable base_delay : Z.
Variable transport : Z -> outcome Response.
Variable status_message : Z -> string.

(** [httpx.Response.raise_for_status]: returns on 2xx, raises
    [HTTPStatusError] otherwise. *)
Definition raise_for_status (status : Z) : outcome unit :=
  if (200 <=? status) && (status <? 300) then Ret tt
  else Raise (Exn HTTPStatusError (status_message status)).

(** The statements under [# Handle response]. *)
Definition handle_response (attempt : Z) (response : Response) : turn :=
  let status := status_code response in
  if status =? 200 then
    match json response with
    | Ret v => Return (Json v)
    | Raise e => Throw e
    end
  else if status =? 401 then Throw (Exn AuthenticationError "Invalid API key")
  else if status =? 429 then
    if attempt <? max_retries
    then SleepAndContinue (base_delay * 2 ^ attempt)
    else Throw (Exn RateLimitError "Rate limit exceeded")
  else if status =? 404 then
    Throw (Exn ModelNotFoundError "Model not found or not available")
  else
    match raise_for_status status with
    | Ret _ => FallThrough
    | Raise e => Throw e
    end.

(** The [try] block of one attempt. *)
Definition try_block (method : string) (stream : bool) (attempt : Z) : turn :=
  let send :=
    match transport attempt with
    | Ret response => handle_response attempt response
    | Raise e => Throw e
    end in
  if String.eqb (upper method) "GET" then send
  else if String.eqb (upper method) "POST" then
    if stream then Return Stream else send
  else Throw (Exn ValueError ("Unsupported HTTP method: " +:+ method)).

(** One attempt: the [try] block under [except httpx.RequestError]. *)
Definition attempt_turn (method : string) (stream : bool) (attempt : Z) : turn :=
  match try_block method stream attempt with
  | Throw e =>
      if subclass (exn_cls e) RequestError then
        if attempt <? max_retries
        then SleepAndContinue (base_delay * 2 ^ attempt)
        else Throw (Exn OpenRouterError ("Request failed: " +:+ exn_str e))
      else Throw e
  | t => t
  end.

(** [for attempt in range(...)], from [attempt] on with [remaining]
    iterations left; the result comes with the delays slept, in order. *)
Fixpoint request_loop (method : string) (stream : bool) (remaining : nat) (attempt : Z)
  : outcome reply * list Z :=
  match remaining with
  | O => (Raise (Exn OpenRouterError "Max retries exceeded"), [])
  | S k =>
      match attempt_turn method stream attempt with
      | Return r => (Ret r, [])
      | Throw e => (Raise e, [])
      | FallThrough => request_loop method stream k (attempt + 1)
      | SleepAndContinue d =>
          let '(r, ds) := request_loop method stream k (attempt + 1) in (r, d :: ds)
      end
  end.

Definition _make_request (method : string) (stream : bool) : outcome reply * list Z :=
  request_loop method stream (Z.to_nat (max_retries + 1)) 0.

(** The attempt sends a request: a GET, or a POST that does not stream. *)
Definition sends (method : string) (stream : bool) : bool :=
  String.eqb (upper method) "GET" || (String.eqb (upper method) "POST" && negb stream).

(** The answers after which the loop sleeps and tries again while attempts
    are left: a 429 response and a [RequestError] of the HTTP client. *)
Definition retryable (answer : outcome Response) : bool :=
  match answer with
  | Ret response => status_code response =? 429
  | Raise e => subclass (exn_cls e) RequestError
  end.

(** The delays [base_delay * 2 ^ n] for the [m] attempts from [attempt] on. *)
Fixpoint backoff (attempt : Z) (m : nat) : list Z :=
  match m with
  | O => []
  | S m' => base_delay * 2 ^ attempt :: backoff (attempt + 1) m'
  end.

(** [obj.get(key, default)]; only a [dict] has the method. *)
Definition py_get (obj : value) (key : string) (default : value) : outcome value :=
  match obj with
  | VDict d => Ret (default_get d key default)
  | _ => Raise (Exn AttributeError "object has no attribute 'get'")
  end.

(** [obj.get(key, default)] once [obj] is known to be a [dict]. *)
Definition get_or (obj : value) (key : string) (default : value) : value :=
  match obj with
  | VDict d => default_get d key default
  | _ => default
  end.

Variable default_model : string.
Variable is_groq_model : string -> bool.
(** The outcome of the [try] blocks of [_handle_ollama_completion] and
    [_handle_groq_completion], which talk to the other two back ends. *)
Variable ollama_try : string -> outcome ChatResponse.
Variable groq_try : string -> outcome ChatResponse.

Definition _handle_ollama_completion (model : string) : outcome ChatResponse :=
  match ollama_try model with
  | Ret r => Ret r
  | Raise e => Raise (Exn OpenRouterError ("Ollama completion failed: " +:+ exn_str e))
  end.

Definition _handle_groq_completion (model : string) : outcome ChatResponse :=
  match groq_try model with
  | Ret r => Ret r
  | Raise e => Raise (Exn OpenRouterError ("Groq completion failed: " +:+ exn_str e))
  end.

(** What [chat_completion] hands back: a response, or (with [stream]) the
    un-awaited request. *)
Inductive completion :=
| Complete (r : ChatResponse)
| Streaming.

(** The [try] block at the end of [chat_completion]. *)
Definition chat_try (model : string) (stream : bool) : outcome completion :=
  if stream then Ret Streaming
  else
    match fst (_make_request "POST" false) with
    | Raise e => Raise e
    | Ret Stream => Raise (Exn AttributeError "object has no attribute 'get'")
    | Ret (Json response) =>
        match py_get response "id" (VStr "unknown") with
        | Raise e => Raise e
        | Ret i =>
            Ret (Complete {| cr_id := i;
                             cr_model := get_or response "model" (VStr model);
                             cr_choices := get_or response "choices" (VList []);
                             cr_usage := get_or response "usage" (VDict []);
                             cr_created := get_or response "created" (VInt 0) |})
        end
    end.

Definition chat_completion (messages : list Message) (model : option string) (stream : bool)
  : outcome completion :=
  match messages with
  | [] => Raise (Exn ValueError "Messages cannot be empty")
  | _ =>
      let model :=
        match model with
        | Some (String c m) => String c m
        | _ => default_model
        end in
      if startswith "ollama/" model then
        match _handle_ollama_completion model with
        | Ret r => Ret (Complete r) | Raise e => Raise e end
      else if startswith "groq/" model || is_groq_model model then
        match _handle_groq_completion model with
        | Ret r => Ret (Complete r) | Raise e => Raise e end
      else
        match chat_try model stream with
        | Ret c => Ret c
        | Raise e => Raise (Exn OpenRouterError ("Chat completion failed: " +:+ exn_str e))
        end
  end.

End Client.

End Api.

(** ** A model of [json.loads]

    Modelled from the language's standard library, which is not part of the
    repository: a recursive-descent reader for the fragment of JSON made of
    objects, arrays, strings with the one-character escapes, integers and the
    three literals.  Outside the fragment (fractions, exponents, [\u]
    escapes) it answers [JSONDecodeError].  The general statements below take
    [json.loads] as a parameter; this reader instantiates it on concrete
    texts. *)

Module Json.

Definition dquote : ascii := "034"%char.
Definition backslash : ascii := "092"%char.

(** [quoted s] is [s] between double quotes. *)
Definition quoted (s : string) : string :=
  String dquote (s +:+ String dquote EmptyString).

Definition is_ws (c : ascii) : bool :=
  Ascii.eqb c " "%char || Ascii.eqb c "009"%char
  || Ascii.eqb c "010"%char || Ascii.eqb c "013"%char.

Fixpoint skip_ws (s : string) : string :=
  match s with
  | String c s' => if is_ws c then skip_ws s' else s
  | EmptyString => EmptyString
  end.

Definition digit_of (c : ascii) : option Z :=
  let n := nat_of_ascii c in
  if ((48 <=? n) && (n <=? 57))%nat then Some (Z.of_nat (n - 48)) else None.

Fixpoint read_digits (acc : Z) (s : string) : Z * string :=
  match s with
  | String c s' =>
      match digit_of c with
      | Some d => read_digits (10 * acc + d) s'
      | None => (acc, s)
      end
  | EmptyString => (acc, s)
  end.

Definition starts_fraction (s : string) : bool :=
  match s with
  | String c _ => Ascii.eqb c "."%char || Ascii.eqb c "e"%char || Ascii.eqb c "E"%char
  | EmptyString => false
  end.

(** An integer [0 | [1-9][0-9]*] without sign. *)
Definition read_nat (s : string) : option (Z * string) :=
  match s with
  | String c s' =>
      match digit_of c with
      | Some 0 => if starts_fraction s' then None else Some (0, s')
      | Some d =>
          let '(n, rest) := read_digits d s' in
          if starts_fraction rest then None else Some (n, rest)
      | None => None
      end
  | EmptyString => None
  end.

Definition unescape (c : ascii) : option ascii :=
  if Ascii.eqb c dquote then Some dquote
  else if Ascii.eqb c backslash then Some backslash
  else if Ascii.eqb c "/"%char then Some "/"%char
  else if Ascii.eqb c "b"%char then Some "008"%char
  else if Ascii.eqb c "f"%char then Some "012"%char
  else if Ascii.eqb c "n"%char then Some "010"%char
  else if Ascii.eqb c "r"%char then Some "013"%char
  else if Ascii.eqb c "t"%char then Some "009"%char
  else None.

(** The characters of a string up to its closing quote. *)
Fixpoint read_string (s : string) : option (string * string) :=
  match s with
  | EmptyString => None
  | String c s' =>
      if Ascii.eqb c dquote then Some (EmptyString, s')
      else if Ascii.eqb c backslash then
        match s' with
        | String e s'' =>
            match unescape e, read_string s'' with
            | Some c', Some (body, rest) => Some (String c' body, rest)
            | _, _ => None
            end
        | EmptyString => None
        end
      else if (nat_of_ascii c <? 32)%nat then None
      else match read_string s' with
           | Some (body, rest) => Some (String c body, rest)
           | None => None
           end
  end.

Fixpoint parse_value (fuel : nat) (s : string) : option (value * string) :=
  match fuel with
  | O => None
  | S fuel' =>
      match s with
      | EmptyString => None
      | String c rest =>
          if Ascii.eqb c "{"%char then
            match skip_ws rest with
            | String "}" r => Some (VDict [], r)
            | r => parse_members fuel' r []
            end
          else if Ascii.eqb c "["%char then
            match skip_ws rest with
            | String "]" r => Some (VList [], r)
            | r => parse_elements fuel' r []
            end
          else if Ascii.eqb c dquote then
            match read_string rest with
            | Some (body, r) => Some (VStr body, r)
            | None => None
            end
          else if Ascii.eqb c "-"%char then
            match read_nat rest with
            | Some (n, r) => Some (VInt (- n), r)
            | None => None
            end
          else if startswith "null" s then Some (VNone, string_drop 4 s)
          else if startswith "true" s then Some (VBool true, string_drop 4 s)
          else if startswith "false" s then Some (VBool false, string_drop 5 s)
          else match read_nat s with
               | Some (n, r) => Some (VInt n, r)
               | None => None
               end
      end
  end
with parse_elements (fuel : nat) (s : string) (acc : list value)
  : option (value * string) :=
  match fuel with
  | O => None
  | S fuel' =>
      match parse_value fuel' s with
      | None => None
      | Some (v, rest) =>
          match skip_ws rest with
          | String "," r => parse_elements fuel' (skip_ws r) (acc ++ [v])%list
          | String "]" r => Some (VList (acc ++ [v])%list, r)
          | _ => None
          end
      end
  end
with parse_members (fuel : nat) (s : string) (acc : list (string * value))
  : option (value * string) :=
  match fuel with
  | O => None
  | S fuel' =>
      match s with
      | String c rest =>
          if Ascii.eqb c dquote then
            match read_string rest with
            | None => None
            | Some (key, r1) =>
                match skip_ws r1 with
                | String ":" r2 =>
                    match parse_value fuel' (skip_ws r2) with
                    | None => None
                    | Some (v, r3) =>
                        match skip_ws r3 with
                        | String "," r4 =>
                            parse_members fuel' (skip_ws r4) (dict_set acc key v)
                        | String "}" r4 => Some (VDict (dict_set acc key v), r4)
                        | _ => None
                        end
                    end
                | _ => None
                end
            end
          else None
      | EmptyString => None
      end
  end.

Definition loads (s : string) : outcome value :=
  match parse_value (S (String.length s)) (skip_ws s) with
  | Some (v, rest) =>
      match skip_ws rest with
      | EmptyString => Ret v
      | _ => Raise (Exn JSONDecodeError "Extra data")
      end
  | None => Raise (Exn JSONDecodeError "Expecting value")
  end.

(** A compact rendering of a value whose strings need no escape; it writes
    the texts of the examples. *)
Fixpoint dumps (v : value) : string :=
  match v with
  | VNone => "null"
  | VBool true => "true"
  | VBool false => "false"
  | VInt z => NilEmpty.string_of_int (Z.to_int z)
  | VStr s => quoted s
  | VList l =>
      "[" +:+ String.concat ", " (map dumps l) +:+ "]"
  | VDict d =>
      "{" +:+ String.concat ", "
                (map (fun kv => let '(k, x) := kv in quoted k +:+ ": " +:+ dumps x) d)
          +:+ "}"
  end.

End Json.

(** ** core/ollama_client.py: the tool-call emulation parser *)

Module Ollama.

(** The text up to and including its last closing brace. *)
Fixpoint upto_last_brace (s : string) : option string :=
  match s with
  | EmptyString => None
  | String c s' =>
      match upto_last_brace s' with
      | Some r => Some (String c r)
      | None => if Ascii.eqb c "}"%char then Some (String c EmptyString) else None
      end
  end.

(** What follows the first occurrence of [sub] in [s]. *)
Fixpoint after_first (sub s : string) : option string :=
  if startswith sub s then Some (string_drop (String.length sub) s)
  else match s with
       | EmptyString => None
       | String _ s' => after_first sub s'
       end.

(** The suffix of [s] that starts at its first opening brace. *)
Fixpoint from_first_brace (s : string) : option string :=
  match s with
  | EmptyString => None
  | String c s' => if Ascii.eqb c "{"%char then Some s else from_first_brace s'
  end.

(** [re.search(r'\{.*"tool_calls".*\}', s, re.DOTALL)], then [group(0)].
    The leftmost match starts at the first opening brace; it exists when the
    quoted key occurs after that brace with a closing brace after the key,
    and both [.*] being greedy it ends at the last closing brace of [s]. *)
Definition search_tool_calls (s : string) : option string :=
  match from_first_brace s with
  | Some (String b body) =>
      match after_first (Json.quoted "tool_calls") body with
      | Some tail =>
          match upto_last_brace tail with
          | Some _ => upto_last_brace (String b body)
          | None => None
          end
      | None => None
      end
  | _ => None
  end.

(** [str(n)] for a length. *)
Definition str_of_nat (n : nat) : string := NilEmpty.string_of_uint (Nat.to_uint n).

(** The objects that [for call in tool_calls] visits; an object that is not
    iterable raises [TypeError]. *)
Definition iterate (v : value) : outcome (list value) :=
  match v with
  | VList l => Ret l
  | VDict d => Ret (map (fun kv => VStr (fst kv)) d)
  | VStr s => Ret (map (fun c => VStr (String c EmptyString)) (list_ascii_of_string s))
  | VNone => Raise (Exn TypeError "'NoneType' object is not iterable")
  | VBool _ => Raise (Exn TypeError "'bool' object is not iterable")
  | VInt _ => Raise (Exn TypeError "'int' object is not iterable")
  end.

(** [call["function"].get(key, default)]. *)
Definition function_get (f : value) (key : string) (default : value) : outcome value :=
  match f with
  | VDict d => Ret (default_get d key default)
  | _ => Raise (Exn AttributeError "object has no attribute 'get'")
  end.

(** The dictionary built for one entry that is a [dict] with a [function]
    key; [n] is [len(formatted_calls)]. *)
Definition format_call (call : list (string * value)) (f : value) (n : nat) : outcome value :=
  let id := default_get call "id" (VStr ("call_" +:+ str_of_nat n)) in
  match function_get f "name" (VStr "") with
  | Raise e => Raise e
  | Ret fname =>
      match function_get f "arguments" (VStr "{}") with
      | Raise e => Raise e
      | Ret args =>
          Ret (VDict [("id", id); ("type", VStr "function");
                      ("function", VDict [("name", fname); ("arguments", args)])])
      end
  end.

(** The loop [for call in tool_calls], with the calls formatted so far. *)
Fixpoint format_calls (calls : list value) (formatted_calls : list value)
  : outcome (list value) :=
  match calls with
  | [] => Ret formatted_calls
  | call :: rest =>
      match call with
      | VDict d =>
          match dict_get d "function" with
          | Some f =>
              match format_call d f (length formatted_calls) with
              | Ret c => format_calls rest (formatted_calls ++ [c])%list
              | Raise e => Raise e
              end
          | None => format_calls rest formatted_calls
          end
      | _ => format_calls rest formatted_calls
      end
  end.

(** ["tool_calls" in parsed] followed by [parsed["tool_calls"]]: [None] when the
    key is absent. *)
Definition lookup_tool_calls (parsed : value) : outcome (option value) :=
  match parsed with
  | VDict d => Ret (dict_get d "tool_calls")
  | VList l =>
      if existsb (fun v => match v with VStr s => String.eqb s "tool_calls" | _ => false end) l
      then Raise (Exn TypeError "list indices must be integers or slices, not str")
      else Ret None
  | VStr s =>
      if contains "tool_calls" s
      then Raise (Exn TypeError "string indices must be integers, not 'str'")
      else Ret None
  | VNone => Raise (Exn TypeError "argument of type 'NoneType' is not iterable")
  | VBool _ => Raise (Exn TypeError "argument of type 'bool' is not iterable")
  | VInt _ => Raise (Exn TypeError "argument of type 'int' is not iterable")
  end.

Section Parser.

Variable json_loads : string -> outcome value.

(** The [try] block of [_parse_tool_calls]. *)
Definition parse_try (response_content : string) : outcome (list value) :=
  match search_tool_calls response_content with
  | None => Ret []
  | Some json_str =>
      match json_loads json_str with
      | Raise e => Raise e
      | Ret parsed =>
          match lookup_tool_calls parsed with
          | Raise e => Raise e
          | Ret None => Ret []
          | Ret (Some tool_calls) =>
              match iterate tool_calls with
              | Raise e => Raise e
              | Ret calls => format_calls calls []
              end
          end
      end
  end.

(** [except (json.JSONDecodeError, KeyError, AttributeError)]. *)
Definition caught (e : exn) : bool :=
  subclass (exn_cls e) JSONDecodeError
  || subclass (exn_cls e) KeyError
  || subclass (exn_cls e) AttributeError.

Definition _parse_tool_calls (response_content : string) : outcome (list value) :=
  match parse_try response_content with
  | Raise e => if caught e then Ret [] else Raise e
  | r => r
  end.

Record AssistantMessage := {
  m_role : string;
  m_content : option string;
  m_tool_calls : option (list value);
}.

(** The message that [_handle_tool_calling_completion] builds from the text of
    the model's answer. *)
Definition tool_calling_message (response_content : string) : outcome AssistantMessage :=
  match _parse_tool_calls response_content with
  | Raise e => Raise e
  | Ret tool_calls =>
      Ret {| m_role := "assistant";
             m_content := match tool_calls with [] => Some response_content | _ => None end;
             m_tool_calls := match tool_calls with [] => None | _ => Some tool_calls end |}
  end.

End Parser.

End Ollama.

(** ** workflows/workflow_engine.py *)

Module Engine.

Inductive WorkflowStatus := W_PENDING | W_RUNNING | W_COMPLETED | W_FAILED | W_CANCELLED.
Inductive StepStatus := PENDING | RUNNING | COMPLETED | FAILED | SKIPPED.

#[export] Instance WorkflowStatus_eq_dec : EqDecision WorkflowStatus.
Proof. solve_decision. Defined.
#[export] Instance StepStatus_eq_dec : EqDecision StepStatus.
Proof. solve_decision. Defined.

Record WorkflowStep := {
  id : string;
  name : string;
  tool : string;
  parameters : list (string * value);
  condition : option string;
  retry_count : Z;
  max_retries : Z;
  timeout : option Z;
  on_failure : string;
  status : StepStatus;
  result : option Base.ToolResult;
  error : option string;
  started_at : option string;
  completed_at : option string;
}.

(** The fields that a run assigns. *)
Definition set_status (s : WorkflowStep) (st : StepStatus) : WorkflowStep :=
  {| id := id s; name := name s; tool := tool s; parameters := parameters s;
     condition := condition s; retry_count := retry_count s;
     max_retries := max_retries s; timeout := timeout s; on_failure := on_failure s;
     status := st; result := result s; error := error s;
     started_at := started_at s; completed_at := completed_at s |}.

Definition set_result (s : WorkflowStep) (r : Base.ToolResult) : WorkflowStep :=
  {| id := id s; name := name s; tool := tool s; parameters := parameters s;
     condition := condition s; retry_count := retry_count s;
     max_retries := max_retries s; timeout := timeout s; on_failure := on_failure s;
     status := status s; result := Some r; error := error s;
     started_at := started_at s; completed_at := completed_at s |}.

Definition set_error (s : WorkflowStep) (e : option string) : WorkflowStep :=
  {| id := id s; name := name s; tool := tool s; parameters := parameters s;
     condition := condition s; retry_count := retry_count s;
     max_retries := max_retries s; timeout := timeout s; on_failure := on_failure s;
     status := status s; result := result s; error := e;
     started_at := started_at s; completed_at := completed_at s |}.

Definition set_started_at (s : WorkflowStep) (t : string) : WorkflowStep :=
  {| id := id s; name := name s; tool := tool s; parameters := parameters s;
     condition := condition s; retry_count := retry_count s;
     max_retries := max_retries s; timeout := timeout s; on_failure := on_failure s;
     status := status s; result := result s; error := error s;
     started_at := Some t; completed_at := completed_at s |}.

Definition set_completed_at (s : WorkflowStep) (t : string) : WorkflowStep :=
  {| id := id s; name := name s; tool := tool s; parameters := parameters s;
     condition := condition s; retry_count := retry_count s;
     max_retries := max_retries s; timeout := timeout s; on_failure := on_failure s;
     status := status s; result := result s; error := error s;
     started_at := started_at s; completed_at := Some t |}.

Definition set_retry_count (s : WorkflowStep) (n : Z) : WorkflowStep :=
  {| id := id s; name := name s; tool := tool s; parameters := parameters s;
     condition := condition s; retry_count := n;
     max_retries := max_retries s; timeout := timeout s; on_failure := on_failure s;
     status := status s; result := result s; error := error s;
     started_at := started_at s; completed_at := completed_at s |}.

(** The fields of [Workflow] that the engine reads or writes ([version], [author],
    [tags] and [created_at] are carried along untouched and left out). *)
Record Workflow := {
  wf_id : string;
  wf_name : string;
  wf_description : string;
  wf_steps : list WorkflowStep;
  wf_variables : list (string * value);
  wf_status : WorkflowStatus;
  wf_started_at : option string;
  wf_completed_at : option string;
  wf_error : option string;
}.

(** [step.result.result], when the step has a result. *)
Definition payload (s : WorkflowStep) : option value :=
  match result s with Some r => Some (Base.result r) | None => None end.

Definition status_eqb (a b : StepStatus) : bool := bool_decide (a = b).
Definition wstatus_eqb (a b : WorkflowStatus) : bool := bool_decide (a = b).

(** What the loop over the steps does after one step. *)
Inductive flow := Next | Break.

(** What [eval] returns: an object of the [value] universe, or any other
    object, of which the loop only takes the truth value ([not obj]); the
    truth test of such an object ([__bool__], [__len__]) is code of its own
    and may raise. *)
Inductive eval_object :=
| Plain (v : value)
| Opaque (truth : outcome bool).

(** [bool(obj)]. *)
Definition truth_test (o : eval_object) : outcome bool :=
  match o with
  | Plain v => Ret (truthy v)
  | Opaque truth => truth
  end.

Section WithWorld.

(** The world of the tool bodies, with the two renderings of [datetime.now()]:
    [isoformat()] and [strftime("%Y%m%d_%H%M%S")].  [repr_container] is [str(v)]
    for a list or a dict, and [py_eval] is the builtin [eval] applied to an
    expression in the scope where [variables] is the bag itself: it returns
    an object or raises, and, the expression being arbitrary code, it leaves
    the bag and the world as that code left them.  (The expression sees the
    engine too, as [self]; the registry is held fixed during a run, for the
    expressions as for the tool bodies.) *)
Context {World : Type}.
Variable now_iso : World -> string.
Variable now_compact : World -> string.
Variable repr_container : value -> string.
Variable py_eval :
  string -> list (string * value) -> World ->
  outcome eval_object * list (string * value) * World.

Definition bag := list (string * value).

(** [str(value)]. *)
Definition py_str (v : value) : string :=
  match v with
  | VStr s => s
  | VNone => "None"
  | VBool true => "True"
  | VBool false => "False"
  | VInt z => NilEmpty.string_of_int (Z.to_int z)
  | _ => repr_container v
  end.

(** [f"{{{{{key}}}}}"]. *)
Definition placeholder (key : string) : string := "{{" +:+ key +:+ "}}".

(** The string case of [_substitute_variables]. *)
Definition substitute_str (obj : string) (variables : bag) (w : World) : string :=
  let obj := if contains "{{now}}" obj then replace "{{now}}" (now_iso w) obj else obj in
  let obj :=
    if contains "{{timestamp}}" obj
    then replace "{{timestamp}}" (now_compact w) obj else obj in
  fold_left
    (fun obj kv =>
       if contains (placeholder (fst kv)) obj
       then replace (placeholder (fst kv)) (py_str (snd kv)) obj
       else obj)
    variables obj.

Fixpoint _substitute_variables (obj : value) (variables : bag) (w : World) : value :=
  match obj with
  | VStr s => VStr (substitute_str s variables w)
  | VDict d =>
      VDict (map (fun kv => let '(k, v) := kv in (k, _substitute_variables v variables w)) d)
  | VList l => VList (map (fun item => _substitute_variables item variables w) l)
  | _ => obj
  end.

(** [_substitute_variables(step.parameters, variables)], the parameter map
    being a [dict]. *)
Definition substitute_parameters (params : list (string * value)) (variables : bag) (w : World)
  : list (string * value) :=
  map (fun kv => let '(k, v) := kv in (k, _substitute_variables v variables w)) params.

(** The expression that [_evaluate_condition] hands to [eval]. *)
Definition condition_text (condition : string) (variables : bag) : string :=
  fold_left (fun c kv => replace (placeholder (fst kv)) (py_str (snd kv)) c)
            variables condition.

(** The object that [_evaluate_condition] returns: what [eval] returns, or
    [True] when it raises; the bag and the world are as [eval] left them in
    both cases. *)
Definition _evaluate_condition (condition : string) (variables : bag) (w : World)
  : eval_object * bag * World :=
  match py_eval (condition_text condition variables) variables w with
  | (Ret o, variables, w) => (o, variables, w)
  | (Raise _, variables, w) => (Plain (VBool true), variables, w)
  end.

Definition _execute_step (reg : Base.ToolRegistry (World := World))
           (step : WorkflowStep) (variables : bag) (w : World)
  : WorkflowStep * bag * World :=
  let step := set_started_at (set_status step RUNNING) (now_iso w) in
  let parameters := substitute_parameters (parameters step) variables w in
  match Base.tools reg !! tool step with
  | Some t =>
      match Base.execute t parameters w with
      | (Ret r, w') =>
          let step := set_result step r in
          if Base.success r then
            let variables :=
              if truthy (Base.result r) && is_dict (Base.result r)
              then dict_update variables [(id step +:+ "_result", Base.result r)]
              else variables in
            (set_completed_at (set_status step COMPLETED) (now_iso w'), variables, w')
          else
            (set_completed_at (set_error (set_status step FAILED) (Base.error r)) (now_iso w'),
             variables, w')
      | (Raise e, w') =>
          (set_completed_at (set_error (set_status step FAILED) (Some (exn_str e))) (now_iso w'),
           variables, w')
      end
  | None =>
      (set_completed_at
         (set_error (set_status step FAILED) (Some ("Tool '" +:+ tool step +:+ "' not found")))
         (now_iso w),
       variables, w)
  end.

(** [step.condition and not self._evaluate_condition(...)].  The [not] is
    applied in [execute_workflow], outside the [try] of
    [_evaluate_condition]: an exception of the truth test is not turned into
    [True], it leaves the loop. *)
Definition condition_rejects (step : WorkflowStep) (variables : bag) (w : World)
  : outcome bool * bag * World :=
  match condition step with
  | Some (String c cs) =>
      let '(o, variables, w) := _evaluate_condition (String c cs) variables w in
      match truth_test o with
      | Ret b => (Ret (negb b), variables, w)
      | Raise e => (Raise e, variables, w)
      end
  | _ => (Ret false, variables, w)
  end.

(** The statements after the condition check: execution, then the failure
    policy. *)
Definition run_step (reg : Base.ToolRegistry (World := World)) (step : WorkflowStep)
           (wstatus : WorkflowStatus) (werror : option string) (variables : bag) (w : World)
  : WorkflowStep * WorkflowStatus * option string * bag * World * flow :=
  let '(step, variables, w) := _execute_step reg step variables w in
  if status_eqb (status step) FAILED then
    if String.eqb (on_failure step) "stop" then
      (step, W_FAILED, error step, variables, w, Break)
    else if String.eqb (on_failure step) "retry" && (retry_count step <? max_retries step) then
      let step := set_status (set_retry_count step (retry_count step + 1)) PENDING in
      let '(step, variables, w) := _execute_step reg step variables w in
      (step, wstatus, werror, variables, w, Next)
    else (step, wstatus, werror, variables, w, Next)
  else (step, wstatus, werror, variables, w, Next).

(** The body of [for step in workflow.steps].  The loop stands in the [try]
    of [execute_workflow]; the one exception that reaches its
    [except Exception as e] is that of the truth test of a condition, and the
    handler sets [workflow.status = FAILED] and [workflow.error = str(e)] and
    goes on to the statements after the [try]: the loop is left with these
    two values, the step untouched. *)
Definition loop_body (reg : Base.ToolRegistry (World := World)) (step : WorkflowStep)
           (wstatus : WorkflowStatus) (werror : option string) (variables : bag) (w : World)
  : WorkflowStep * WorkflowStatus * option string * bag * World * flow :=
  if wstatus_eqb wstatus W_CANCELLED then (step, wstatus, werror, variables, w, Break)
  else
    match condition_rejects step variables w with
    | (Ret true, variables, w) =>
        (set_status step SKIPPED, wstatus, werror, variables, w, Next)
    | (Ret false, variables, w) => run_step reg step wstatus werror variables w
    | (Raise e, variables, w) => (step, W_FAILED, Some (exn_str e), variables, w, Break)
    end.

Fixpoint run_steps (reg : Base.ToolRegistry (World := World)) (steps : list WorkflowStep)
         (wstatus : WorkflowStatus) (werror : option string) (variables : bag) (w : World)
  : list WorkflowStep * WorkflowStatus * option string * bag * World :=
  match steps with
  | [] => ([], wstatus, werror, variables, w)
  | step :: rest =>
      match loop_body reg step wstatus werror variables w with
      | (step', wstatus', werror', variables', w', Break) =>
          (step' :: rest, wstatus', werror', variables', w')
      | (step', wstatus', werror', variables', w', Next) =>
          let '(rest', wstatus'', werror'', variables'', w'') :=
            run_steps reg rest wstatus' werror' variables' w' in
          (step' :: rest', wstatus'', werror'', variables'', w'')
      end
  end.

(** [f"Failed steps: {[s.name for s in failed_steps]}"]. *)
Definition failed_steps_message (steps : list WorkflowStep) : string :=
  "Failed steps: " +:+
  repr_container (VList (map (fun s => VStr (name s))
                             (List.filter (fun s => status_eqb (status s) FAILED) steps))).

(** [execute_workflow].  The exceptions of the tool bodies are caught in
    [_execute_step] and those of [eval] in [_evaluate_condition]; the
    exception of a truth test is caught by the [except Exception] of this
    function, which [loop_body] renders: the status it sets is not [RUNNING],
    so the final status is left as the handler set it, and [completed_at] is
    assigned on both paths. *)
Definition execute_workflow (reg : Base.ToolRegistry (World := World)) (workflow : Workflow)
           (variables : option bag) (w : World)
  : outcome Workflow * World :=
  let started := now_iso w in
  let vars :=
    match variables with
    | Some (kv :: more) => dict_update (wf_variables workflow) (kv :: more)
    | _ => wf_variables workflow
    end in
  let '(steps, wstatus, werror, vars, w') :=
    run_steps reg (wf_steps workflow) W_RUNNING (wf_error workflow) vars w in
  let failed := existsb (fun s => status_eqb (status s) FAILED) steps in
  let '(wstatus, werror) :=
    if wstatus_eqb wstatus W_RUNNING then
      if failed then (W_FAILED, Some (failed_steps_message steps))
      else (W_COMPLETED, werror)
    else (wstatus, werror) in
  (Ret {| wf_id := wf_id workflow; wf_name := wf_name workflow;
          wf_description := wf_description workflow;
          wf_steps := steps; wf_variables := vars; wf_status := wstatus;
          wf_started_at := Some started; wf_completed_at := Some (now_iso w');
          wf_error := werror |}, w').

End WithWorld.

End Engine.

(** ** tools/base.py: definitions, look-ups by category and statistics *)

Module Introspection.
Import Base.

Record ToolDefinition := {
  d_name : string;
  d_description : string;
  d_parameters : value;
  d_category : ToolCategory;
  d_enabled : bool;
  d_requires_confirmation : bool;
  d_dangerous : bool;
}.

(** [category.value]. *)
Definition category_value (c : ToolCategory) : string :=
  match c with
  | FILE_OPERATIONS => "file_operations"
  | WEB_TOOLS => "web_tools"
  | GIT_TOOLS => "git_tools"
  | CODE_TOOLS => "code_tools"
  | SYSTEM_TOOLS => "system_tools"
  | CUSTOM => "custom"
  end.

(** The dictionary [prop_def] that [get_tool_definition] builds for one
    parameter. *)
Definition prop_def (param : ToolParameter) : list (string * value) :=
  let d := [("type", VStr (p_type param)); ("description", VStr (p_description param))] in
  let d := match nonempty_list (p_enum param) with
           | Some e => dict_set d "enum" (VList (map VStr e))
           | None => d
           end in
  let d := match nonempty_str (p_pattern param) with
           | Some pat => dict_set d "pattern" (VStr pat)
           | None => d
           end in
  let d := match p_min_value param with
           | Some m => dict_set d "minimum" (VInt m)
           | None => d
           end in
  let d := match p_max_value param with
           | Some m => dict_set d "maximum" (VInt m)
           | None => d
           end in
  let d := match p_min_length param with
           | Some m => dict_set d "minLength" (VInt m)
           | None => d
           end in
  let d := match p_max_length param with
           | Some m => dict_set d "maxLength" (VInt m)
           | None => d
           end in
  match p_default param with
  | VNone => d
  | v => dict_set d "default" v
  end.

(** The loop [for param in parameters] over the accumulators [properties]
    and [required]. *)
Fixpoint schema_loop (parameters : list ToolParameter)
         (properties : list (string * value)) (required : list string)
  : list (string * value) * list string :=
  match parameters with
  | [] => (properties, required)
  | param :: rest =>
      schema_loop rest
        (dict_set properties (p_name param) (VDict (prop_def param)))
        (if p_required param then (required ++ [p_name param])%list else required)
  end.

Definition parameter_schema (parameters : list ToolParameter) : value :=
  let '(properties, required) := schema_loop parameters [] [] in
  VDict [("type", VStr "object"); ("properties", VDict properties);
         ("required", VList (map VStr required))].

Section WithWorld.

Context {World : Type}.

(** [get_tool_definition].  [parameters_attr] is the attribute
    [self.parameters] of the tool object when it has one, and the two flags
    are its properties [requires_confirmation] and [dangerous]. *)
Definition get_tool_definition (self : BaseTool (World := World))
           (parameters_attr : option value) (requires_confirmation dangerous : bool)
  : ToolDefinition :=
  let schema :=
    match parameters_attr with
    | Some (VDict d) => VDict d
    | _ => parameter_schema (get_parameters self)
    end in
  {| d_name := name self; d_description := description self; d_parameters := schema;
     d_category := category self; d_enabled := enabled self;
     d_requires_confirmation := requires_confirmation; d_dangerous := dangerous |}.

(** [[self.tools[name] for name in tool_names if name in self.tools]]. *)
Fixpoint tools_named (tools : gmap string (BaseTool (World := World))) (tool_names : list string)
  : list BaseTool :=
  match tool_names with
  | [] => []
  | n :: rest =>
      match tools !! n with
      | Some t => t :: tools_named tools rest
      | None => tools_named tools rest
      end
  end.

Definition get_tools_by_category (reg : ToolRegistry (World := World)) (c : ToolCategory)
  : list BaseTool :=
  tools_named (tools reg) (default [] (categories reg !! c)).

Record Stats := {
  s_name : string;
  s_category : string;
  s_enabled : bool;
  s_execution_count : Z;
  s_error_count : Z;
  s_success_rate : Q;
  s_avg_execution_time : Q;
  s_total_execution_time : Z;
}.

(** [get_stats]; the two quotients are exact rationals. *)
Definition get_stats (self : BaseTool (World := World)) : Stats :=
  let avg_execution_time :=
    if 0 <? execution_count self
    then Qmake (total_execution_time self) (Z.to_pos (execution_count self))
    else 0%Q in
  let success_rate :=
    if 0 <? execution_count self
    then Qmake (execution_count self - error_count self) (Z.to_pos (execution_count self))
    else 1%Q in
  {| s_name := name self; s_category := category_value (category self);
     s_enabled := enabled self; s_execution_count := execution_count self;
     s_error_count := error_count self; s_success_rate := success_rate;
     s_avg_execution_time := avg_execution_time;
     s_total_execution_time := total_execution_time self |}.

(** The counters are in range: no more errors than executions. *)
Definition counters_ok (self : BaseTool (World := World)) : Prop :=
  0 <= error_count self <= execution_count self.

(** Every name in a list of the category index is the key of a tool of that
    category, and no list repeats a name. *)
Definition index_exact (reg : ToolRegistry (World := World)) : Prop :=
  forall c names, categories reg !! c = Some names ->
    List.NoDup names
    /\ forall n, In n names -> exists t, tools reg !! n = Some t /\ category t = c.

(** A registration that keeps the category of the name it replaces. *)
Definition keeps_category (reg : ToolRegistry (World := World))
           (op : registry_op (World := World)) : Prop :=
  match op with
  | Register t =>
      forall t0 : BaseTool (World := World),
        tools reg !! name t = Some t0 -> category t0 = category t
  | Unregister _ => True
  end.

Fixpoint category_stable (reg : ToolRegistry (World := World))
         (ops : list (registry_op (World := World))) : Prop :=
  match ops with
  | [] => True
  | op :: rest => keeps_category reg op /\ category_stable (apply_op reg op) rest
  end.

(** No list of the category index repeats a name. *)
Definition lists_without_repeats (reg : ToolRegistry (World := World)) : Prop :=
  forall c names, categories reg !! c = Some names -> List.NoDup names.

End WithWorld.

(** Every supplied argument that names a declared parameter has the declared
    type and satisfies the declared constraints. *)
Definition arguments_valid (re_match : string -> string -> outcome bool)
           (parameters : list ToolParameter) (kw : kwargs) : Prop :=
  forall n v p, In (n, v) kw -> param_dict parameters n = Some p ->
    _validate_type v (p_type p) = true /\ _validate_constraints re_match v p = Ret true.

(** What validation is to decide, stated on its own and not through the
    functions above.  The type names are those of the table [type_map]: an
    object has a declared type when it is an instance of the class the name
    stands for ([bool] being a subclass of [int]), and every object has a
    type whose name is not in the table. *)
Inductive has_type : value -> string -> Prop :=
| string_is_str (s : string) : has_type (VStr s) "string"
| integer_is_int (z : Z) : has_type (VInt z) "integer"
| integer_is_bool (b : bool) : has_type (VBool b) "integer"
| number_is_int (z : Z) : has_type (VInt z) "number"
| number_is_bool (b : bool) : has_type (VBool b) "number"
| boolean_is_bool (b : bool) : has_type (VBool b) "boolean"
| array_is_list (l : list value) : has_type (VList l) "array"
| object_is_dict (d : list (string * value)) : has_type (VDict d) "object"
| unknown_type (v : value) (ty : string) :
    ~ In ty ["string"; "integer"; "number"; "boolean"; "array"; "object"] ->
    has_type v ty.

(** The number that an instance of [int] is. *)
Inductive number_of : value -> Z -> Prop :=
| int_number (z : Z) : number_of (VInt z) z
| true_number : number_of (VBool true) 1
| false_number : number_of (VBool false) 0.

(** The declared constraints: a non-empty enumeration holds the value; a
    non-empty pattern matches a string; a number is within the bounds; the
    number of code points of a string is within the length bounds. *)
Definition within_constraints (re_match : string -> string -> outcome bool)
           (v : value) (p : ToolParameter) : Prop :=
  (forall x e, p_enum p = Some (x :: e) -> exists s, v = VStr s /\ In s (x :: e))
  /\ (forall c pat s, p_pattern p = Some (String c pat) -> v = VStr s ->
                      re_match (String c pat) s = Ret true)
  /\ (forall m z, p_min_value p = Some m -> number_of v z -> m <= z)
  /\ (forall m z, p_max_value p = Some m -> number_of v z -> z <= m)
  /\ (forall m s, p_min_length p = Some m -> v = VStr s -> m <= Z.of_nat (py_len s))
  /\ (forall m s, p_max_length p = Some m -> v = VStr s -> Z.of_nat (py_len s) <= m).

(** [p] is the last of the declarations that carry the name [n]. *)
Definition last_declared (parameters : list ToolParameter) (n : string) (p : ToolParameter)
  : Prop :=
  exists before after,
    parameters = (before ++ p :: after)%list
    /\ p_name p = n
    /\ forall q, In q after -> p_name q <> n.

End Introspection.

(** ** core/api.py: the streamed response and the conversion of a local answer *)

Module Streaming.

(** The characters that [str.strip()] removes, in ASCII. *)
Definition is_space (c : ascii) : bool :=
  let n := nat_of_ascii c in
  ((n =? 32) || ((9 <=? n) && (n <=? 13)) || ((28 <=? n) && (n <=? 31)))%nat.

Fixpoint lstrip (s : string) : string :=
  match s with
  | String c s' => if is_space c then lstrip s' else s
  | EmptyString => EmptyString
  end.

(** [s.rstrip()]: a character stays when something that is not a space
    follows it. *)
Fixpoint rstrip (s : string) : string :=
  match s with
  | EmptyString => EmptyString
  | String c s' =>
      match rstrip s' with
      | EmptyString => if is_space c then EmptyString else String c EmptyString
      | r => String c r
      end
  end.

Definition strip (s : string) : string := rstrip (lstrip s).

(** How the generator of [_stream_request] ends. *)
Inductive stream_end :=
| Finished
| Failed (e : exn).

Section Stream.

Variable json_loads : string -> outcome value.

(** The loop [async for line in response.aiter_lines()]: the chunks yielded,
    in order, and how the loop ends. *)
Fixpoint stream_lines (lines : list string) : list value * stream_end :=
  match lines with
  | [] => ([], Finished)
  | line :: rest =>
      if startswith "data: " line then
        let chunk_data := string_drop 6 line in
        if String.eqb (strip chunk_data) "[DONE]" then ([], Finished)
        else match json_loads chunk_data with
             | Ret chunk =>
                 let '(chunks, e) := stream_lines rest in (chunk :: chunks, e)
             | Raise e =>
                 if subclass (exn_cls e) JSONDecodeError then stream_lines rest
                 else ([], Failed e)
             end
      else stream_lines rest
  end.

(** [_stream_request]: [error_text] is the rendering of the body of a
    response that is not a 200. *)
Definition _stream_request (status : Z) (error_text : string) (lines : list string)
  : list value * stream_end :=
  if negb (status =? 200)
  then ([], Failed (Exn OpenRouterError ("Streaming request failed: " +:+ error_text)))
  else stream_lines lines.

(** The sentinel frame. *)
Definition is_done (line : string) : bool :=
  startswith "data: " line && String.eqb (strip (string_drop 6 line)) "[DONE]".

(** A line that the loop passes over: not a data line, or a payload that
    [json.loads] rejects. *)
Definition is_skipped (line : string) : bool :=
  negb (startswith "data: " line)
  || (negb (String.eqb (strip (string_drop 6 line)) "[DONE]")
      && match json_loads (string_drop 6 line) with
         | Raise e => subclass (exn_cls e) JSONDecodeError
         | Ret _ => false
         end).

End Stream.

(** The fields of the local client's [ChatResponse] that
    [_handle_ollama_completion] reads. *)
Record OllamaResponse := {
  o_message : option (list (string * value));
  o_prompt_eval_count : option Z;
  o_eval_count : option Z;
}.

(** [x or 0]. *)
Definition or_zero (x : option Z) : Z := match x with Some z => z | None => 0 end.

(** [response.message] is a non-empty dictionary. *)
Definition message_of (r : OllamaResponse) : option (list (string * value)) :=
  match o_message r with
  | Some (kv :: d) => Some (kv :: d)
  | _ => None
  end.

(** The dictionary [message] that [_handle_ollama_completion] builds. *)
Definition converted_message (r : OllamaResponse) : list (string * value) :=
  let content :=
    match message_of r with
    | Some d => default_get d "content" (VStr "")
    | None => VStr ""
    end in
  let message := [("role", VStr "assistant"); ("content", content)] in
  match message_of r with
  | Some d =>
      match dict_get d "tool_calls" with
      | Some tc =>
          let message := dict_set message "tool_calls" tc in
          if truthy tc then dict_set message "content" VNone else message
      | None => message
      end
  | None => message
  end.

(** The [ChatResponse] returned for the answer of the local model. *)
Definition convert_ollama_response (model : string) (r : OllamaResponse) : Api.ChatResponse :=
  let ollama_model := replace "ollama/" "" model in
  {| Api.cr_id := VStr ("ollama-" +:+ ollama_model);
     Api.cr_model := VStr model;
     Api.cr_choices := VList [VDict [("message", VDict (converted_message r))]];
     Api.cr_usage :=
       VDict [("prompt_tokens", VInt (or_zero (o_prompt_eval_count r)));
              ("completion_tokens", VInt (or_zero (o_eval_count r)));
              ("total_tokens",
               VInt (or_zero (o_prompt_eval_count r) + or_zero (o_eval_count r)))];
     Api.cr_created := VInt 0 |}.

(** The dictionary [message] that [_handle_tool_calling_completion] puts in the
    local client's response. *)
Definition emulated_message_dict (m : Ollama.AssistantMessage) : list (string * value) :=
  let message :=
    [("role", VStr (Ollama.m_role m));
     ("content", match Ollama.m_content m with Some s => VStr s | None => VNone end)] in
  match Ollama.m_tool_calls m with
  | Some calls => dict_set message "tool_calls" (VList calls)
  | None => message
  end.

End Streaming.

(** ** core/ollama_client.py: the conversation of the emulation prompt *)

Module Prompt.

Record ChatMessage := {
  role : string;
  content : string;
}.

Definition newline : string := String "010"%char EmptyString.

(** One turn of the loop that builds [conversation]. *)
Definition add_turn (conversation : string) (msg : ChatMessage) : string :=
  if String.eqb (role msg) "user"
  then conversation +:+ ("Human: " +:+ content msg +:+ newline)
  else if String.eqb (role msg) "assistant"
  then conversation +:+ ("Assistant: " +:+ content msg +:+ newline)
  else if String.eqb (role msg) "system"
  then ("System: " +:+ content msg +:+ newline) +:+ conversation
  else conversation.

(** The text [conversation] of [_create_tool_calling_prompt]. *)
Definition conversation_of (messages : list ChatMessage) : string :=
  fold_left add_turn messages EmptyString.

Definition is_system (msg : ChatMessage) : bool := String.eqb (role msg) "system".

Definition is_turn (msg : ChatMessage) : bool :=
  String.eqb (role msg) "user" || String.eqb (role msg) "assistant"
  || String.eqb (role msg) "system".

End Prompt.

(** ** workflows/workflow_engine.py: templates *)

Module Templates.
Import Engine.

(** An entry of the list [steps] of a template; the keys that the built-in
    templates may leave out are optional. *)
Record TemplateStep := {
  ts_id : string;
  ts_name : string;
  ts_tool : string;
  ts_parameters : list (string * value);
  ts_condition : option string;
  ts_max_retries : option Z;
  ts_timeout : option Z;
  ts_on_failure : option string;
}.

Record Template := {
  t_name : string;
  t_description : string;
  t_steps : list TemplateStep;
  t_variables : list (string * value);
}.

(** [WorkflowStep(id=..., ...)] from an entry of a template. *)
Definition step_of (d : TemplateStep) : WorkflowStep :=
  {| id := ts_id d; name := ts_name d; tool := ts_tool d; parameters := ts_parameters d;
     condition := ts_condition d; retry_count := 0;
     max_retries := match ts_max_retries d with Some n => n | None => 3 end;
     timeout := ts_timeout d;
     on_failure := match ts_on_failure d with Some p => p | None => "stop" end;
     status := PENDING; result := None; error := None;
     started_at := None; completed_at := None |}.

(** [create_workflow_from_template], with the dictionary [self.templates] before
    and after: [workflow_variables.update(variables)] updates the dictionary
    of the template itself, which the new workflow shares. *)
Definition create_workflow_from_template (templates : gmap string Template)
           (template_name workflow_id : string) (variables : option (list (string * value)))
  : option Workflow * gmap string Template :=
  match templates !! template_name with
  | None => (None, templates)
  | Some template =>
      let workflow_variables :=
        match variables with
        | Some (kv :: more) => dict_update (t_variables template) (kv :: more)
        | _ => t_variables template
        end in
      (Some {| wf_id := workflow_id; wf_name := t_name template;
               wf_description := t_description template;
               wf_steps := map step_of (t_steps template);
               wf_variables := workflow_variables;
               wf_status := W_PENDING; wf_started_at := None;
               wf_completed_at := None; wf_error := None |},
       <[template_name :=
           {| t_name := t_name template; t_description := t_description template;
              t_steps := t_steps template; t_variables := workflow_variables |}]> templates)
  end.

End Templates.

(** ** Shapes of the results *)

Module Shapes.

(** The normal form of a tool call: the keys [id], [type] and [function], the
    type "function", and a function with the keys [name] and [arguments]. *)
Definition normal_call (c : value) : Prop :=
  exists i fname args,
    c = VDict [("id", i); ("type", VStr "function");
               ("function", VDict [("name", fname); ("arguments", args)])].

(** [call["id"]] of a formatted call. *)
Definition call_id (c : value) : option value :=
  match c with
  | VDict d => dict_get d "id"
  | _ => None
  end.

(** The entry is a dictionary without the key [id]. *)
Definition lacks_id (c : value) : Prop :=
  match c with
  | VDict d => dict_get d "id" = None
  | _ => True
  end.

(** The fields of a step that a run does not assign. *)
Definition static_fields (s : Engine.WorkflowStep)
  : string * string * string * list (string * value) * option string * Z * option Z * string :=
  (Engine.id s, Engine.name s, Engine.tool s, Engine.parameters s, Engine.condition s,
   Engine.max_retries s, Engine.timeout s, Engine.on_failure s).

(** The step was processed to its end: completed or skipped. *)
Definition settled (s : Engine.WorkflowStep) : Prop :=
  Engine.status s = Engine.COMPLETED \/ Engine.status s = Engine.SKIPPED.

(** Whatever [eval] returns has a truth test that returns. *)
Definition truth_tests_return {World : Type}
           (py_eval : string -> list (string * value) -> World ->
                      outcome Engine.eval_object * list (string * value) * World) : Prop :=
  forall (expression : string) (variables : list (string * value)) (w : World),
    match fst (fst (py_eval expression variables w)) with
    | Ret o => raises (Engine.truth_test o) = false
    | Raise _ => True
    end.

End Shapes.

(** ** Concrete tools, registries and workflows

    The world of these samples is the number of tool bodies run so far; the
    clock advances by one tick per body. *)

Module Samples.

Definition clock (w : nat) : Z := Z.of_nat w.
Definition any_match (pattern text : string) : outcome bool := Ret true.

Definition string_param (n : string) : Base.ToolParameter :=
  {| Base.p_name := n; Base.p_type := "string"; Base.p_description := "";
     Base.p_required := true; Base.p_default := VNone; Base.p_enum := None;
     Base.p_pattern := None; Base.p_min_value := None; Base.p_max_value := None;
     Base.p_min_length := None; Base.p_max_length := None |}.

(** A string parameter of exactly one character. *)
Definition letter_param (n : string) : Base.ToolParameter :=
  {| Base.p_name := n; Base.p_type := "string"; Base.p_description := "";
     Base.p_required := true; Base.p_default := VNone; Base.p_enum := None;
     Base.p_pattern := None; Base.p_min_value := None; Base.p_max_value := None;
     Base.p_min_length := Some 1; Base.p_max_length := Some 1 |}.

(** The letter e with an acute accent, U+00E9: the bytes C3 A9. *)
Definition e_acute : string :=
  String (ascii_of_nat 195) (String (ascii_of_nat 169) EmptyString).

Definition make_tool (n : string) (c : Base.ToolCategory) (ps : list Base.ToolParameter)
           (body : list (string * value) -> nat -> outcome Base.ToolResult * nat)
           (on : bool) : Base.BaseTool :=
  {| Base.name := n; Base.description := ""; Base.category := c;
     Base.get_parameters := ps; Base.execute := body; Base.enabled := on;
     Base.execution_count := 0; Base.total_execution_time := 0;
     Base.error_count := 0 |}.

Definition ok (payload : value) : Base.ToolResult :=
  {| Base.success := true; Base.result := payload; Base.error := None;
     Base.execution_time := 0; Base.metadata := [] |}.

(** Returns its single string parameter unchanged as the payload. *)
Definition echo_body (kw : list (string * value)) (w : nat) : outcome Base.ToolResult * nat :=
  (Ret (ok (default_get kw "text" VNone)), S w).

(** Raises. *)
Definition boom_body (kw : list (string * value)) (w : nat) : outcome Base.ToolResult * nat :=
  (Raise (Exn PlainException "boom"), S w).

(** Returns a failure result. *)
Definition fail_body (kw : list (string * value)) (w : nat) : outcome Base.ToolResult * nat :=
  (Ret (Base.failure "nope" 0), S w).

Definition echo := make_tool "echo" Base.CUSTOM [string_param "text"] echo_body true.
Definition boom := make_tool "boom" Base.CUSTOM [] boom_body true.
Definition fails := make_tool "fails" Base.CUSTOM [] fail_body true.
Definition off := make_tool "off" Base.CUSTOM [] echo_body false.
Definition initial := make_tool "initial" Base.CUSTOM [letter_param "text"] echo_body true.

(** Two tools with one name and different categories. *)
Definition reader_v1 := make_tool "reader" Base.FILE_OPERATIONS [] echo_body true.
Definition reader_v2 := make_tool "reader" Base.WEB_TOOLS [] echo_body true.

Definition registry : Base.ToolRegistry :=
  Base.apply_ops Base.empty_registry
    [Base.Register echo; Base.Register boom; Base.Register fails; Base.Register off].

Definition iso (w : nat) : string := "2024-01-01T00:00:00".
Definition compact (w : nat) : string := "20240101_000000".
Definition no_repr (v : value) : string := "".

(** An expression whose value is an object with a [__len__] that returns -1:
    its truth test raises [ValueError]. *)
Definition negative_len : string := "type('N', (), {'__len__': lambda s: -1})()".

(** The builtin [eval] on the expressions used below; any other text is
    answered as an expression that cannot be evaluated.  [variables.clear()]
    empties the bag, which is the dictionary in scope, and returns [None]. *)
Definition eval_table (expression : string) (variables : list (string * value)) (w : nat)
  : outcome Engine.eval_object * list (string * value) * nat :=
  if String.eqb expression "True" then (Ret (Engine.Plain (VBool true)), variables, w)
  else if String.eqb expression "False" then (Ret (Engine.Plain (VBool false)), variables, w)
  else if String.eqb expression "False == true"
  then (Raise (Exn NameError "name 'true' is not defined"), variables, w)
  else if String.eqb expression "variables.clear()"
  then (Ret (Engine.Plain VNone), [], w)
  else (Raise (Exn PlainException "invalid syntax"), variables, w).

(** The same, with the expression [negative_len] answered too. *)
Definition eval_objects (expression : string) (variables : list (string * value)) (w : nat)
  : outcome Engine.eval_object * list (string * value) * nat :=
  if String.eqb expression negative_len
  then (Ret (Engine.Opaque (Raise (Exn ValueError "__len__() should return >= 0"))),
        variables, w)
  else eval_table expression variables w.

Definition make_step (i t : string) (ps : list (string * value)) (c : option string)
           (policy : string) (retries : Z) : Engine.WorkflowStep :=
  {| Engine.id := i; Engine.name := i; Engine.tool := t; Engine.parameters := ps;
     Engine.condition := c; Engine.retry_count := 0; Engine.max_retries := retries;
     Engine.timeout := None; Engine.on_failure := policy; Engine.status := Engine.PENDING;
     Engine.result := None; Engine.error := None;
     Engine.started_at := None; Engine.completed_at := None |}.

Definition make_workflow (steps : list Engine.WorkflowStep) (vars : list (string * value))
  : Engine.Workflow :=
  {| Engine.wf_id := "wf"; Engine.wf_name := "wf"; Engine.wf_description := "";
     Engine.wf_steps := steps; Engine.wf_variables := vars;
     Engine.wf_status := Engine.W_PENDING; Engine.wf_started_at := None;
     Engine.wf_completed_at := None; Engine.wf_error := None |}.

(** The end-to-end scenario: [s1] echoes "hello", [s2] echoes
    "{{s1_result}}-world". *)
Definition hello_world : Engine.Workflow :=
  make_workflow
    [make_step "s1" "echo" [("text", VStr "hello")] None "stop" 3;
     make_step "s2" "echo" [("text", VStr "{{s1_result}}-world")] None "stop" 3]
    [].

(** A step guarded by a condition, and a bag in which [flag] is [False]. *)
Definition guarded (c : string) : Engine.WorkflowStep :=
  make_step "g" "echo" [("text", VStr "x")] (Some c) "stop" 3.

Definition flag_false : list (string * value) := [("flag", VBool false)].

(** A step that calls the echo tool without its required parameter. *)
Definition bare_echo : Engine.WorkflowStep := make_step "b" "echo" [] None "stop" 3.

(** One step that always fails, to be retried at most twice. *)
Definition retry_twice : Engine.Workflow :=
  make_workflow [make_step "r" "fails" [] None "retry" 2] [].

(** A network failure, then a rate limit, then an internal server error,
    with three retries allowed and a base delay of 1000 ticks. *)
Definition flaky_then_500 (attempt : Z) : outcome Api.Response :=
  if attempt =? 0 then Raise (Exn RequestError "timed out")
  else if attempt =? 1 then Ret {| Api.status_code := 429; Api.json := Ret VNone |}
  else Ret {| Api.status_code := 500; Api.json := Ret VNone |}.

Definition always_500 (attempt : Z) : outcome Api.Response :=
  Ret {| Api.status_code := 500; Api.json := Ret VNone |}.

Definition message_of (status : Z) : string := "Server error".

(** The texts of the four cases of the parser, and two more. *)
Definition call (i : option string) (f : value) : value :=
  VDict (match i with Some s => [("id", VStr s)] | None => [] end
         ++ [("type", VStr "function"); ("function", f)])%list.

Definition read_file_function : value :=
  VDict [("name", VStr "read_file"); ("arguments", VStr "{}")].

Definition envelope (calls : value) : string :=
  Json.dumps (VDict [("tool_calls", calls)]).

Definition in_prose : string :=
  "I will read it. " +:+ envelope (VList [call (Some "call_7") read_file_function])
  +:+ " Done.".

Definition missing_id : string :=
  envelope (VList [call None read_file_function]).

Definition one_without_function : string :=
  envelope (VList [VDict [("id", VStr "x")]; call None read_file_function]).

Definition truncated : string :=
  "{" +:+ Json.quoted "tool_calls" +:+ ": [{" +:+ Json.quoted "id" +:+ ": }".

Definition null_calls : string := envelope VNone.

Definition function_not_object : string :=
  envelope (VList [call None read_file_function; call None (VStr "read_file")]).

Definition braces_in_prose : string :=
  "Use {} here: " +:+ envelope (VList [call (Some "call_7") read_file_function]).

(** For the hosted path: a back end that cannot be reached, a provider that
    answers 401 to every attempt, and one user message. *)
Definition no_backend (model : string) : outcome Api.ChatResponse :=
  Raise (Exn PlainException "unreachable back end").

Definition unauthorized (attempt : Z) : outcome Api.Response :=
  Ret {| Api.status_code := 401; Api.json := Ret VNone |}.

Definition hello : Api.Message :=
  {| Api.role := "user"; Api.content := Some "hello";
     Api.tool_calls := None; Api.tool_call_id := None |}.

(** A provider that answers 204 to every attempt. *)
Definition always_204 (attempt : Z) : outcome Api.Response :=
  Ret {| Api.status_code := 204; Api.json := Ret VNone |}.

(** The lines of a streamed answer: a comment, two chunks, the sentinel and a
    late chunk. *)
Definition chunk_line (n : Z) : string := "data: " +:+ Json.dumps (VInt n).
Definition done_line : string := "data: [DONE]".
Definition comment_line : string := ": keep-alive".

(** A conversation with a tool result in it, and one whose system message
    comes second. *)
Definition turn (r c : string) : Prompt.ChatMessage :=
  {| Prompt.role := r; Prompt.content := c |}.

(** A template with one default variable. *)
Definition greeting_template : Templates.Template :=
  {| Templates.t_name := "Greeting"; Templates.t_description := "";
     Templates.t_steps :=
       [{| Templates.ts_id := "say"; Templates.ts_name := "Say";
           Templates.ts_tool := "echo";
           Templates.ts_parameters := [("text", VStr "{{greeting}}")];
           Templates.ts_condition := None; Templates.ts_max_retries := None;
           Templates.ts_timeout := None; Templates.ts_on_failure := None |}];
     Templates.t_variables := [("greeting", VStr "hello"); ("name", VStr "world")] |}.

Definition templates : gmap string Templates.Template :=
  {[ "greeting" := greeting_template ]}.

(** A tool whose payload is a dictionary. *)
Definition dict_body (kw : list (string * value)) (w : nat) : outcome Base.ToolResult * nat :=
  (Ret (ok (VDict [("x", VInt 42)])), S w).

Definition answer := make_tool "answer" Base.CUSTOM [] dict_body true.

Definition registry2 : Base.ToolRegistry :=
  Base.apply_ops registry [Base.Register answer].

(** A formatted call, and three steps: one that stops the run, one that is
    retried, one whose tool returns a dictionary. *)
Definition formatted (i : string) : value :=
  VDict [("id", VStr i); ("type", VStr "function"); ("function", read_file_function)].

Definition stopping : Engine.WorkflowStep := make_step "f" "fails" [] None "stop" 3.
Definition retrying : Engine.WorkflowStep := make_step "r" "fails" [] None "retry" 2.
Definition asking : Engine.WorkflowStep := make_step "a" "answer" [] None "stop" 3.

End Samples.

(** * Properties *)

(** ** The registry and the safe-execution wrapper *)

Module RegistryProps.
Import Base.

Section WithWorld.

Context {World : Type}.
Variable time_time : World -> Z.
Variable re_match : string -> string -> outcome bool.

Local Abbreviation safe_execute := (safe_execute time_time re_match).
Local Abbreviation execute_tool := (execute_tool time_time re_match).
Local Abbreviation validate_parameters := (validate_parameters re_match).

Lemma safe_execute_returns (self : BaseTool) (kw : kwargs) (w : World) :
  exists r, fst (fst (safe_execute self kw w)) = Ret r /\ 
            (raises (fst (execute self kw w)) = true -> success r = false).
Proof.
  unfold Base.safe_execute, safe_execute_except.
  destruct (validate_parameters self kw) as [[|]|e]; simpl.
  - destruct (execute self kw w) as [[r|e] w']; simpl.
    + eexists; split; [reflexivity | discriminate].
    + eexists; split; [reflexivity | reflexivity].
  - eexists; split; [reflexivity | reflexivity].
  - eexists; split; [reflexivity | reflexivity].
Qed.

(** [execute_tool] always returns a result. *)
Lemma execute_tool_returns (reg : ToolRegistry) (tool_name : string) (kw : kwargs) (w : World) :
  exists r reg' w', execute_tool reg tool_name kw w = (Ret r, reg', w').
Proof.
  unfold Base.execute_tool, get_tool.
  destruct (tools reg !! tool_name) as [t|]; [|eauto].
  destruct (enabled t); simpl; [|eauto].
  destruct (safe_execute_returns t kw w) as (r & Hr & _).
  destruct (safe_execute t kw w) as [[o t'] w']. simpl in Hr. subst o. eauto.
Qed.

(** C3. [execute_tool] answers an unknown name and a disabled tool with a
    failure result ([success] false, [error] the message that names the
    tool), turns an exception of the execution body into a failure result
    whose [error] carries the exception's message, and never raises. *)
Theorem execute_tool_contains_failures
        (reg : ToolRegistry) (tool_name : string) (kw : kwargs) (w : World) :
  (tools reg !! tool_name = None ->
   exists r,
     execute_tool reg tool_name kw w = (Ret r, reg, w)
     /\ success r = false
     /\ error r = Some ("Tool '" +:+ tool_name +:+ "' not found")
     /\ r = failure ("Tool '" +:+ tool_name +:+ "' not found") 0)
  /\ (forall t, tools reg !! tool_name = Some t -> enabled t = false ->
      exists r,
        execute_tool reg tool_name kw w = (Ret r, reg, w)
        /\ success r = false
        /\ error r = Some ("Tool '" +:+ tool_name +:+ "' is disabled")
        /\ r = failure ("Tool '" +:+ tool_name +:+ "' is disabled") 0)
  /\ (forall t e w', tools reg !! tool_name = Some t -> enabled t = true ->
      validate_parameters t kw = Ret true ->
      execute t kw w = (Raise e, w') ->
      exists r reg',
        execute_tool reg tool_name kw w = (Ret r, reg', w')
        /\ success r = false
        /\ error r = Some ("Tool execution failed: " +:+ exn_str e)
        /\ result r = VNone
        /\ r = failure ("Tool execution failed: " +:+ exn_str e)
                       (time_time w' - time_time w))
  /\ (exists r reg' w', execute_tool reg tool_name kw w = (Ret r, reg', w')).
Proof.
  unfold Base.execute_tool, get_tool.
  repeat apply conj.
  - intros ->. eexists. repeat split; reflexivity.
  - intros t -> ->. eexists. repeat split; reflexivity.
  - intros t e w' -> -> Hv Hx. simpl.
    unfold Base.safe_execute. rewrite Hv, Hx. simpl.
    eexists. eexists. repeat split; reflexivity.
  - apply execute_tool_returns.
Qed.

End WithWorld.

(** The three cases of C3 on the sample registry: an unknown name, the
    disabled tool and the tool whose body raises. *)
Lemma execute_tool_contains_failures_witness :
  (exists r,
      execute_tool Samples.clock Samples.any_match Samples.registry "ghost" [] 0%nat
      = (Ret r, Samples.registry, 0%nat)
      /\ success r = false /\ error r = Some "Tool 'ghost' not found")
  /\ (exists r,
         execute_tool Samples.clock Samples.any_match Samples.registry "off" [] 0%nat
         = (Ret r, Samples.registry, 0%nat)
         /\ success r = false /\ error r = Some "Tool 'off' is disabled")
  /\ (exists r reg',
         execute_tool Samples.clock Samples.any_match Samples.registry "boom" [] 0%nat
         = (Ret r, reg', 1%nat)
         /\ success r = false /\ error r = Some "Tool execution failed: boom").
Proof.
  split; [|split].
  - destruct (proj1 (execute_tool_contains_failures Samples.clock Samples.any_match
                       Samples.registry "ghost" [] 0%nat) eq_refl)
      as (r & H & Hs & He & _).
    exists r. auto.
  - destruct (proj1 (proj2 (execute_tool_contains_failures Samples.clock Samples.any_match
                              Samples.registry "off" [] 0%nat))
                Samples.off eq_refl eq_refl)
      as (r & H & Hs & He & _).
    exists r. auto.
  - destruct (proj1 (proj2 (proj2 (execute_tool_contains_failures Samples.clock
                                     Samples.any_match Samples.registry "boom" [] 0%nat)))
                Samples.boom (Exn PlainException "boom") 1%nat
                eq_refl eq_refl eq_refl eq_refl)
      as (r & reg' & H & Hs & He & _).
    exists r, reg'. auto.
Defined.

End RegistryProps.

(** ** The counters of a tool *)

Module MetricsProps.
Import Base.

Section WithWorld.

Context {World : Type}.
Variable time_time : World -> Z.
Variable re_match : string -> string -> outcome bool.

Local Abbreviation safe_execute := (safe_execute time_time re_match).
Local Abbreviation safe_execute_all := (safe_execute_all time_time re_match).
Local Abbreviation short_circuits := (short_circuits re_match).

Lemma same_tool_short_circuits (a b : BaseTool (World := World)) kw :
  same_tool a b -> short_circuits a kw = short_circuits b kw.
Proof.
  intros [Hp _]. unfold Base.short_circuits, validate_parameters. rewrite Hp. reflexivity.
Qed.

(** One call: the counters move unless the validation guard returned, and
    the time added is the reading after the body minus the reading before. *)
Lemma safe_execute_counters (self : BaseTool) (kw : kwargs) (w : World) :
  let '(r, self', w') := safe_execute self kw w in
  same_tool self self'
  /\ execution_count self'
     = execution_count self + (if short_circuits self kw then 0 else 1)
  /\ error_count self'
     = error_count self
       + (if short_circuits self kw then 0 else if is_failure r then 1 else 0)
  /\ is_failure r = (if short_circuits self kw then true else is_failure r)
  /\ total_execution_time self'
     = total_execution_time self
       + (if short_circuits self kw then 0 else time_time w' - time_time w)
  /\ (w' = w \/ w' = snd (execute self kw w)).
Proof.
  unfold Base.safe_execute, Base.short_circuits, safe_execute_except.
  destruct (validate_parameters re_match self kw) as [[|]|e]; simpl.
  - destruct (execute self kw w) as [[r|e] w'] eqn:Hx; simpl;
      (repeat split; try reflexivity; try lia; try (right; reflexivity)).
    destruct (success r); simpl; lia.
  - repeat split; try reflexivity; try lia. left; reflexivity.
  - repeat split; try reflexivity; try lia. left; reflexivity.
Qed.

(** C4, as the code has it.  After any sequence of calls of the wrapper the
    execution counter has grown by the number of calls that did not stop at
    the validation guard, the error counter by the number of failed calls
    among those, and, when the clock does not run backwards while a tool
    body runs, the cumulative time has not decreased. *)
Theorem counters_after_calls (self : BaseTool) (calls : list kwargs) (w : World) :
  let '(rs, self', w') := safe_execute_all self calls w in
  execution_count self'
  = execution_count self + Z.of_nat (length calls) - count (short_circuits self) calls
  /\ error_count self'
     = error_count self + count is_failure rs - count (short_circuits self) calls
  /\ ((forall kw w0, time_time w0 <= time_time (snd (execute self kw w0))) ->
      total_execution_time self <= total_execution_time self').
Proof.
  revert self w.
  induction calls as [|kw rest IH]; intros self w.
  - simpl. unfold count. simpl. repeat split; lia.
  - simpl.
    pose proof (safe_execute_counters self kw w) as H1.
    destruct (safe_execute self kw w) as [[r self1] w1].
    destruct H1 as (Hs & Hc & He & Hf & Ht & Hw).
    specialize (IH self1 w1).
    destruct (safe_execute_all self1 rest w1) as [[rs self2] w2].
    destruct IH as (IHc & IHe & IHt).
    assert (Hsc : count (short_circuits self1) rest = count (short_circuits self) rest).
    { unfold count. f_equal. f_equal. apply filter_ext. intros kw'.
      symmetry. apply same_tool_short_circuits. exact Hs. }
    rewrite Hsc in IHc, IHe.
    unfold count in *. simpl List.filter. simpl length.
    destruct (short_circuits self kw) eqn:Hk.
    + rewrite Hf. simpl length.
      repeat split; [lia | lia |].
      intros Hmono. destruct Hs as [Hp Hx].
      assert (total_execution_time self1 <= total_execution_time self2).
      { apply IHt. intros kw0 w0. rewrite <- Hx. apply Hmono. }
      lia.
    + destruct (is_failure r); simpl length;
        (repeat split; [lia | lia |]);
        intros Hmono; destruct Hs as [Hp Hx];
        (assert (total_execution_time self1 <= total_execution_time self2)
          by (apply IHt; intros kw0 w0; rewrite <- Hx; apply Hmono));
        (assert (time_time w <= time_time w1)
          by (destruct Hw as [-> | ->]; [lia | apply Hmono]));
        lia.
Qed.

End WithWorld.

(** Three calls of the sample echo tool, the second without its required
    parameter: two executions are counted, no error, and the time grows. *)
Lemma counters_after_calls_witness :
  let '(rs, self', w') :=
    safe_execute_all Samples.clock Samples.any_match Samples.echo
      [[("text", VStr "a")]; []; [("text", VStr "b")]] 0%nat in
  execution_count self' = 2 /\ error_count self' = 0
  /\ 0 <= total_execution_time self'.
Proof.
  pose proof (counters_after_calls Samples.clock Samples.any_match Samples.echo
                [[("text", VStr "a")]; []; [("text", VStr "b")]] 0%nat) as H.
  remember (safe_execute_all Samples.clock Samples.any_match Samples.echo
              [[("text", VStr "a")]; []; [("text", VStr "b")]] 0%nat) as run eqn:E.
  vm_compute in E. subst run. cbv beta iota in H |- *.
  destruct H as (Hc & He & Ht).
  split; [reflexivity | split; [reflexivity |]].
  apply Ht. intros kw w0. unfold Samples.clock. simpl. lia.
Defined.

(** C4 as stated fails: one call that stops at the validation guard is a
    failed call, and neither counter moves. *)
Lemma validation_failure_not_counted :
  let calls := [[]] in
  let '(rs, self', w') :=
    safe_execute_all Samples.clock Samples.any_match Samples.echo calls 0%nat in
  count is_failure rs = 1
  /\ ~ (execution_count self' = Z.of_nat (length calls)
        /\ error_count self' = count is_failure rs).
Proof.
  vm_compute. split; [reflexivity |]. intros [H _]. discriminate H.
Qed.

End MetricsProps.

(** ** The two dictionaries of the registry *)

Module IndexProps.
Import Base.

Section WithWorld.

Context {World : Type}.

Implicit Types (reg : ToolRegistry (World := World)) (t : BaseTool (World := World)).

Lemma name_in_In (n : string) (l : list string) : name_in n l = true <-> In n l.
Proof.
  unfold name_in. rewrite existsb_exists. split.
  - intros (x & Hx & Heq). apply String.eqb_eq in Heq. subst. exact Hx.
  - intros H. exists n. split; [exact H | apply String.eqb_refl].
Qed.

Lemma In_list_remove (n m : string) (l : list string) :
  m <> n -> In m l -> In m (list_remove n l).
Proof.
  intros Hne. induction l as [|x l IH]; simpl; [tauto |].
  destruct (String.eqb_spec x n) as [-> | Hx].
  - intros [H | H]; [congruence | exact H].
  - intros [H | H]; [left; exact H | right; apply IH; exact H].
Qed.

Lemma register_tool_indexes reg t : indexed (register_tool reg t) (name t).
Proof.
  unfold indexed, register_tool. simpl.
  exists (category t). eexists. split; [apply lookup_insert_eq |].
  destruct (name_in (name t) (default [] (categories reg !! category t))) eqn:E.
  - apply name_in_In. exact E.
  - apply in_or_app. right. left. reflexivity.
Qed.

Lemma register_tool_keeps_indexed reg t n : indexed reg n -> indexed (register_tool reg t) n.
Proof.
  intros (c & names & Hc & Hin). unfold indexed, register_tool. simpl.
  destruct (decide (c = category t)) as [-> | Hne].
  - eexists. eexists. split; [apply lookup_insert_eq |].
    rewrite Hc. simpl. destruct (name_in (name t) names); [exact Hin |].
    apply in_or_app. left. exact Hin.
  - exists c, names. split; [|exact Hin].
    rewrite lookup_insert_ne by congruence. exact Hc.
Qed.

Lemma register_tool_covered reg t : covered reg -> covered (register_tool reg t).
Proof.
  intros Hcov n Hn.
  destruct (decide (n = name t)) as [-> | Hne].
  - apply register_tool_indexes.
  - apply register_tool_keeps_indexed. apply Hcov.
    unfold register_tool in Hn. simpl in Hn.
    rewrite lookup_insert_ne in Hn by congruence. exact Hn.
Qed.

Lemma unregister_tool_covered reg tool_name :
  covered reg -> covered (unregister_tool reg tool_name).
Proof.
  intros Hcov n Hn. unfold unregister_tool in *.
  destruct (tools reg !! tool_name) as [t|] eqn:Ht; [|apply Hcov; exact Hn].
  simpl in Hn.
  destruct (decide (n = tool_name)) as [-> | Hne].
  { rewrite lookup_delete_eq in Hn. destruct Hn as [? Hn]. discriminate Hn. }
  rewrite lookup_delete_ne in Hn by congruence.
  destruct (Hcov n Hn) as (c & names & Hc & Hin).
  unfold indexed. simpl.
  destruct (categories reg !! category t) as [names_t|] eqn:Hct;
    [|exists c, names; split; assumption].
  destruct (name_in tool_name names_t); [|exists c, names; split; assumption].
  destruct (decide (c = category t)) as [-> | Hc'].
  - exists (category t). eexists. split; [apply lookup_insert_eq |].
    rewrite Hct in Hc. injection Hc as ->. apply In_list_remove; assumption.
  - exists c, names. split; [|exact Hin].
    rewrite lookup_insert_ne by congruence. exact Hc.
Qed.

(** One direction of the registry invariant survives every sequence of
    operations: a name of the primary map is always in the category index. *)
Lemma apply_ops_covered reg (ops : list registry_op) :
  covered reg -> covered (apply_ops reg ops).
Proof.
  revert reg. induction ops as [|op ops IH]; intros reg Hcov; [exact Hcov |].
  simpl. apply IH. destruct op; simpl.
  - apply register_tool_covered. exact Hcov.
  - apply unregister_tool_covered. exact Hcov.
Qed.

End WithWorld.

(** C9 at its failing input.  Registering "reader" as a file tool, registering
    another "reader" as a web tool and unregistering "reader" leaves the name
    in the file category of the index although the primary map no longer has
    it: the invariant is broken. *)
Theorem stale_category_entry :
  let reg := apply_ops empty_registry
               [Register Samples.reader_v1; Register Samples.reader_v2;
                Unregister "reader"] in
  tools reg !! "reader" = None
  /\ categories reg !! FILE_OPERATIONS = Some ["reader"]
  /\ ~ registry_invariant reg.
Proof.
  assert (H1 : tools (apply_ops empty_registry
                        [Register Samples.reader_v1; Register Samples.reader_v2;
                         Unregister "reader"]) !! "reader" = None)
    by (vm_compute; reflexivity).
  assert (H2 : categories (apply_ops empty_registry
                             [Register Samples.reader_v1; Register Samples.reader_v2;
                              Unregister "reader"]) !! FILE_OPERATIONS = Some ["reader"])
    by (vm_compute; reflexivity).
  cbv zeta. split; [exact H1 | split; [exact H2 |]].
  intros Hinv.
  assert (Hidx : indexed (apply_ops empty_registry
                            [Register Samples.reader_v1; Register Samples.reader_v2;
                             Unregister "reader"]) "reader").
  { exists FILE_OPERATIONS, ["reader"]. split; [exact H2 | left; reflexivity]. }
  apply Hinv in Hidx. rewrite H1 in Hidx. destruct Hidx as [? Hidx]. discriminate Hidx.
Qed.

End IndexProps.

(** ** The request path of the hosted provider *)

Module RequestProps.
Import Api.

Section Client.

Variable max_retries : Z.
Variable base_delay : Z.
Variable transport : Z -> outcome Response.
Variable status_message : Z -> string.

Local Abbreviation handle_response := (handle_response max_retries base_delay status_message).
Local Abbreviation try_block := (try_block max_retries base_delay transport status_message).
Local Abbreviation attempt_turn := (attempt_turn max_retries base_delay transport status_message).
Local Abbreviation request_loop := (request_loop max_retries base_delay transport status_message).
Local Abbreviation _make_request := (_make_request max_retries base_delay transport status_message).
Local Abbreviation backoff := (backoff base_delay).

Lemma try_block_sends method stream attempt :
  sends method stream = true ->
  try_block method stream attempt
  = match transport attempt with
    | Ret response => handle_response attempt response
    | Raise e => Throw e
    end.
Proof.
  unfold sends, Api.try_block. intros H.
  destruct (String.eqb (upper method) "GET"); [reflexivity |].
  destruct (String.eqb (upper method) "POST"); [|discriminate H].
  destruct stream; [discriminate H | reflexivity].
Qed.

Lemma attempt_turn_retries method stream attempt :
  sends method stream = true ->
  retryable (transport attempt) = true ->
  attempt < max_retries ->
  attempt_turn method stream attempt = SleepAndContinue (base_delay * 2 ^ attempt).
Proof.
  intros Hs Hr Hlt. unfold Api.attempt_turn. rewrite (try_block_sends _ _ _ Hs).
  apply Z.ltb_lt in Hlt.
  destruct (transport attempt) as [response | e]; simpl in Hr.
  - unfold Api.handle_response. apply Z.eqb_eq in Hr. rewrite Hr. simpl.
    rewrite Hlt. reflexivity.
  - rewrite Hr, Hlt. reflexivity.
Qed.

(** While the answers are retryable and attempts are left, the loop sleeps
    [base_delay * 2 ^ attempt] and goes on. *)
Lemma request_loop_backoff method stream (m k : nat) (attempt : Z) :
  sends method stream = true ->
  (forall i, attempt <= i < attempt + Z.of_nat m -> retryable (transport i) = true) ->
  attempt + Z.of_nat m <= max_retries ->
  request_loop method stream (m + k) attempt
  = (fst (request_loop method stream k (attempt + Z.of_nat m)),
     (backoff attempt m ++ snd (request_loop method stream k (attempt + Z.of_nat m)))%list).
Proof.
  intros Hs. revert attempt.
  induction m as [|m IH]; intros attempt Hr Hle.
  - simpl. rewrite Z.add_0_r.
    destruct (request_loop method stream k attempt); reflexivity.
  - change (S m + k)%nat with (S (m + k)).
    cbn [Api.request_loop Api.backoff].
    rewrite (attempt_turn_retries _ _ _ Hs) by (try apply Hr; lia).
    rewrite (IH (attempt + 1)) by (try (intros i Hi; apply Hr); lia).
    replace (attempt + 1 + Z.of_nat m) with (attempt + Z.of_nat (S m)) by lia.
    reflexivity.
Qed.

(** The outcome of the whole request when attempts [0 .. n-1] were answered
    by retryable failures and attempt [n] decides. *)
Lemma make_request_decided method stream (n : Z) :
  sends method stream = true ->
  0 <= n <= max_retries ->
  (forall i, 0 <= i < n -> retryable (transport i) = true) ->
  _make_request method stream
  = (fst (request_loop method stream (S (Z.to_nat (max_retries - n))) n),
     (backoff 0 (Z.to_nat n)
      ++ snd (request_loop method stream (S (Z.to_nat (max_retries - n))) n))%list).
Proof.
  intros Hs Hn Hr. unfold Api._make_request.
  replace (Z.to_nat (max_retries + 1))
    with (Z.to_nat n + S (Z.to_nat (max_retries - n)))%nat by lia.
  rewrite (request_loop_backoff method stream (Z.to_nat n) _ 0 Hs).
  - rewrite Z.add_0_l, Z2Nat.id by lia. reflexivity.
  - intros i Hi. apply Hr. lia.
  - lia.
Qed.

(** C7, as the code has it.  After [n] retryable answers (429 or a
    [RequestError]), each followed by a sleep of [base_delay * 2 ^ attempt]:
    a 401 and a 404 raise their own error at once; every other status outside
    2xx, 401, 404 and 429 raises the HTTP library's [HTTPStatusError] at once
    and is not retried; a 429 or a [RequestError] at the last attempt raises
    [RateLimitError], respectively [OpenRouterError]; a 200 returns the body. *)
Theorem request_policy method stream (n : Z) :
  sends method stream = true ->
  0 <= n <= max_retries ->
  (forall i, 0 <= i < n -> retryable (transport i) = true) ->
  let slept := backoff 0 (Z.to_nat n) in
  match transport n with
  | Ret response =>
      let s := status_code response in
      (s = 401 ->
       _make_request method stream = (Raise (Exn AuthenticationError "Invalid API key"), slept))
      /\ (s = 404 ->
          _make_request method stream
          = (Raise (Exn ModelNotFoundError "Model not found or not available"), slept))
      /\ (s = 429 -> n = max_retries ->
          _make_request method stream
          = (Raise (Exn RateLimitError "Rate limit exceeded"), slept))
      /\ (s <> 401 -> s <> 404 -> s <> 429 -> ~ (200 <= s < 300) ->
          _make_request method stream
          = (Raise (Exn HTTPStatusError (status_message s)), slept))
      /\ (s = 200 -> forall v, json response = Ret v ->
          _make_request method stream = (Ret (Json v), slept))
  | Raise e =>
      subclass (exn_cls e) RequestError = true -> n = max_retries ->
      _make_request method stream
      = (Raise (Exn OpenRouterError ("Request failed: " +:+ exn_str e)), slept)
  end.
Proof.
  intros Hs Hn Hr slept.
  rewrite (make_request_decided method stream n Hs Hn Hr).
  cbn [Api.request_loop]. unfold Api.attempt_turn.
  rewrite (try_block_sends _ _ _ Hs).
  destruct (transport n) as [response | e].
  - unfold Api.handle_response, raise_for_status.
    repeat split.
    + intros ->. simpl. rewrite app_nil_r. reflexivity.
    + intros ->. simpl. rewrite app_nil_r. reflexivity.
    + intros -> ->. simpl. rewrite Z.ltb_irrefl. simpl. rewrite app_nil_r. reflexivity.
    + intros H401 H404 H429 H2xx.
      assert ((status_code response =? 200) = false) as -> by lia.
      assert ((status_code response =? 401) = false) as -> by lia.
      assert ((status_code response =? 429) = false) as -> by lia.
      assert ((status_code response =? 404) = false) as -> by lia.
      assert (((200 <=? status_code response) && (status_code response <? 300)) = false)
        as -> by lia.
      simpl. rewrite app_nil_r. reflexivity.
    + intros -> v ->. simpl. rewrite app_nil_r. reflexivity.
  - intros Hsub ->. rewrite Hsub, Z.ltb_irrefl. simpl. rewrite app_nil_r. reflexivity.
Qed.

End Client.

Lemma request_policy_witness :
  _make_request 3 1000 Samples.flaky_then_500 Samples.message_of "POST" false
  = (Raise (Exn HTTPStatusError "Server error"), [1000; 2000]).
Proof.
  apply (request_policy 3 1000 Samples.flaky_then_500 Samples.message_of "POST" false 2).
  - reflexivity.
  - lia.
  - intros i Hi. assert (i = 0 \/ i = 1) as [-> | ->] by lia; reflexivity.
  - discriminate.
  - discriminate.
  - discriminate.
  - simpl. lia.
Defined.

(** C7 as stated fails: a 500 at the first attempt is raised at once, without
    any sleep or retry, although three retries are allowed. *)
Lemma server_error_not_retried :
  _make_request 3 1000 Samples.always_500 Samples.message_of "POST" false
  = (Raise (Exn HTTPStatusError "Server error"), [])
  /\ retryable (Samples.always_500 0) = false.
Proof. split; reflexivity. Qed.

End RequestProps.

(** ** The tool-call emulation parser *)

Module ParserProps.
Import Ollama.

Section Parser.

Variable json_loads : string -> outcome value.

Local Abbreviation parse_try := (parse_try json_loads).
Local Abbreviation _parse_tool_calls := (_parse_tool_calls json_loads).
Local Abbreviation tool_calling_message := (tool_calling_message json_loads).

(** A text in which the pattern does not match is a plain answer. *)
Lemma no_match_no_calls (text : string) :
  search_tool_calls text = None ->
  _parse_tool_calls text = Ret []
  /\ tool_calling_message text
     = Ret {| m_role := "assistant"; m_content := Some text; m_tool_calls := None |}.
Proof.
  intros H. unfold Ollama.tool_calling_message, Ollama._parse_tool_calls, Ollama.parse_try.
  rewrite H. split; reflexivity.
Qed.

(** A text without an opening brace does not match. *)
Lemma no_brace_no_match (text : string) :
  from_first_brace text = None -> search_tool_calls text = None.
Proof. unfold search_tool_calls. intros ->. reflexivity. Qed.

(** A matched text that [json.loads] rejects gives no call. *)
Lemma decode_error_no_calls (text json_str msg : string) :
  search_tool_calls text = Some json_str ->
  json_loads json_str = Raise (Exn JSONDecodeError msg) ->
  _parse_tool_calls text = Ret []
  /\ tool_calling_message text
     = Ret {| m_role := "assistant"; m_content := Some text; m_tool_calls := None |}.
Proof.
  intros Hs Hj. unfold Ollama.tool_calling_message, Ollama._parse_tool_calls, Ollama.parse_try.
  rewrite Hs, Hj. split; reflexivity.
Qed.

(** The content of the message is [None] exactly when a call was recovered,
    and is the text of the answer otherwise. *)
Lemma content_none_iff_calls (text : string) (m : AssistantMessage) :
  tool_calling_message text = Ret m ->
  (m_content m = None <-> exists c cs, m_tool_calls m = Some (c :: cs))
  /\ (m_content m = None \/ m_content m = Some text).
Proof.
  unfold Ollama.tool_calling_message.
  destruct (_parse_tool_calls text) as [[|c cs] | e]; intros H; [| |discriminate H];
    injection H as <-; simpl.
  - split; [|right; reflexivity]. split; [discriminate |].
    intros (c & cs & H). discriminate H.
  - split; [|left; reflexivity]. split; [eauto | reflexivity].
Qed.

(** The only exceptions that leave the parser are those that its [except]
    clause does not list. *)
Lemma parser_raises_uncaught (text : string) (e : exn) :
  _parse_tool_calls text = Raise e -> caught e = false.
Proof.
  unfold Ollama._parse_tool_calls.
  destruct (parse_try text) as [l | e']; [discriminate |].
  destruct (caught e') eqn:E; [discriminate |].
  intros H. injection H as <-. exact E.
Qed.

End Parser.

Example null_calls_text :
  Samples.null_calls = "{" +:+ Json.quoted "tool_calls" +:+ ": null}".
Proof. reflexivity. Qed.

Example parse_in_prose :
  _parse_tool_calls Json.loads Samples.in_prose
  = Ret [VDict [("id", VStr "call_7"); ("type", VStr "function");
                ("function", Samples.read_file_function)]].
Proof. vm_compute. reflexivity. Qed.

Example parse_missing_id :
  _parse_tool_calls Json.loads Samples.missing_id
  = Ret [VDict [("id", VStr "call_0"); ("type", VStr "function");
                ("function", Samples.read_file_function)]].
Proof. vm_compute. reflexivity. Qed.

Example parse_one_without_function :
  _parse_tool_calls Json.loads Samples.one_without_function
  = Ret [VDict [("id", VStr "call_0"); ("type", VStr "function");
                ("function", Samples.read_file_function)]].
Proof. vm_compute. reflexivity. Qed.

Example parse_plain_text :
  tool_calling_message Json.loads "The file has 3 lines."
  = Ret {| m_role := "assistant"; m_content := Some "The file has 3 lines.";
           m_tool_calls := None |}.
Proof. vm_compute. reflexivity. Qed.

Example parse_truncated : _parse_tool_calls Json.loads Samples.truncated = Ret [].
Proof. vm_compute. reflexivity. Qed.

(** An entry whose [function] is not an object empties the whole list. *)
Example parse_function_not_object :
  _parse_tool_calls Json.loads Samples.function_not_object = Ret [].
Proof. vm_compute. reflexivity. Qed.

(** The greedy pattern starts at the first brace of the prose. *)
Example parse_braces_in_prose : _parse_tool_calls Json.loads Samples.braces_in_prose = Ret [].
Proof. vm_compute. reflexivity. Qed.

(** C8 at its failing input.  On the text [{"tool_calls": null}] the loop over
    the calls raises [TypeError], which the [except] clause does not list:
    the parser raises, and so does the construction of the message. *)
Theorem null_tool_calls_raises :
  _parse_tool_calls Json.loads Samples.null_calls
  = Raise (Exn TypeError "'NoneType' object is not iterable")
  /\ tool_calling_message Json.loads Samples.null_calls
     = Raise (Exn TypeError "'NoneType' object is not iterable").
Proof. split; vm_compute; reflexivity. Qed.

End ParserProps.

(** ** The workflow engine *)

Module EngineProps.
Import Engine.

Section WithWorld.

Context {World : Type}.
Variable now_iso : World -> string.
Variable now_compact : World -> string.
Variable repr_container : value -> string.
Variable py_eval :
  string -> list (string * value) -> World ->
  outcome Engine.eval_object * list (string * value) * World.

Local Abbreviation condition_text := (condition_text repr_container).
Local Abbreviation _evaluate_condition := (_evaluate_condition repr_container py_eval).
Local Abbreviation substitute_parameters :=
  (substitute_parameters now_iso now_compact repr_container).
Local Abbreviation _execute_step := (_execute_step now_iso now_compact repr_container).
Local Abbreviation run_step := (run_step now_iso now_compact repr_container).
Local Abbreviation loop_body := (loop_body now_iso now_compact repr_container py_eval).
Local Abbreviation run_steps := (run_steps now_iso now_compact repr_container py_eval).
Local Abbreviation execute_workflow :=
  (execute_workflow now_iso now_compact repr_container py_eval).

Implicit Types (reg : Base.ToolRegistry (World := World)) (step : WorkflowStep)
         (variables : list (string * value)) (w : World).

(** The step that follows a skipped step starts from the same bag and the same
    world. *)
Lemma run_steps_skip reg step (rest : list WorkflowStep) wstatus werror variables w :
  loop_body reg step wstatus werror variables w
  = (set_status step SKIPPED, wstatus, werror, variables, w, Next) ->
  run_steps reg (step :: rest) wstatus werror variables w
  = let '(rest', wstatus', werror', variables', w') :=
      run_steps reg rest wstatus werror variables w in
    (set_status step SKIPPED :: rest', wstatus', werror', variables', w').
Proof. intros H. cbn [Engine.run_steps]. rewrite H. reflexivity. Qed.

(** [_execute_step] leaves the failure policy and the retry budget of the
    step alone. *)
Lemma execute_step_policy reg step variables w :
  let '(step', _, _) := _execute_step reg step variables w in
  on_failure step' = on_failure step
  /\ retry_count step' = retry_count step
  /\ max_retries step' = max_retries step.
Proof.
  unfold Engine._execute_step. simpl.
  destruct (Base.tools reg !! tool step) as [t|]; [|simpl; auto].
  destruct (Base.execute t _ w) as [[r|e] w1]; [|simpl; auto].
  destruct (Base.success r); simpl; auto.
Qed.

(** A failed step under the policy [retry] with budget left is executed once
    more, with its counter incremented and its status reset, and the loop
    then moves on, whatever the second execution gave. *)
Lemma run_step_retries_once reg step wstatus werror variables w :
  on_failure step = "retry" ->
  retry_count step < max_retries step ->
  let '(step1, variables1, w1) := _execute_step reg step variables w in
  status step1 = FAILED ->
  run_step reg step wstatus werror variables w
  = let '(step2, variables2, w2) :=
      _execute_step reg (set_status (set_retry_count step1 (retry_count step + 1)) PENDING)
                    variables1 w1 in
    (step2, wstatus, werror, variables2, w2, Next).
Proof.
  intros Hpol Hlt. unfold Engine.run_step.
  pose proof (execute_step_policy reg step variables w) as H.
  destruct (_execute_step reg step variables w) as [[step1 variables1] w1].
  destruct H as (Hp & Hr & Hm). intros Hf.
  rewrite Hf, Hp, Hr, Hm, Hpol. simpl.
  apply Z.ltb_lt in Hlt. rewrite Hlt. reflexivity.
Qed.

(** The engine calls the body of the tool directly, on the substituted
    parameters, whether or not the tool is enabled and whatever its declared
    parameters are. *)
Lemma execute_step_runs_body reg step variables w (t : Base.BaseTool) :
  Base.tools reg !! tool step = Some t ->
  snd (_execute_step reg step variables w)
  = snd (Base.execute t (substitute_parameters (parameters step) variables w) w).
Proof.
  intros Ht. unfold Engine._execute_step. simpl. rewrite Ht.
  destruct (Base.execute t _ w) as [[r|e] w1]; [|reflexivity].
  destruct (Base.success r); reflexivity.
Qed.

(** An execution ends the step completed or failed. *)
Lemma execute_step_ends reg step variables w :
  status (fst (fst (_execute_step reg step variables w))) = COMPLETED
  \/ status (fst (fst (_execute_step reg step variables w))) = FAILED.
Proof.
  unfold Engine._execute_step. simpl.
  destruct (Base.tools reg !! tool step) as [t|]; [|simpl; auto].
  destruct (Base.execute t _ w) as [[r|e] w1]; [|simpl; auto].
  destruct (Base.success r); simpl; auto.
Qed.

(** So does the execution with its failure policy. *)
Lemma run_step_ends reg step wstatus werror variables w :
  status (fst (fst (fst (fst (fst (run_step reg step wstatus werror variables w))))))
  = COMPLETED
  \/ status (fst (fst (fst (fst (fst (run_step reg step wstatus werror variables w))))))
     = FAILED.
Proof.
  unfold Engine.run_step.
  pose proof (execute_step_ends reg step variables w) as H1.
  destruct (_execute_step reg step variables w) as [[s1 v1] w1]. simpl in H1.
  destruct (status_eqb (status s1) FAILED); [|exact H1].
  destruct (String.eqb (on_failure s1) "stop"); [exact H1 |].
  destruct (_ && _); [|exact H1].
  pose proof (execute_step_ends reg
                (set_status (set_retry_count s1 (retry_count s1 + 1)) PENDING) v1 w1) as H2.
  destruct (_execute_step reg _ v1 w1) as [[s2 v2] w2]. exact H2.
Qed.

(** A completed execution is what the loop keeps of the step. *)
Lemma run_step_completed reg step wstatus werror variables w :
  status (fst (fst (_execute_step reg step variables w))) = COMPLETED ->
  run_step reg step wstatus werror variables w
  = (fst (fst (_execute_step reg step variables w)), wstatus, werror,
     snd (fst (_execute_step reg step variables w)),
     snd (_execute_step reg step variables w), Next).
Proof.
  unfold Engine.run_step.
  destruct (_execute_step reg step variables w) as [[s1 v1] w1]. simpl.
  intros ->. reflexivity.
Qed.

(** C10, as the code has it.  For a step that declares a condition, in a
    workflow that is not cancelled.  When the condition evaluates to an
    object whose truth value is false, the step becomes [SKIPPED], nothing
    else of it changes and no tool body is run: the bag and the world are
    those that the evaluation left, which are the bag and the world of before
    when the expression has no effect of its own.  When the evaluation
    raises, the step is executed: with its tool registered, the body of the
    tool is run on the substituted parameters, the step ends completed or
    failed, and a completed execution is what the loop records. *)
Theorem condition_policy reg step wstatus werror variables w (c : ascii) (cs : string) :
  condition step = Some (String c cs) ->
  wstatus <> W_CANCELLED ->
  (forall o variables' w',
      py_eval (condition_text (String c cs) variables) variables w
      = (Ret o, variables', w') ->
      truth_test o = Ret false ->
      loop_body reg step wstatus werror variables w
      = (set_status step SKIPPED, wstatus, werror, variables', w', Next)
      /\ status (set_status step SKIPPED) = SKIPPED
      /\ result (set_status step SKIPPED) = result step
      /\ started_at (set_status step SKIPPED) = started_at step
      /\ retry_count (set_status step SKIPPED) = retry_count step)
  /\ (forall e variables' w',
      py_eval (condition_text (String c cs) variables) variables w
      = (Raise e, variables', w') ->
      loop_body reg step wstatus werror variables w
      = run_step reg step wstatus werror variables' w'
      /\ (status (fst (fst (fst (fst (fst (loop_body reg step wstatus werror variables w))))))
          = COMPLETED
          \/ status (fst (fst (fst (fst (fst (loop_body reg step wstatus werror
                                                       variables w))))))
             = FAILED)
      /\ forall t : Base.BaseTool,
          Base.tools reg !! tool step = Some t ->
          snd (_execute_step reg step variables' w')
          = snd (Base.execute t (substitute_parameters (parameters step) variables' w') w')
          /\ (status (fst (fst (_execute_step reg step variables' w'))) = COMPLETED ->
              loop_body reg step wstatus werror variables w
              = (fst (fst (_execute_step reg step variables' w')), wstatus, werror,
                 snd (fst (_execute_step reg step variables' w')),
                 snd (_execute_step reg step variables' w'), Next))).
Proof.
  intros Hc Hw.
  assert (Hskip : forall o variables' w',
             py_eval (condition_text (String c cs) variables) variables w
             = (Ret o, variables', w') ->
             truth_test o = Ret false ->
             loop_body reg step wstatus werror variables w
             = (set_status step SKIPPED, wstatus, werror, variables', w', Next)).
  { intros o variables' w' He Ht. unfold Engine.loop_body, wstatus_eqb.
    rewrite bool_decide_eq_false_2 by exact Hw.
    unfold condition_rejects. rewrite Hc. unfold Engine._evaluate_condition.
    rewrite He, Ht. reflexivity. }
  assert (Hopen : forall e variables' w',
             py_eval (condition_text (String c cs) variables) variables w
             = (Raise e, variables', w') ->
             loop_body reg step wstatus werror variables w
             = run_step reg step wstatus werror variables' w').
  { intros e variables' w' He. unfold Engine.loop_body, wstatus_eqb.
    rewrite bool_decide_eq_false_2 by exact Hw.
    unfold condition_rejects. rewrite Hc. unfold Engine._evaluate_condition.
    rewrite He. reflexivity. }
  split.
  - intros o variables' w' He Ht.
    split; [exact (Hskip o variables' w' He Ht) |]. repeat split; reflexivity.
  - intros e variables' w' He. rewrite (Hopen e variables' w' He).
    split; [reflexivity |]. split; [apply run_step_ends |].
    intros t Ht. split; [exact (execute_step_runs_body reg step variables' w' t Ht) |].
    apply run_step_completed.
Qed.

(** The loop never puts the workflow back to [W_PENDING]. *)
Lemma loop_body_not_pending reg step wstatus werror variables w :
  wstatus <> W_PENDING ->
  snd (fst (fst (fst (fst (loop_body reg step wstatus werror variables w))))) <> W_PENDING.
Proof.
  intros Hne. unfold Engine.loop_body.
  destruct (wstatus_eqb wstatus W_CANCELLED); [exact Hne |].
  destruct (condition_rejects _ _ _ _ _) as [[[[|]|e] variables1] w0];
    [exact Hne | | simpl; discriminate].
  clear variables w. rename variables1 into variables, w0 into w.
  unfold Engine.run_step.
  destruct (_execute_step reg step variables w) as [[s1 v1] w1].
  destruct (status_eqb (status s1) FAILED); [|exact Hne].
  destruct (String.eqb (on_failure s1) "stop"); [simpl; discriminate |].
  destruct (_ && _); [|exact Hne].
  destruct (_execute_step reg _ v1 w1) as [[s2 v2] w2]. exact Hne.
Qed.

Lemma run_steps_not_pending reg (steps : list WorkflowStep) wstatus werror variables w :
  wstatus <> W_PENDING ->
  snd (fst (fst (fst (run_steps reg steps wstatus werror variables w)))) <> W_PENDING.
Proof.
  revert wstatus werror variables w.
  induction steps as [|step rest IH]; intros wstatus werror variables w Hne;
    cbn [Engine.run_steps]; [exact Hne |].
  pose proof (loop_body_not_pending reg step wstatus werror variables w Hne) as Hb.
  destruct (loop_body reg step wstatus werror variables w)
    as [[[[[s1 st1] err1] vs1] w1] [|]]; simpl in Hb.
  - specialize (IH st1 err1 vs1 w1 Hb).
    destruct (run_steps reg rest st1 err1 vs1 w1) as [[[[steps2 st2] err2] vs2] w2].
    exact IH.
  - exact Hb.
Qed.

(** [execute_workflow] always returns the workflow, in a status other than
    [W_PENDING] and [W_RUNNING]. *)
Lemma execute_workflow_returns reg (workflow : Workflow)
      (variables : option (list (string * value))) w :
  exists wf' w1,
    execute_workflow reg workflow variables w = (Ret wf', w1)
    /\ wf_status wf' <> W_PENDING /\ wf_status wf' <> W_RUNNING.
Proof.
  unfold Engine.execute_workflow.
  match goal with
  | |- context [run_steps reg ?ss ?st ?err ?vs w] =>
      pose proof (run_steps_not_pending reg ss st err vs w) as Hst;
      destruct (run_steps reg ss st err vs w) as [[[[steps wstatus] werror] vars] w1]
  end.
  simpl in Hst. specialize (Hst ltac:(discriminate)).
  unfold wstatus_eqb. case_bool_decide as Hrunning.
  - destruct (existsb _ steps); eexists; eexists; (split; [reflexivity |]);
      simpl; split; discriminate.
  - eexists; eexists; (split; [reflexivity |]). simpl. split; assumption.
Qed.

(** A step that passes one plain string to an echo tool, from an empty bag:
    the step completes, its payload is the string, and the bag stays empty
    because the payload is not a [dict]. *)
Lemma execute_step_echo reg (t : Base.BaseTool) step (s : string) w :
  Base.tools reg !! tool step = Some t ->
  Base.echoes "text" t ->
  parameters step = [("text", VStr s)] ->
  contains "{{now}}" s = false ->
  contains "{{timestamp}}" s = false ->
  exists step' w1,
    _execute_step reg step [] w = (step', [], w1)
    /\ status step' = COMPLETED /\ payload step' = Some (VStr s).
Proof.
  intros Ht He Hp Hnow Hts. unfold Engine._execute_step.
  cbn [parameters tool set_started_at set_status id]. rewrite Hp, Ht.
  unfold Engine.substitute_parameters. cbn [map Engine._substitute_variables].
  unfold substitute_str. rewrite Hnow, Hts. cbn [fold_left].
  destruct (He [("text", VStr s)] w) as (r & w1 & Hx & Hs & Hr).
  rewrite Hx, Hs, Hr. cbn [default_get dict_get String.eqb Ascii.eqb Bool.eqb].
  cbn [is_dict andb]. rewrite andb_false_r.
  eexists. eexists. split; [reflexivity |].
  split; [reflexivity |]. unfold payload. cbn [result set_completed_at set_status set_result].
  rewrite Hr. reflexivity.
Qed.

(** C6, as the code has it.  With an echo tool whose payload is the bare
    string, the two-step workflow completes, the payload of [s1] is "hello",
    no variable is added to the bag, and the payload of [s2] is the text
    "{{s1_result}}-world" with its placeholder left as it is. *)
Theorem hello_world_placeholder_kept reg (t : Base.BaseTool) w :
  Base.tools reg !! "echo" = Some t ->
  Base.echoes "text" t ->
  exists wf w1,
    execute_workflow reg Samples.hello_world None w = (Ret wf, w1)
    /\ wf_status wf = W_COMPLETED
    /\ map payload (wf_steps wf) = [Some (VStr "hello"); Some (VStr "{{s1_result}}-world")]
    /\ wf_variables wf = [].
Proof.
  intros Ht He. unfold Engine.execute_workflow.
  cbn [Samples.hello_world Samples.make_workflow wf_steps wf_variables wf_error
       Engine.run_steps].
  unfold Engine.loop_body at 1. cbn [wstatus_eqb bool_decide decide_rel].
  replace (wstatus_eqb W_RUNNING W_CANCELLED) with false by reflexivity.
  replace (condition_rejects repr_container py_eval
             (Samples.make_step "s1" "echo" [("text", VStr "hello")] None "stop" 3) [] w)
    with (@Ret bool false, @nil (string * value), w) by reflexivity.
  unfold Engine.run_step at 1.
  destruct (execute_step_echo reg t
              (Samples.make_step "s1" "echo" [("text", VStr "hello")] None "stop" 3)
              "hello" w Ht He eq_refl eq_refl eq_refl)
    as (s1 & w1 & Hx1 & Hs1 & Hp1).
  rewrite Hx1, Hs1.
  replace (status_eqb COMPLETED FAILED) with false by reflexivity.
  unfold Engine.loop_body at 1.
  replace (wstatus_eqb W_RUNNING W_CANCELLED) with false by reflexivity.
  replace (condition_rejects repr_container py_eval
             (Samples.make_step "s2" "echo" [("text", VStr "{{s1_result}}-world")]
                None "stop" 3) [] w1)
    with (@Ret bool false, @nil (string * value), w1) by reflexivity.
  unfold Engine.run_step at 1.
  destruct (execute_step_echo reg t
              (Samples.make_step "s2" "echo" [("text", VStr "{{s1_result}}-world")]
                 None "stop" 3)
              "{{s1_result}}-world" w1 Ht He eq_refl eq_refl eq_refl)
    as (s2 & w2 & Hx2 & Hs2 & Hp2).
  rewrite Hx2, Hs2.
  replace (status_eqb COMPLETED FAILED) with false by reflexivity.
  cbn [existsb]. rewrite Hs1, Hs2.
  replace (status_eqb COMPLETED FAILED) with false by reflexivity.
  cbn [orb]. replace (wstatus_eqb W_RUNNING W_RUNNING) with true by reflexivity.
  eexists. eexists. split; [reflexivity |].
  cbn [wf_status wf_steps wf_variables map]. rewrite Hp1, Hp2. auto.
Qed.

End WithWorld.

(** The sample echo tool echoes. *)
Lemma sample_echo_echoes : Base.echoes "text" Samples.echo.
Proof. intros kw w. eexists. eexists. split; [reflexivity | split; reflexivity]. Defined.

Lemma hello_world_placeholder_kept_witness :
  exists wf w1,
    execute_workflow Samples.iso Samples.compact Samples.no_repr Samples.eval_table
      Samples.registry Samples.hello_world None 0%nat = (Ret wf, w1)
    /\ wf_status wf = W_COMPLETED
    /\ map payload (wf_steps wf) = [Some (VStr "hello"); Some (VStr "{{s1_result}}-world")]
    /\ wf_variables wf = [].
Proof.
  apply (hello_world_placeholder_kept Samples.iso Samples.compact Samples.no_repr
           Samples.eval_table Samples.registry Samples.echo 0%nat).
  - reflexivity.
  - exact sample_echo_echoes.
Defined.

(** C6 as stated fails: on the sample registry the payload of [s2] is not
    "hello-world". *)
Lemma hello_world_not_substituted :
  let '(r, _) :=
    execute_workflow Samples.iso Samples.compact Samples.no_repr Samples.eval_table
      Samples.registry Samples.hello_world None 0%nat in
  exists wf, r = Ret wf
    /\ wf_status wf = W_COMPLETED
    /\ map payload (wf_steps wf) <> [Some (VStr "hello"); Some (VStr "hello-world")].
Proof.
  vm_compute. eexists. split; [reflexivity |]. split; [reflexivity |]. discriminate.
Qed.

(** The two cases of C10 on the sample registry, where [flag] is [False]:
    the condition "{{flag}}" evaluates to [False] and the step is skipped, no
    body run and the bag as it was; the condition "{{flag}} == true" raises
    [NameError] and the step is executed and completes. *)
Lemma condition_policy_witness :
  (loop_body Samples.iso Samples.compact Samples.no_repr Samples.eval_table
     Samples.registry (Samples.guarded "{{flag}}") W_RUNNING None Samples.flag_false 0%nat
   = (set_status (Samples.guarded "{{flag}}") SKIPPED, W_RUNNING, None,
      Samples.flag_false, 0%nat, Next)
   /\ status (set_status (Samples.guarded "{{flag}}") SKIPPED) = SKIPPED)
  /\ (loop_body Samples.iso Samples.compact Samples.no_repr Samples.eval_table
        Samples.registry (Samples.guarded "{{flag}} == true") W_RUNNING None
        Samples.flag_false 0%nat
      = run_step Samples.iso Samples.compact Samples.no_repr
          Samples.registry (Samples.guarded "{{flag}} == true") W_RUNNING None
          Samples.flag_false 0%nat
      /\ snd (_execute_step Samples.iso Samples.compact Samples.no_repr
                Samples.registry (Samples.guarded "{{flag}} == true")
                Samples.flag_false 0%nat)
         = 1%nat).
Proof.
  split.
  - destruct (proj1 (condition_policy Samples.iso Samples.compact Samples.no_repr
                       Samples.eval_table Samples.registry (Samples.guarded "{{flag}}")
                       W_RUNNING None Samples.flag_false 0%nat "{"%char "{flag}}"
                       eq_refl ltac:(discriminate))
                (Plain (VBool false)) Samples.flag_false 0%nat eq_refl eq_refl)
      as (H & Hs & _).
    split; [exact H | exact Hs].
  - destruct (proj2 (condition_policy Samples.iso Samples.compact Samples.no_repr
                       Samples.eval_table Samples.registry
                       (Samples.guarded "{{flag}} == true")
                       W_RUNNING None Samples.flag_false 0%nat "{"%char "{flag}} == true"
                       eq_refl ltac:(discriminate))
                (Exn NameError "name 'true' is not defined") Samples.flag_false 0%nat
                eq_refl)
      as (H & _ & Ht).
    split; [exact H |].
    destruct (Ht Samples.echo eq_refl) as (Hw & _). rewrite Hw. reflexivity.
Defined.

(** C10 as stated fails.  The expression is evaluated with the bag in scope
    as [variables]: the condition [variables.clear()] evaluates to [None],
    which is false, so the step is skipped and no body is run, and the bag
    that held [flag] is left empty. *)
Lemma condition_side_effect_empties_bag :
  let '(r, bodies_run) :=
    execute_workflow Samples.iso Samples.compact Samples.no_repr Samples.eval_table
      Samples.registry
      (Samples.make_workflow [Samples.guarded "variables.clear()"] Samples.flag_false)
      None 0%nat in
  bodies_run = 0%nat
  /\ exists wf, r = Ret wf
       /\ map status (wf_steps wf) = [SKIPPED]
       /\ wf_variables wf = []
       /\ wf_variables wf <> Samples.flag_false.
Proof.
  vm_compute. split; [reflexivity |].
  eexists. split; [reflexivity |]. repeat split; try reflexivity. discriminate.
Qed.

(** The step guarded by "{{flag}} == true" does run its tool: one body is
    counted and the step completes. *)
Example guarded_by_raising_condition_runs :
  let '(step', _, _, _, bodies_run, _) :=
    loop_body Samples.iso Samples.compact Samples.no_repr Samples.eval_table
      Samples.registry (Samples.guarded "{{flag}} == true") W_RUNNING None
      Samples.flag_false 0%nat in
  status step' = COMPLETED /\ bodies_run = 1%nat.
Proof. vm_compute. split; reflexivity. Qed.

(** C5 at its failing input.  A step that always fails, with the policy
    [retry] and [max_retries = 2], is executed twice in all, one re-execution
    and not two: the world counts two bodies run, the retry counter ends at
    1, and the step and the workflow end failed. *)
Theorem retry_reexecutes_once :
  let '(r, bodies_run) :=
    execute_workflow Samples.iso Samples.compact Samples.no_repr Samples.eval_table
      Samples.registry Samples.retry_twice None 0%nat in
  bodies_run = 2%nat
  /\ exists wf, r = Ret wf
       /\ map retry_count (wf_steps wf) = [1]
       /\ map status (wf_steps wf) = [FAILED]
       /\ wf_status wf = W_FAILED.
Proof.
  vm_compute. split; [reflexivity |].
  eexists. split; [reflexivity |]. repeat split; reflexivity.
Qed.

End EngineProps.

(** ** Who goes through the safe-execution wrapper *)

Module WrapperProps.

Section WithWorld.

Context {World : Type}.
Variable time_time : World -> Z.
Variable re_match : string -> string -> outcome bool.
Variable now_iso : World -> string.
Variable now_compact : World -> string.
Variable repr_container : value -> string.

Local Abbreviation validate_parameters := (Base.validate_parameters re_match).
Local Abbreviation execute_tool := (Base.execute_tool time_time re_match).
Local Abbreviation _execute_step := (Engine._execute_step now_iso now_compact repr_container).
Local Abbreviation substitute_parameters :=
  (Engine.substitute_parameters now_iso now_compact repr_container).

(** C1, as the code has it.  For a registered and enabled tool, a call
    through [execute_tool] validates first: when validation returns false the
    body does not run and nothing is counted, the body runs only after
    validation returned true, and every call that did not stop at the
    validation guard updates the three counters.  A workflow step that names
    the same tool runs the body directly on the substituted parameters,
    without validation and without touching the counters. *)
Theorem wrapper_on_registry_path_only
        (reg : Base.ToolRegistry (World := World)) (tool_name : string)
        (t : Base.BaseTool) (kw : list (string * value)) (w : World)
        (step : Engine.WorkflowStep) (variables : list (string * value)) :
  Base.tools reg !! tool_name = Some t ->
  Base.enabled t = true ->
  Engine.tool step = tool_name ->
  (let '(r, reg', w') := execute_tool reg tool_name kw w in
   (validate_parameters t kw = Ret false ->
    r = Ret (Base.failure "Parameter validation failed" 0)
    /\ w' = w /\ Base.tools reg' !! tool_name = Some t)
   /\ (validate_parameters t kw <> Ret true -> w' = w)
   /\ (validate_parameters t kw = Ret true -> w' = snd (Base.execute t kw w))
   /\ (validate_parameters t kw <> Ret false ->
       exists t', Base.tools reg' !! tool_name = Some t'
         /\ Base.execution_count t' = Base.execution_count t + 1
         /\ Base.total_execution_time t'
            = Base.total_execution_time t + (time_time w' - time_time w)
         /\ Base.error_count t'
            = Base.error_count t + (if Base.is_failure r then 1 else 0)))
  /\ snd (_execute_step reg step variables w)
     = snd (Base.execute t (substitute_parameters (Engine.parameters step) variables w) w).
Proof.
  intros Ht Hen Hstep. split.
  - unfold Base.execute_tool, Base.get_tool. rewrite Ht, Hen. simpl negb. cbv iota.
    unfold Base.safe_execute, Base.safe_execute_except.
    destruct (validate_parameters t kw) as [[|]|e].
    + destruct (Base.execute t kw w) as [[r|e] w1]; simpl;
        (repeat split; try discriminate; try congruence);
        intros _; eexists; (split; [apply lookup_insert_eq |]); simpl;
        repeat split; try reflexivity; try lia;
        destruct (Base.success r); simpl; lia.
    + simpl. repeat split; try congruence.
      * rewrite Z.sub_diag. reflexivity.
      * apply lookup_insert_eq.
    + simpl. repeat split; try discriminate.
      intros _. eexists. split; [apply lookup_insert_eq |]. simpl.
      repeat split; reflexivity.
  - subst tool_name. apply EngineProps.execute_step_runs_body. exact Ht.
Qed.

End WithWorld.

(** On the sample registry, the echo tool called without its required
    parameter: [execute_tool] refuses and runs no body; the workflow step runs
    the body. *)
Lemma wrapper_on_registry_path_only_witness :
  (let '(r, reg', w') :=
     Base.execute_tool Samples.clock Samples.any_match Samples.registry "echo" [] 0%nat in
   r = Ret (Base.failure "Parameter validation failed" 0) /\ w' = 0%nat)
  /\ snd (Engine._execute_step Samples.iso Samples.compact Samples.no_repr
            Samples.registry Samples.bare_echo [] 0%nat) = 1%nat.
Proof.
  pose proof (wrapper_on_registry_path_only Samples.clock Samples.any_match
                Samples.iso Samples.compact Samples.no_repr
                Samples.registry "echo" Samples.echo [] 0%nat Samples.bare_echo []
                eq_refl eq_refl eq_refl) as [H1 H2].
  split.
  - destruct (Base.execute_tool Samples.clock Samples.any_match Samples.registry
                "echo" [] 0%nat) as [[r reg'] w'].
    destruct H1 as (Hv & _). destruct (Hv eq_refl) as (Hr & Hw & _).
    split; assumption.
  - rewrite H2. reflexivity.
Defined.

(** C1 as stated fails: validation rejects the empty argument list of the
    sample echo tool, yet the workflow step that passes it runs the body and
    completes; and the step runs the body of the disabled tool as well. *)
Lemma engine_bypasses_wrapper :
  Base.validate_parameters Samples.any_match Samples.echo [] = Ret false
  /\ (let '(step', _, bodies_run) :=
        Engine._execute_step Samples.iso Samples.compact Samples.no_repr
          Samples.registry Samples.bare_echo [] 0%nat in
      Engine.status step' = Engine.COMPLETED /\ bodies_run = 1%nat)
  /\ (let '(step', _, bodies_run) :=
        Engine._execute_step Samples.iso Samples.compact Samples.no_repr
          Samples.registry (Samples.make_step "d" "off" [] None "stop" 3) [] 0%nat in
      Engine.status step' = Engine.COMPLETED /\ bodies_run = 1%nat).
Proof. vm_compute. repeat split; reflexivity. Qed.

End WrapperProps.

(** ** The three entry points *)

Module EntryPointProps.

Section WithWorld.

Context {World : Type}.
Variable time_time : World -> Z.
Variable re_match : string -> string -> outcome bool.
Variable now_iso : World -> string.
Variable now_compact : World -> string.
Variable repr_container : value -> string.
Variable py_eval :
  string -> list (string * value) -> World ->
  outcome Engine.eval_object * list (string * value) * World.
Variable max_retries : Z.
Variable base_delay : Z.
Variable transport : Z -> outcome Api.Response.
Variable status_message : Z -> string.
Variable default_model : string.
Variable is_groq_model : string -> bool.
Variable ollama_try : string -> outcome Api.ChatResponse.
Variable groq_try : string -> outcome Api.ChatResponse.

Local Abbreviation chat_completion :=
  (Api.chat_completion max_retries base_delay transport status_message
     default_model is_groq_model ollama_try groq_try).

(** [chat_completion] reports failures by raising: [ValueError] for an empty
    message list, [OpenRouterError] for everything else. *)
Lemma chat_completion_raises_typed (messages : list Api.Message) (model : option string)
      (stream : bool) (e : exn) :
  chat_completion messages model stream = Raise e ->
  (messages = [] /\ e = Exn ValueError "Messages cannot be empty")
  \/ (messages <> [] /\ exn_cls e = OpenRouterError).
Proof.
  unfold Api.chat_completion.
  destruct messages as [|m ms]; [intros [= <-]; left; split; reflexivity |].
  intros H. right. split; [discriminate |].
  set (mdl := match model with Some (String c m0) => String c m0 | _ => default_model end) in H.
  destruct (startswith "ollama/" mdl).
  { unfold Api._handle_ollama_completion in H.
    destruct (ollama_try mdl); [discriminate H | injection H as <-; reflexivity]. }
  destruct (startswith "groq/" mdl || is_groq_model mdl).
  { unfold Api._handle_groq_completion in H.
    destruct (groq_try mdl); [discriminate H | injection H as <-; reflexivity]. }
  destruct (Api.chat_try _ _ _ _ _ _); [discriminate H | injection H as <-; reflexivity].
Qed.


End WithWorld.



End EntryPointProps.

(** ** Facts about the Python prelude *)

Module PyFacts.

Lemma dict_get_set_eq {A} (d : list (string * A)) (k : string) (v : A) :
  dict_get (dict_set d k v) k = Some v.
Proof.
  induction d as [|[k' v'] d IH]; simpl.
  - rewrite String.eqb_refl. reflexivity.
  - destruct (String.eqb k' k) eqn:E; simpl; rewrite E; [reflexivity | exact IH].
Qed.

Lemma dict_get_set_ne {A} (d : list (string * A)) (k k' : string) (v : A) :
  k <> k' -> dict_get (dict_set d k v) k' = dict_get d k'.
Proof.
  intros Hne. induction d as [|[k0 v0] d IH]; simpl.
  - apply String.eqb_neq in Hne. rewrite Hne. reflexivity.
  - destruct (String.eqb_spec k0 k) as [-> | Hk]; simpl.
    + apply String.eqb_neq in Hne. rewrite Hne. reflexivity.
    + destruct (String.eqb k0 k'); [reflexivity | exact IH].
Qed.

Lemma dict_get_update_notin {A} (o d : list (string * A)) (k : string) :
  ~ In k (map fst o) -> dict_get (dict_update d o) k = dict_get d k.
Proof.
  unfold dict_update. revert d.
  induction o as [|[k0 v0] o IH]; intros d Hnin; simpl; [reflexivity |].
  simpl in Hnin. rewrite IH by tauto.
  apply dict_get_set_ne. tauto.
Qed.

Lemma dict_get_update_in {A} (o d : list (string * A)) (k : string) (v : A) :
  List.NoDup (map fst o) -> In (k, v) o -> dict_get (dict_update d o) k = Some v.
Proof.
  unfold dict_update. revert d.
  induction o as [|[k0 v0] o IH]; intros d Hnd Hin; simpl in *; [contradiction |].
  apply List.NoDup_cons_iff in Hnd as [Hnin Hnd].
  destruct Hin as [Heq | Hin].
  - injection Heq as -> ->.
    change (dict_get (dict_update (dict_set d k v) o) k = Some v).
    rewrite dict_get_update_notin by exact Hnin. apply dict_get_set_eq.
  - apply IH; assumption.
Qed.

Lemma append_nil_r (s : string) : s +:+ EmptyString = s.
Proof.
  induction s as [|c s IH]; [reflexivity |].
  change (String c (s +:+ EmptyString) = String c s). f_equal. exact IH.
Qed.

Lemma append_assoc (a b c : string) : (a +:+ b) +:+ c = a +:+ (b +:+ c).
Proof.
  induction a as [|x a IH]; [reflexivity |].
  change (String x ((a +:+ b) +:+ c) = String x (a +:+ (b +:+ c))). f_equal. exact IH.
Qed.

Lemma NoDup_snoc {A} (l : list A) (x : A) :
  List.NoDup l -> ~ In x l -> List.NoDup (l ++ [x]).
Proof.
  induction l as [|y l IH]; simpl; intros Hnd Hx.
  - constructor; [tauto | constructor].
  - apply List.NoDup_cons_iff in Hnd as [Hy Hnd]. constructor.
    + intros H. apply in_app_or in H as [H | [H | []]]; [tauto | subst; tauto].
    + apply IH; tauto.
Qed.

Lemma find_app {A} (f : A -> bool) (a b : list A) :
  List.find f (a ++ b) = match List.find f a with Some x => Some x | None => List.find f b end.
Proof.
  induction a as [|x a IH]; simpl; [reflexivity |].
  destruct (f x); [reflexivity | exact IH].
Qed.

End PyFacts.

(** ** Validation, definitions and look-ups of the registry *)

Module IntrospectionProps.
Import Base Introspection.

Lemma list_remove_subset (n m : string) (l : list string) :
  In m (list_remove n l) -> In m l.
Proof.
  induction l as [|x l IH]; simpl; [tauto |].
  destruct (String.eqb x n); [tauto |]. intros [H | H]; [auto | right; auto].
Qed.

Lemma list_remove_NoDup (n : string) (l : list string) :
  List.NoDup l -> List.NoDup (list_remove n l) /\ ~ In n (list_remove n l).
Proof.
  induction l as [|x l IH]; simpl; intros Hnd; [split; [constructor | tauto] |].
  apply List.NoDup_cons_iff in Hnd as [Hx Hnd].
  destruct (String.eqb_spec x n) as [-> | Hne]; [split; assumption |].
  destruct (IH Hnd) as [IH1 IH2]. split.
  - constructor; [|exact IH1]. intros H. apply Hx. eapply list_remove_subset. exact H.
  - intros [H | H]; [congruence | tauto].
Qed.

Section WithWorld.

Context {World : Type}.
Variable time_time : World -> Z.
Variable re_match : string -> string -> outcome bool.

Local Abbreviation validate_parameters := (validate_parameters re_match).
Local Abbreviation validate_items := (validate_items re_match).
Local Abbreviation _validate_constraints := (_validate_constraints re_match).
Local Abbreviation safe_execute_all := (safe_execute_all time_time re_match).
Local Abbreviation arguments_valid := (arguments_valid re_match).

Implicit Types (reg : ToolRegistry (World := World)) (t self : BaseTool (World := World)).

Lemma validate_items_true (parameters : list ToolParameter) (kw : kwargs) :
  validate_items parameters kw = Ret true <-> arguments_valid parameters kw.
Proof.
  unfold Introspection.arguments_valid. induction kw as [|[n v] kw IH]; simpl.
  - split; [intros _ ? ? ? [] | reflexivity].
  - destruct (param_dict parameters n) as [p|] eqn:Hp.
    + destruct (_validate_type v (p_type p)) eqn:Ht; simpl.
      * destruct (_validate_constraints v p) as [[|]|e] eqn:Hc.
        -- rewrite IH. split.
           ++ intros H n' v' p' [Heq | Hin] Hp'.
              ** injection Heq as <- <-. rewrite Hp in Hp'. injection Hp' as <-. auto.
              ** eapply H; eauto.
           ++ intros H n' v' p' Hin. apply H. right. exact Hin.
        -- split; [discriminate |]. intros H.
           destruct (H n v p (or_introl eq_refl) Hp) as [_ Hc']. congruence.
        -- split; [discriminate |]. intros H.
           destruct (H n v p (or_introl eq_refl) Hp) as [_ Hc']. congruence.
      * split; [discriminate |]. intros H.
        destruct (H n v p (or_introl eq_refl) Hp) as [Ht' _]. congruence.
    + rewrite IH. split.
      * intros H n' v' p' [Heq | Hin] Hp'.
        -- injection Heq as <- <-. congruence.
        -- eapply H; eauto.
      * intros H n' v' p' Hin. apply H. right. exact Hin.
Qed.

Lemma validate_type_has_type (v : value) (ty : string) :
  _validate_type v ty = true <-> has_type v ty.
Proof.
  unfold _validate_type. split.
  - destruct (String.eqb_spec ty "string") as [-> | H1];
      [destruct v; simpl; try discriminate; constructor |].
    destruct (String.eqb_spec ty "integer") as [-> | H2];
      [destruct v; simpl; try discriminate; constructor |].
    destruct (String.eqb_spec ty "number") as [-> | H3];
      [destruct v; simpl; try discriminate; constructor |].
    destruct (String.eqb_spec ty "boolean") as [-> | H4];
      [destruct v; simpl; try discriminate; constructor |].
    destruct (String.eqb_spec ty "array") as [-> | H5];
      [destruct v; simpl; try discriminate; constructor |].
    destruct (String.eqb_spec ty "object") as [-> | H6];
      [destruct v; simpl; try discriminate; constructor |].
    intros _. apply unknown_type. simpl. intros H.
    repeat (destruct H as [H | H]; [symmetry in H; contradiction |]). exact H.
  - intros H. inversion H as [| | | | | | | |v' ty' Hout]; subst; try reflexivity.
    simpl in Hout.
    repeat match goal with
           | |- context [String.eqb ty ?k] =>
               destruct (String.eqb_spec ty k) as [-> | ?]; [exfalso; apply Hout; tauto |]
           end.
    reflexivity.
Qed.

Lemma in_enum_In (v : value) (enum : list string) :
  in_enum v enum = true <-> exists s, v = VStr s /\ In s enum.
Proof.
  unfold in_enum. destruct v as [| | |s| |];
    try (split; [discriminate | intros (s' & Hs & _); discriminate Hs]).
  rewrite existsb_exists. split.
  - intros (x & Hin & Hx). apply String.eqb_eq in Hx. subst x. eauto.
  - intros (s' & Hs & Hin). injection Hs as <-. exists s. split; [exact Hin |].
    apply String.eqb_refl.
Qed.

Lemma enum_ok_spec (v : value) (p : ToolParameter) :
  enum_ok v p = true
  <-> forall x e, p_enum p = Some (x :: e) -> exists s, v = VStr s /\ In s (x :: e).
Proof.
  unfold enum_ok, nonempty_list. destruct (p_enum p) as [[|x e]|].
  - split; [intros _ ? ? H; discriminate H | reflexivity].
  - rewrite in_enum_In. split.
    + intros H x' e' Heq. injection Heq as <- <-. exact H.
    + intros H. apply H. reflexivity.
  - split; [intros _ ? ? H; discriminate H | reflexivity].
Qed.

Lemma pattern_ok_spec (v : value) (p : ToolParameter) :
  pattern_ok re_match v p = Ret true
  <-> forall c pat s, p_pattern p = Some (String c pat) -> v = VStr s ->
                      re_match (String c pat) s = Ret true.
Proof.
  unfold pattern_ok, nonempty_str. destruct (p_pattern p) as [[|c pat]|].
  - split; [intros _ ? ? ? H; discriminate H | reflexivity].
  - destruct v as [| | |s| |]; simpl;
      try (split; [intros _ ? ? ? _ H; discriminate H | reflexivity]).
    split.
    + intros H c' pat' s' Heq Hs. injection Heq as <- <-. injection Hs as <-. exact H.
    + intros H. apply H; reflexivity.
  - split; [intros _ ? ? ? H; discriminate H | reflexivity].
Qed.

Lemma number_of_int_of (v : value) (z : Z) :
  number_of v z <-> is_int v = true /\ int_of v = z.
Proof.
  split.
  - intros H. destruct H; split; reflexivity.
  - intros [Hi <-]. destruct v as [|[|]|z'| | |]; try discriminate Hi; constructor.
Qed.

Lemma min_value_ok_spec (v : value) (p : ToolParameter) :
  min_value_ok v p = true <-> forall m z, p_min_value p = Some m -> number_of v z -> m <= z.
Proof.
  unfold min_value_ok. destruct (p_min_value p) as [m|].
  - rewrite negb_true_iff, andb_false_iff, Z.ltb_ge. split.
    + intros H m' z Heq Hn. injection Heq as <-.
      apply number_of_int_of in Hn as [Hi <-]. destruct H as [H | H]; [congruence | exact H].
    + intros H. destruct (is_int v) eqn:Hi; [right | left; reflexivity].
      apply (H m (int_of v) eq_refl). apply number_of_int_of. auto.
  - split; [intros _ ? ? H; discriminate H | reflexivity].
Qed.

Lemma max_value_ok_spec (v : value) (p : ToolParameter) :
  max_value_ok v p = true <-> forall m z, p_max_value p = Some m -> number_of v z -> z <= m.
Proof.
  unfold max_value_ok. destruct (p_max_value p) as [m|].
  - rewrite negb_true_iff, andb_false_iff, Z.ltb_ge. split.
    + intros H m' z Heq Hn. injection Heq as <-.
      apply number_of_int_of in Hn as [Hi <-]. destruct H as [H | H]; [congruence | exact H].
    + intros H. destruct (is_int v) eqn:Hi; [right | left; reflexivity].
      apply (H m (int_of v) eq_refl). apply number_of_int_of. auto.
  - split; [intros _ ? ? H; discriminate H | reflexivity].
Qed.

Lemma min_length_ok_spec (v : value) (p : ToolParameter) :
  min_length_ok v p = true
  <-> forall m s, p_min_length p = Some m -> v = VStr s -> m <= Z.of_nat (py_len s).
Proof.
  unfold min_length_ok. destruct (p_min_length p) as [m|].
  - rewrite negb_true_iff, andb_false_iff, Z.ltb_ge. split.
    + intros H m' s Heq ->. injection Heq as <-.
      destruct H as [H | H]; [discriminate H | exact H].
    + intros H. destruct v as [| | |s| |]; try (left; reflexivity).
      right. apply (H m s); reflexivity.
  - split; [intros _ ? ? H; discriminate H | reflexivity].
Qed.

Lemma max_length_ok_spec (v : value) (p : ToolParameter) :
  max_length_ok v p = true
  <-> forall m s, p_max_length p = Some m -> v = VStr s -> Z.of_nat (py_len s) <= m.
Proof.
  unfold max_length_ok. destruct (p_max_length p) as [m|].
  - rewrite negb_true_iff, andb_false_iff, Z.ltb_ge. split.
    + intros H m' s Heq ->. injection Heq as <-.
      destruct H as [H | H]; [discriminate H | exact H].
    + intros H. destruct v as [| | |s| |]; try (left; reflexivity).
      right. apply (H m s); reflexivity.
  - split; [intros _ ? ? H; discriminate H | reflexivity].
Qed.

Lemma validate_constraints_within (v : value) (p : ToolParameter) :
  _validate_constraints v p = Ret true <-> within_constraints re_match v p.
Proof.
  unfold Base._validate_constraints, within_constraints.
  rewrite <- enum_ok_spec, <- pattern_ok_spec, <- min_value_ok_spec, <- max_value_ok_spec,
    <- min_length_ok_spec, <- max_length_ok_spec.
  destruct (enum_ok v p); simpl.
  - destruct (pattern_ok re_match v p) as [[|]|e].
    + destruct (min_value_ok v p), (max_value_ok v p), (min_length_ok v p),
        (max_length_ok v p); simpl; split; try tauto; try discriminate;
        intros (_ & _ & H1 & H2 & H3 & H4); discriminate.
    + split; [discriminate | intros (_ & H & _); discriminate H].
    + split; [discriminate | intros (_ & H & _); discriminate H].
  - split; [discriminate | intros (H & _); discriminate H].
Qed.

Lemma param_dict_last_declared (parameters : list ToolParameter) (n : string)
      (p : ToolParameter) :
  param_dict parameters n = Some p <-> last_declared parameters n p.
Proof.
  unfold param_dict, last_declared. revert p.
  induction parameters as [|a l IH]; intros p.
  - simpl. split; [discriminate |]. intros (before & after & H & _).
    destruct before; discriminate H.
  - cbn [rev]. rewrite PyFacts.find_app. cbn [find].
    destruct (find (fun p0 => String.eqb (p_name p0) n) (rev l)) as [p'|] eqn:Hf.
    + split.
      * intros Heq. injection Heq as <-.
        destruct (proj1 (IH p') eq_refl) as (before & after & -> & Hn & Hafter).
        exists (a :: before), after. auto.
      * intros (before & after & Heq & Hn & Hafter).
        destruct before as [|b before]; simpl in Heq.
        -- injection Heq as <- <-. exfalso.
           apply find_some in Hf as [Hin Hp']. apply in_rev in Hin.
           apply String.eqb_eq in Hp'. exact (Hafter p' Hin Hp').
        -- injection Heq as <- ->. apply IH. exists before, after. auto.
    + split.
      * destruct (String.eqb_spec (p_name a) n) as [Hn | Hn]; [|discriminate].
        intros Heq. injection Heq as <-. exists [], l. split; [reflexivity |].
        split; [exact Hn |]. intros q Hin Hq.
        pose proof (find_none _ _ Hf q (proj1 (in_rev l q) Hin)) as Hno.
        simpl in Hno. apply String.eqb_neq in Hno. contradiction.
      * intros (before & after & Heq & Hn & Hafter).
        destruct before as [|b before]; simpl in Heq.
        -- injection Heq as <- <-. rewrite (proj2 (String.eqb_eq _ _) Hn). reflexivity.
        -- injection Heq as <- ->. exfalso.
           assert (None = Some p) as Hsome by (apply IH; exists before, after; auto).
           discriminate Hsome.
Qed.

Lemma has_key_In (kw : kwargs) (n : string) :
  (exists v, dict_get kw n = Some v) <-> exists v, In (n, v) kw.
Proof.
  induction kw as [|[k x] kw IH]; simpl.
  - split; [intros [v H]; discriminate H | intros [v []]].
  - destruct (String.eqb_spec k n) as [-> | Hne].
    + split; intros _; [exists x; auto | eauto].
    + rewrite IH. split.
      * intros [v H]. eauto.
      * intros [v [H | H]]; [congruence | eauto].
Qed.

(** X1. [validate_parameters] accepts exactly the argument lists that carry
    an argument for every required parameter and in which every argument
    named like a declared parameter has the type and is within the
    constraints of the last declaration of that name; arguments for
    undeclared names do not matter. *)
Theorem validate_parameters_accepts_iff self (kw : kwargs) :
  validate_parameters self kw = Ret true
  <-> (forall p, In p (get_parameters self) -> p_required p = true ->
                 exists v, In (p_name p, v) kw)
      /\ (forall n v p, In (n, v) kw -> last_declared (get_parameters self) n p ->
                        has_type v (p_type p) /\ within_constraints re_match v p).
Proof.
  assert (Hvalid : arguments_valid (get_parameters self) kw
                   <-> forall n v p, In (n, v) kw ->
                         last_declared (get_parameters self) n p ->
                         has_type v (p_type p) /\ within_constraints re_match v p).
  { unfold Introspection.arguments_valid. split; intros H n v p Hin Hp.
    - rewrite <- validate_type_has_type, <- validate_constraints_within.
      apply (H n v p Hin). apply param_dict_last_declared. exact Hp.
    - rewrite validate_type_has_type, validate_constraints_within.
      apply (H n v p Hin). apply param_dict_last_declared. exact Hp. }
  rewrite <- Hvalid. clear Hvalid.
  unfold Base.validate_parameters.
  destruct (existsb _ (get_parameters self)) eqn:E.
  - split; [discriminate |]. intros [Hreq _].
    apply existsb_exists in E as (p & Hin & Hp).
    apply andb_true_iff in Hp as [Hr Hk]. unfold has_key in Hk.
    destruct (proj2 (has_key_In kw (p_name p)) (Hreq p Hin Hr)) as [v Hv].
    rewrite Hv in Hk. discriminate Hk.
  - rewrite validate_items_true. split; [|tauto].
    intros Hv. split; [|exact Hv].
    intros p Hin Hr. apply has_key_In.
    assert (Hp : (p_required p && negb (has_key kw (p_name p))) = false).
    { destruct (p_required p && negb (has_key kw (p_name p))) eqn:Hp; [|reflexivity].
      assert (existsb (fun p => p_required p && negb (has_key kw (p_name p)))
                (get_parameters self) = true)
        by (apply existsb_exists; eauto).
      congruence. }
    rewrite Hr in Hp. simpl in Hp. unfold has_key in Hp.
    destruct (dict_get kw (p_name p)) as [v|]; [eauto | discriminate Hp].
Qed.

(** Looking a name up after [register_tool] gives the tool just
    registered, whatever was there before, and after [unregister_tool] gives
    nothing; the other names are not affected by either. *)
Theorem register_unregister_lookup reg t (n : string) :
  get_tool (register_tool reg t) (name t) = Some t
  /\ get_tool (unregister_tool reg n) n = None
  /\ (forall m, m <> name t -> get_tool (register_tool reg t) m = get_tool reg m)
  /\ (forall m, m <> n -> get_tool (unregister_tool reg n) m = get_tool reg m).
Proof.
  unfold get_tool, register_tool, unregister_tool. simpl.
  split; [apply lookup_insert_eq |]. split; [|split].
  - destruct (tools reg !! n) eqn:E; simpl; [apply lookup_delete_eq | exact E].
  - intros m Hm. apply lookup_insert_ne. congruence.
  - intros m Hm. destruct (tools reg !! n); simpl; [|reflexivity].
    apply lookup_delete_ne. congruence.
Qed.

Lemma register_tool_exact reg t :
  keeps_category reg (Register t) -> index_exact reg -> index_exact (register_tool reg t).
Proof.
  intros Hk Hex c names Hc. unfold register_tool in *. simpl in *.
  destruct (decide (c = category t)) as [-> | Hne].
  - rewrite lookup_insert_eq in Hc. injection Hc as <-.
    destruct (categories reg !! category t) as [old|] eqn:Hold; simpl.
    + destruct (Hex _ _ Hold) as [Hnd Hall].
      destruct (name_in (name t) old) eqn:Hin.
      * split; [exact Hnd |]. intros n Hn.
        destruct (decide (n = name t)) as [-> | Hn'].
        -- exists t. split; [apply lookup_insert_eq | reflexivity].
        -- rewrite lookup_insert_ne by congruence. apply Hall. exact Hn.
      * split.
        -- apply PyFacts.NoDup_snoc; [exact Hnd |]. intros Hx.
           apply IndexProps.name_in_In in Hx. congruence.
        -- intros n Hn. apply in_app_or in Hn as [Hn | [<- | []]].
           ++ destruct (decide (n = name t)) as [-> | Hn'].
              ** exists t. split; [apply lookup_insert_eq | reflexivity].
              ** rewrite lookup_insert_ne by congruence. apply Hall. exact Hn.
           ++ exists t. split; [apply lookup_insert_eq | reflexivity].
    + split; [repeat constructor; simpl; tauto |].
      intros n [<- | []]. exists t. split; [apply lookup_insert_eq | reflexivity].
  - rewrite lookup_insert_ne in Hc by congruence.
    destruct (Hex _ _ Hc) as [Hnd Hall]. split; [exact Hnd |].
    intros n Hn. destruct (Hall n Hn) as (t0 & Ht0 & Hcat).
    destruct (decide (n = name t)) as [-> | Hn'].
    + exfalso. apply Hne. rewrite <- Hcat. apply (Hk t0 Ht0).
    + exists t0. rewrite lookup_insert_ne by congruence. split; assumption.
Qed.

Lemma unregister_tool_exact reg (n0 : string) :
  index_exact reg -> index_exact (unregister_tool reg n0).
Proof.
  intros Hex. unfold unregister_tool.
  destruct (tools reg !! n0) as [t|] eqn:Ht; [|exact Hex].
  assert (Hother : forall c names n, categories reg !! c = Some names -> In n names ->
            n <> n0 -> exists t1, delete n0 (tools reg) !! n = Some t1 /\ category t1 = c).
  { intros c names n Hc Hn Hne. destruct (Hex _ _ Hc) as [_ Hall].
    destruct (Hall n Hn) as (t1 & Ht1 & Hcat). exists t1.
    rewrite lookup_delete_ne by congruence. split; assumption. }
  intros c names Hc. simpl in *.
  destruct (categories reg !! category t) as [names_t|] eqn:Hct.
  - destruct (name_in n0 names_t) eqn:Hin.
    + destruct (decide (c = category t)) as [-> | Hne].
      * rewrite lookup_insert_eq in Hc. injection Hc as <-.
        destruct (Hex _ _ Hct) as [Hnd _].
        destruct (list_remove_NoDup n0 names_t Hnd) as [Hnd' Hnot].
        split; [exact Hnd' |]. intros n Hn.
        apply (Hother _ _ n Hct); [eapply list_remove_subset; exact Hn |].
        intros ->. contradiction.
      * rewrite lookup_insert_ne in Hc by congruence.
        destruct (Hex _ _ Hc) as [Hnd Hall]. split; [exact Hnd |].
        intros n Hn. apply (Hother _ _ n Hc Hn). intros ->.
        destruct (Hall n0 Hn) as (t1 & Ht1 & Hcat). congruence.
    + destruct (Hex _ _ Hc) as [Hnd Hall]. split; [exact Hnd |].
      intros n Hn. apply (Hother _ _ n Hc Hn). intros ->.
      destruct (Hall n0 Hn) as (t1 & Ht1 & Hcat).
      assert (t1 = t) by congruence. subst t1. subst c.
      rewrite Hct in Hc. injection Hc as <-.
      apply IndexProps.name_in_In in Hn. congruence.
  - destruct (Hex _ _ Hc) as [Hnd Hall]. split; [exact Hnd |].
    intros n Hn. apply (Hother _ _ n Hc Hn). intros ->.
    destruct (Hall n0 Hn) as (t1 & Ht1 & Hcat).
    assert (t1 = t) by congruence. subst t1. subst c. congruence.
Qed.

Lemma apply_ops_exact reg (ops : list registry_op) :
  category_stable reg ops -> index_exact reg -> index_exact (apply_ops reg ops).
Proof.
  revert reg. induction ops as [|op ops IH]; intros reg Hst Hex; [exact Hex |].
  simpl in *. destruct Hst as [Hk Hst]. apply IH; [exact Hst |].
  destruct op; simpl.
  - apply register_tool_exact; assumption.
  - apply unregister_tool_exact; assumption.
Qed.

Lemma empty_registry_exact : index_exact (empty_registry (World := World)).
Proof. intros c names Hc. simpl in Hc. rewrite lookup_empty in Hc. discriminate Hc. Qed.

Lemma empty_registry_covered : covered (empty_registry (World := World)).
Proof. intros n [t Ht]. simpl in Ht. rewrite lookup_empty in Ht. discriminate Ht. Qed.

(** X2. When no registration replaces a tool by one of another category, the
    registry invariant holds after every sequence of operations on the empty
    registry: the category index and the primary map hold the same names. *)
Theorem invariant_when_categories_stable (ops : list registry_op) :
  category_stable (empty_registry (World := World)) ops ->
  registry_invariant (apply_ops empty_registry ops).
Proof.
  intros Hst n. split.
  - intros (c & names & Hc & Hin).
    destruct (apply_ops_exact _ ops Hst empty_registry_exact c names Hc) as [_ Hall].
    destruct (Hall n Hin) as (t & Ht & _). exists t. exact Ht.
  - apply IndexProps.apply_ops_covered. exact empty_registry_covered.
Qed.

End WithWorld.

End IntrospectionProps.

(** ** The category index, the advertised schema and the statistics *)

Module SchemaProps.
Import Base Introspection.

Section WithWorld.

Context {World : Type}.
Variable time_time : World -> Z.
Variable re_match : string -> string -> outcome bool.

Local Abbreviation safe_execute := (safe_execute time_time re_match).
Local Abbreviation safe_execute_all := (safe_execute_all time_time re_match).

Implicit Types (reg : ToolRegistry (World := World)) (t self : BaseTool (World := World)).

Lemma register_tool_without_repeats reg t :
  lists_without_repeats reg -> lists_without_repeats (register_tool reg t).
Proof.
  intros H c names Hc. unfold register_tool in Hc. simpl in Hc.
  destruct (decide (c = category t)) as [-> | Hne].
  - rewrite lookup_insert_eq in Hc. injection Hc as <-.
    destruct (categories reg !! category t) as [old|] eqn:Hold; simpl.
    + destruct (name_in (name t) old) eqn:Hin; [exact (H _ _ Hold) |].
      apply PyFacts.NoDup_snoc; [exact (H _ _ Hold) |].
      intros Hx. apply IndexProps.name_in_In in Hx. congruence.
    + repeat constructor. simpl. tauto.
  - rewrite lookup_insert_ne in Hc by congruence. exact (H _ _ Hc).
Qed.

Lemma unregister_tool_without_repeats reg (n : string) :
  lists_without_repeats reg -> lists_without_repeats (unregister_tool reg n).
Proof.
  intros H c names Hc. unfold unregister_tool in Hc.
  destruct (tools reg !! n) as [t|]; [|exact (H _ _ Hc)]. simpl in Hc.
  destruct (categories reg !! category t) as [names_t|] eqn:Hct; [|exact (H _ _ Hc)].
  destruct (name_in n names_t); [|exact (H _ _ Hc)].
  destruct (decide (c = category t)) as [-> | Hne].
  - rewrite lookup_insert_eq in Hc. injection Hc as <-.
    apply IntrospectionProps.list_remove_NoDup. exact (H _ _ Hct).
  - rewrite lookup_insert_ne in Hc by congruence. exact (H _ _ Hc).
Qed.

(** X3. After every sequence of registrations and removals on the empty
    registry, no list of the category index holds a name twice. *)
Theorem category_lists_without_repeats (ops : list registry_op)
        (c : ToolCategory) (names : list string) :
  categories (apply_ops (empty_registry (World := World)) ops) !! c = Some names ->
  List.NoDup names.
Proof.
  assert (H : forall reg, lists_without_repeats reg ->
                          lists_without_repeats (apply_ops reg ops)).
  { induction ops as [|op ops IH]; intros reg Hreg; [exact Hreg |].
    simpl. apply IH. destruct op; simpl.
    - apply register_tool_without_repeats. exact Hreg.
    - apply unregister_tool_without_repeats. exact Hreg. }
  apply H. intros c' names' Hc. simpl in Hc. rewrite lookup_empty in Hc. discriminate Hc.
Qed.

Lemma tools_named_registered (m : gmap string BaseTool) (names : list string) t :
  In t (tools_named m names) -> exists n, In n names /\ m !! n = Some t.
Proof.
  induction names as [|n names IH]; simpl; [tauto |].
  destruct (m !! n) as [t0|] eqn:E.
  - intros [<- | H]; [eauto |]. destruct (IH H) as (n' & ? & ?). eauto.
  - intros H. destruct (IH H) as (n' & ? & ?). eauto.
Qed.

Lemma tools_named_In (m : gmap string BaseTool) (names : list string) (n : string) t :
  In n names -> m !! n = Some t -> In t (tools_named m names).
Proof.
  intros Hin Ht. induction names as [|n0 names IH]; simpl in *; [tauto |].
  destruct Hin as [-> | Hin].
  - rewrite Ht. left. reflexivity.
  - destruct (m !! n0); [right |]; apply IH; exact Hin.
Qed.

(** X4. A tool just registered is among the tools of its category, and
    [get_tools_by_category] only ever returns tools that the primary map
    holds, under a name listed for that category. *)
Theorem tools_by_category reg t :
  In t (get_tools_by_category (register_tool reg t) (category t))
  /\ (forall c t', In t' (get_tools_by_category reg c) ->
        exists n names, categories reg !! c = Some names /\ In n names
                        /\ tools reg !! n = Some t').
Proof.
  split.
  - unfold get_tools_by_category.
    destruct (IndexProps.register_tool_indexes reg t) as (c & names & Hc & Hin).
    assert (Hcat : categories (register_tool reg t) !! category t
                   = Some (if name_in (name t) (default [] (categories reg !! category t))
                           then default [] (categories reg !! category t)
                           else (default [] (categories reg !! category t) ++ [name t])%list))
      by (unfold register_tool; simpl; apply lookup_insert_eq).
    rewrite Hcat. simpl.
    apply (tools_named_In _ _ (name t)).
    + destruct (name_in (name t) _) eqn:E; [apply IndexProps.name_in_In; exact E |].
      apply in_or_app. right. left. reflexivity.
    + unfold register_tool. simpl. apply lookup_insert_eq.
  - intros c t' Hin. unfold get_tools_by_category in Hin.
    destruct (categories reg !! c) as [names|] eqn:Hc; simpl in Hin; [|contradiction].
    destruct (tools_named_registered _ _ _ Hin) as (n & Hn & Ht). eauto 6.
Qed.

Lemma schema_loop_required (l : list ToolParameter)
      (props : list (string * value)) (req : list string) :
  snd (schema_loop l props req) = (req ++ map p_name (List.filter p_required l))%list.
Proof.
  revert props req. induction l as [|p l IH]; intros props req; simpl.
  - rewrite app_nil_r. reflexivity.
  - rewrite IH. destruct (p_required p); simpl; [|reflexivity].
    rewrite <- app_assoc. reflexivity.
Qed.

Lemma schema_loop_properties (l : list ToolParameter)
      (props : list (string * value)) (req : list string) (n : string) :
  dict_get (fst (schema_loop l props req)) n
  = match param_dict l n with
    | Some p => Some (VDict (prop_def p))
    | None => dict_get props n
    end.
Proof.
  revert props req. unfold param_dict.
  induction l as [|p l IH]; intros props req; simpl; [reflexivity |].
  rewrite IH, PyFacts.find_app. simpl.
  destruct (List.find (fun p0 => String.eqb (p_name p0) n) (rev l)); [reflexivity |].
  destruct (String.eqb_spec (p_name p) n) as [<- | Hne].
  - apply PyFacts.dict_get_set_eq.
  - apply PyFacts.dict_get_set_ne. exact Hne.
Qed.

(** X5. For a tool without a [parameters] attribute, the [required] array of
    the advertised schema lists exactly the names of the parameters declared
    required, in the order of declaration. *)
Theorem schema_required self (requires_confirmation dangerous : bool) :
  exists properties,
    d_parameters (get_tool_definition self None requires_confirmation dangerous)
    = VDict [("type", VStr "object"); ("properties", VDict properties);
             ("required",
              VList (map VStr (map p_name (List.filter p_required (get_parameters self)))))].
Proof.
  unfold get_tool_definition, parameter_schema. simpl.
  pose proof (schema_loop_required (get_parameters self) [] []) as H.
  destruct (schema_loop (get_parameters self) [] []) as [props req].
  simpl in H. subst req. eexists. reflexivity.
Qed.

(** X6. In that schema, the entry of [properties] for a name is the one built
    from the last declaration of that name, the declaration that validation
    uses, and a name has an entry only if it is declared; every entry carries
    the declared type. *)
Theorem schema_properties self (requires_confirmation dangerous : bool) :
  exists properties required,
    d_parameters (get_tool_definition self None requires_confirmation dangerous)
    = VDict [("type", VStr "object"); ("properties", VDict properties);
             ("required", required)]
    /\ (forall n, dict_get properties n
                  = match param_dict (get_parameters self) n with
                    | Some p => Some (VDict (prop_def p))
                    | None => None
                    end)
    /\ (forall p, dict_get (prop_def p) "type" = Some (VStr (p_type p))).
Proof.
  unfold get_tool_definition, parameter_schema. simpl.
  pose proof (schema_loop_properties (get_parameters self) [] []) as H.
  destruct (schema_loop (get_parameters self) [] []) as [props req].
  simpl in H. eexists. eexists. split; [reflexivity |]. split; [exact H |].
  intros p. unfold prop_def.
  destruct (nonempty_list (p_enum p)), (nonempty_str (p_pattern p)), (p_min_value p),
    (p_max_value p), (p_min_length p), (p_max_length p), (p_default p); reflexivity.
Qed.

Lemma safe_execute_counters_ok self (kw : kwargs) (w : World) :
  counters_ok self -> counters_ok (snd (fst (safe_execute self kw w))).
Proof.
  unfold counters_ok. intros H.
  pose proof (MetricsProps.safe_execute_counters time_time re_match self kw w) as H1.
  destruct (safe_execute self kw w) as [[r self1] w1]. simpl.
  destruct H1 as (_ & Hc & He & _).
  destruct (short_circuits re_match self kw); [lia |].
  destruct (is_failure r); lia.
Qed.

(** X7. A tool whose error counter is between 0 and its execution counter
    keeps that through every sequence of calls of the wrapper, and the
    success rate that [get_stats] then reports is between 0 and 1. *)
Theorem success_rate_in_range self (calls : list kwargs) (w : World) :
  counters_ok self ->
  let '(_, self', _) := safe_execute_all self calls w in
  counters_ok self' /\ (0 <= s_success_rate (get_stats self') <= 1)%Q.
Proof.
  intros Hok.
  assert (Hall : counters_ok (snd (fst (safe_execute_all self calls w)))).
  { revert self w Hok. induction calls as [|kw rest IH]; intros self w Hok; [exact Hok |].
    simpl. pose proof (safe_execute_counters_ok self kw w Hok) as H1.
    destruct (safe_execute self kw w) as [[r self1] w1]. simpl in H1.
    specialize (IH self1 w1 H1).
    destruct (safe_execute_all self1 rest w1) as [[rs self2] w2]. exact IH. }
  destruct (safe_execute_all self calls w) as [[rs self'] w']. simpl in Hall.
  split; [exact Hall |].
  unfold counters_ok in Hall. unfold get_stats. simpl.
  destruct (0 <? execution_count self') eqn:E.
  - apply Z.ltb_lt in E. unfold Qle. simpl.
    rewrite Z2Pos.id by exact E. lia.
  - unfold Qle. simpl. lia.
Qed.

End WithWorld.

Lemma invariant_when_categories_stable_witness :
  True
  /\ registry_invariant
       (apply_ops empty_registry
          [Register Samples.echo; Register Samples.boom; Unregister "echo";
           Register Samples.echo; Register Samples.echo]).
Proof.
  split; [exact I |].
  apply (IntrospectionProps.invariant_when_categories_stable
           [Register Samples.echo; Register Samples.boom; Unregister "echo";
            Register Samples.echo; Register Samples.echo]).
  simpl. repeat split; intros t0 H; vm_compute in H; try discriminate H.
  injection H as <-. reflexivity.
Defined.

Lemma category_lists_without_repeats_witness : List.NoDup ["boom"; "echo"].
Proof.
  apply (category_lists_without_repeats
           [Register Samples.echo; Register Samples.boom; Unregister "echo";
            Register Samples.echo; Register Samples.echo] CUSTOM ["boom"; "echo"]).
  vm_compute. reflexivity.
Defined.

Lemma success_rate_in_range_witness :
  let '(_, self', _) :=
    safe_execute_all Samples.clock Samples.any_match Samples.fails [[]; []] 0%nat in
  counters_ok self' /\ (0 <= s_success_rate (get_stats self') <= 1)%Q.
Proof.
  apply (success_rate_in_range Samples.clock Samples.any_match Samples.fails [[]; []] 0%nat).
  unfold counters_ok. simpl. lia.
Defined.

End SchemaProps.

(** ** The hosted request loop, the streamed response and the local answer *)

Module HostedProps.
Import Api Streaming.

Section Client.

Variable max_retries : Z.
Variable base_delay : Z.
Variable transport : Z -> outcome Response.
Variable status_message : Z -> string.

Local Abbreviation attempt_turn := (attempt_turn max_retries base_delay transport status_message).
Local Abbreviation request_loop := (request_loop max_retries base_delay transport status_message).
Local Abbreviation _make_request := (_make_request max_retries base_delay transport status_message).

Lemma handle_response_sleep (attempt d : Z) (response : Response) :
  handle_response max_retries base_delay status_message attempt response
  = SleepAndContinue d ->
  attempt < max_retries /\ d = base_delay * 2 ^ attempt.
Proof.
  unfold Api.handle_response.
  destruct (status_code response =? 200); [destruct (json response); discriminate |].
  destruct (status_code response =? 401); [discriminate |].
  destruct (status_code response =? 429).
  - destruct (attempt <? max_retries) eqn:E; [|discriminate].
    intros [= <-]. split; [lia | reflexivity].
  - destruct (status_code response =? 404); [discriminate |].
    destruct (raise_for_status status_message (status_code response)); discriminate.
Qed.

Lemma try_block_sleep method stream (attempt d : Z) :
  try_block max_retries base_delay transport status_message method stream attempt
  = SleepAndContinue d ->
  attempt < max_retries /\ d = base_delay * 2 ^ attempt.
Proof.
  unfold Api.try_block.
  assert (Hsend : match transport attempt with
                  | Ret response =>
                      handle_response max_retries base_delay status_message attempt response
                  | Raise e => Throw e
                  end = SleepAndContinue d ->
                  attempt < max_retries /\ d = base_delay * 2 ^ attempt).
  { destruct (transport attempt); [apply handle_response_sleep | discriminate]. }
  destruct (String.eqb (upper method) "GET"); [exact Hsend |].
  destruct (String.eqb (upper method) "POST"); [|discriminate].
  destruct stream; [discriminate | exact Hsend].
Qed.

(** The loop sleeps only while attempts are left, and then for
    [base_delay * 2 ^ attempt]. *)
Lemma sleep_needs_budget method stream (attempt d : Z) :
  attempt_turn method stream attempt = SleepAndContinue d ->
  attempt < max_retries /\ d = base_delay * 2 ^ attempt.
Proof.
  unfold Api.attempt_turn.
  destruct (try_block max_retries base_delay transport status_message method stream attempt)
    as [r | d' | | e] eqn:E; try discriminate.
  - intros [= <-]. exact (try_block_sleep _ _ _ _ E).
  - destruct (subclass (exn_cls e) RequestError); [|discriminate].
    destruct (attempt <? max_retries) eqn:Hlt; [|discriminate].
    intros [= <-]. split; [lia | reflexivity].
Qed.

Lemma request_loop_sleeps method stream (k : nat) (attempt : Z) :
  Forall (fun d => exists i, attempt <= i < max_retries /\ d = base_delay * 2 ^ i)
         (snd (request_loop method stream k attempt))
  /\ Z.of_nat (length (snd (request_loop method stream k attempt)))
     <= Z.max 0 (max_retries - attempt).
Proof.
  revert attempt. induction k as [|k IH]; intros attempt; cbn [Api.request_loop].
  - simpl. split; [constructor | lia].
  - destruct (attempt_turn method stream attempt) as [r | d | | e] eqn:E.
    + simpl. split; [constructor | lia].
    + destruct (sleep_needs_budget _ _ _ _ E) as [Hlt ->].
      destruct (IH (attempt + 1)) as [IH1 IH2].
      destruct (request_loop method stream k (attempt + 1)) as [r ds].
      simpl in *. split.
      * constructor; [exists attempt; split; [lia | reflexivity] |].
        eapply List.Forall_impl; [|exact IH1].
        intros d (i & Hi & ->). exists i. split; [lia | reflexivity].
      * lia.
    + destruct (IH (attempt + 1)) as [IH1 IH2]. split.
      * eapply List.Forall_impl; [|exact IH1].
        intros d (i & Hi & ->). exists i. split; [lia | reflexivity].
      * lia.
    + simpl. split; [constructor | lia].
Qed.

(** X8. Whatever the network answers, [_make_request] sleeps at most
    [max_retries] times, and every delay is [base_delay * 2 ^ i] for an
    attempt [i] below [max_retries]. *)
Theorem sleeps_are_bounded method stream :
  Forall (fun d => exists i, 0 <= i < max_retries /\ d = base_delay * 2 ^ i)
         (snd (_make_request method stream))
  /\ Z.of_nat (length (snd (_make_request method stream))) <= Z.max 0 max_retries.
Proof.
  unfold Api._make_request.
  destruct (request_loop_sleeps method stream (Z.to_nat (max_retries + 1)) 0) as [H1 H2].
  split; [exact H1 |]. rewrite Z.sub_0_r in H2. exact H2.
Qed.

Lemma request_loop_falls_through method stream (k : nat) (attempt : Z) :
  sends method stream = true ->
  (forall i, attempt <= i < attempt + Z.of_nat k ->
             exists r, transport i = Ret r /\ 200 < status_code r < 300) ->
  request_loop method stream k attempt
  = (Raise (Exn OpenRouterError "Max retries exceeded"), []).
Proof.
  intros Hs. revert attempt.
  induction k as [|k IH]; intros attempt Hall; cbn [Api.request_loop]; [reflexivity |].
  destruct (Hall attempt ltac:(lia)) as (r & Hr & Hst).
  assert (Hturn : attempt_turn method stream attempt = FallThrough).
  { unfold Api.attempt_turn.
    rewrite (RequestProps.try_block_sends _ _ _ _ _ _ _ Hs), Hr.
    unfold Api.handle_response, raise_for_status.
    assert ((status_code r =? 200) = false) as -> by lia.
    assert ((status_code r =? 401) = false) as -> by lia.
    assert ((status_code r =? 429) = false) as -> by lia.
    assert ((status_code r =? 404) = false) as -> by lia.
    assert (((200 <=? status_code r) && (status_code r <? 300)) = true) as -> by lia.
    reflexivity. }
  rewrite Hturn. apply IH. intros i Hi. apply Hall. lia.
Qed.

(** X9. When every attempt is answered by a 2xx status other than 200, the
    loop asks again at once, without any sleep, until the attempts are used
    up, and then raises [OpenRouterError("Max retries exceeded")]. *)
Theorem success_without_200_exhausts method stream :
  sends method stream = true ->
  (forall i, 0 <= i <= max_retries ->
             exists r, transport i = Ret r /\ 200 < status_code r < 300) ->
  _make_request method stream
  = (Raise (Exn OpenRouterError "Max retries exceeded"), []).
Proof.
  intros Hs Hall. unfold Api._make_request.
  apply request_loop_falls_through; [exact Hs |].
  intros i Hi. apply Hall. lia.
Qed.

(** X10. A method other than GET and POST raises [ValueError] at the first
    attempt: nothing is sent, nothing is retried, and the answer of the
    network does not matter. *)
Theorem unsupported_method_raises method stream :
  0 <= max_retries ->
  String.eqb (upper method) "GET" = false ->
  String.eqb (upper method) "POST" = false ->
  _make_request method stream
  = (Raise (Exn ValueError ("Unsupported HTTP method: " +:+ method)), []).
Proof.
  intros Hm Hg Hp. unfold Api._make_request.
  replace (Z.to_nat (max_retries + 1)) with (S (Z.to_nat max_retries)) by lia.
  cbn [Api.request_loop]. unfold Api.attempt_turn, Api.try_block.
  rewrite Hg, Hp. reflexivity.
Qed.

End Client.

Section Stream.

Variable json_loads : string -> outcome value.

Local Abbreviation stream_lines := (stream_lines json_loads).
Local Abbreviation _stream_request := (_stream_request json_loads).
Local Abbreviation is_skipped := (is_skipped json_loads).

(** X11. Nothing that follows the sentinel frame [data: [DONE]] is yielded or
    even decoded: the stream is the one of the lines before the frame. *)
Theorem nothing_after_done (status : Z) (error_text : string)
        (before after : list string) (frame : string) :
  is_done frame = true ->
  _stream_request status error_text (before ++ frame :: after)
  = _stream_request status error_text before.
Proof.
  intros Hd. unfold Streaming._stream_request.
  destruct (negb (status =? 200)); [reflexivity |].
  unfold is_done in Hd. apply andb_true_iff in Hd as [Hp Hs].
  induction before as [|line before IH]; cbn [app Streaming.stream_lines].
  - rewrite Hp, Hs. reflexivity.
  - rewrite IH. reflexivity.
Qed.

(** X12. A line that is not a data line, and a data line whose payload
    [json.loads] rejects, are passed over: the stream is the one of the other
    lines. *)
Theorem skipped_lines_leave_no_trace (status : Z) (error_text : string)
        (before after : list string) (line : string) :
  is_skipped line = true ->
  _stream_request status error_text (before ++ line :: after)
  = _stream_request status error_text (before ++ after).
Proof.
  intros Hsk. unfold Streaming._stream_request.
  destruct (negb (status =? 200)); [reflexivity |].
  induction before as [|l before IH]; cbn [app Streaming.stream_lines].
  - unfold Streaming.is_skipped in Hsk.
    destruct (startswith "data: " line); cbn [negb orb] in Hsk; [|reflexivity].
    destruct (String.eqb (strip (string_drop 6 line)) "[DONE]"); [discriminate Hsk |].
    cbn [negb andb] in Hsk. destruct (json_loads (string_drop 6 line)); [discriminate Hsk |].
    rewrite Hsk. reflexivity.
  - rewrite IH. reflexivity.
Qed.

(** X13. Every chunk that the stream yields is what [json.loads] made of the
    payload of one of the data lines, the chunks come in the order of their
    lines, and a response that is not a 200 yields nothing and fails; when
    [json.loads] raises nothing but [JSONDecodeError] a 200 stream never
    fails. *)
Theorem chunks_come_from_data_lines (status : Z) (error_text : string)
        (lines : list string) :
  Forall (fun chunk => exists line,
            In line lines /\ startswith "data: " line = true
            /\ json_loads (string_drop 6 line) = Ret chunk)
         (fst (_stream_request status error_text lines))
  /\ (status <> 200 ->
      _stream_request status error_text lines
      = ([], Failed (Exn OpenRouterError ("Streaming request failed: " +:+ error_text))))
  /\ (status = 200 ->
      (forall s e, json_loads s = Raise e -> subclass (exn_cls e) JSONDecodeError = true) ->
      snd (_stream_request status error_text lines) = Finished).
Proof.
  unfold Streaming._stream_request. split; [|split].
  - destruct (negb (status =? 200)); [constructor |].
    induction lines as [|line lines IH]; cbn [Streaming.stream_lines In]; [constructor |].
    assert (Hw : Forall (fun chunk => exists l,
                   (line = l \/ In l lines) /\ startswith "data: " l = true
                   /\ json_loads (string_drop 6 l) = Ret chunk) (fst (stream_lines lines))).
    { eapply List.Forall_impl; [|exact IH]. intros c (l & Hl & H). exists l. tauto. }
    destruct (startswith "data: " line) eqn:Hp; [|exact Hw].
    destruct (String.eqb (strip (string_drop 6 line)) "[DONE]"); [constructor |].
    destruct (json_loads (string_drop 6 line)) as [chunk | e] eqn:Hj.
    + destruct (stream_lines lines) as [chunks fin]. cbn [fst] in *.
      constructor; [|exact Hw]. exists line. auto.
    + destruct (subclass (exn_cls e) JSONDecodeError); [exact Hw | constructor].
  - intros Hne. assert ((status =? 200) = false) as -> by lia. reflexivity.
  - intros -> Hraise. cbn [Z.eqb Pos.eqb negb].
    induction lines as [|line lines IH]; cbn [Streaming.stream_lines]; [reflexivity |].
    destruct (startswith "data: " line); [|exact IH].
    destruct (String.eqb (strip (string_drop 6 line)) "[DONE]"); [reflexivity |].
    destruct (json_loads (string_drop 6 line)) as [chunk | e] eqn:Hj.
    + destruct (stream_lines lines) as [chunks fin]. exact IH.
    + rewrite (Hraise _ _ Hj). exact IH.
Qed.

(** X14. In the message that [_handle_ollama_completion] returns, the role is
    "assistant", the content is [None] whenever the tool calls are present
    and not empty, and the content is the empty string when the local answer
    carries no message. *)
Theorem converted_message_shape (r : OllamaResponse) :
  dict_get (converted_message r) "role" = Some (VStr "assistant")
  /\ (forall tc, dict_get (converted_message r) "tool_calls" = Some tc ->
                 truthy tc = true ->
                 dict_get (converted_message r) "content" = Some VNone)
  /\ (message_of r = None ->
      dict_get (converted_message r) "content" = Some (VStr "")
      /\ dict_get (converted_message r) "tool_calls" = None).
Proof.
  unfold converted_message.
  destruct (message_of r) as [d|]; [|repeat split; try reflexivity; discriminate].
  destruct (dict_get d "tool_calls") as [tc|];
    [|repeat split; try reflexivity; discriminate].
  destruct (truthy tc) eqn:Ht; simpl; repeat split; try reflexivity; try discriminate.
  intros tc' [= <-] Ht'. congruence.
Qed.

(** X15. The two layers compose: when the emulation parser recovered calls
    from the text of the local model, the message returned to the caller has
    these calls and the content [None]; when it recovered none, the message has
    the text as content and no tool calls. *)
Theorem emulated_answer_converted (text : string) (m : Ollama.AssistantMessage)
        (p e : option Z) :
  Ollama.tool_calling_message json_loads text = Ret m ->
  let message :=
    converted_message {| o_message := Some (emulated_message_dict m);
                         o_prompt_eval_count := p; o_eval_count := e |} in
  match Ollama.m_tool_calls m with
  | Some calls =>
      calls <> []
      /\ dict_get message "tool_calls" = Some (VList calls)
      /\ dict_get message "content" = Some VNone
  | None =>
      dict_get message "tool_calls" = None
      /\ dict_get message "content" = Some (VStr text)
  end.
Proof.
  unfold Ollama.tool_calling_message.
  destruct (Ollama._parse_tool_calls json_loads text) as [[|c cs] | ex];
    intros H; [| |discriminate H]; injection H as <-; simpl.
  - split; reflexivity.
  - split; [discriminate |]. split; reflexivity.
Qed.

End Stream.

End HostedProps.

(** ** More on the emulation parser and on the prompt *)

Module EmulationProps.
Import Ollama Shapes.

Lemma after_first_contains (sub s r : string) :
  after_first sub s = Some r -> contains sub s = true.
Proof.
  induction s as [|c s IH]; cbn [after_first contains].
  - destruct (startswith sub EmptyString); [reflexivity | discriminate].
  - destruct (startswith sub (String c s)); [reflexivity |]. simpl. exact IH.
Qed.

Lemma from_first_brace_contains (sub s t : string) :
  from_first_brace s = Some t -> contains sub t = true -> contains sub s = true.
Proof.
  induction s as [|c s IH]; cbn [from_first_brace]; [discriminate |].
  destruct (Ascii.eqb c "{"%char).
  - intros [= <-] H. exact H.
  - intros Ht Hc. cbn [contains]. rewrite (IH Ht Hc). apply orb_true_r.
Qed.

Lemma no_key_no_match (text : string) :
  contains (Json.quoted "tool_calls") text = false -> search_tool_calls text = None.
Proof.
  intros Hno. unfold search_tool_calls.
  destruct (from_first_brace text) as [[|b body]|] eqn:Hb; [reflexivity | | reflexivity].
  destruct (after_first (Json.quoted "tool_calls") body) as [tail|] eqn:Ha; [|reflexivity].
  exfalso.
  assert (contains (Json.quoted "tool_calls") (String b body) = true).
  { cbn [contains]. rewrite (after_first_contains _ _ _ Ha). apply orb_true_r. }
  rewrite (from_first_brace_contains _ _ _ Hb H) in Hno. discriminate Hno.
Qed.

Lemma format_call_normal (d : list (string * value)) (f : value) (n : nat) (c : value) :
  format_call d f n = Ret c -> normal_call c.
Proof.
  unfold format_call.
  destruct (function_get f "name" (VStr "")) as [fname|]; [|discriminate].
  destruct (function_get f "arguments" (VStr "{}")) as [args|]; [|discriminate].
  intros [= <-]. unfold normal_call. eauto.
Qed.

Lemma format_calls_normal (calls acc out : list value) :
  Forall normal_call acc -> format_calls calls acc = Ret out -> Forall normal_call out.
Proof.
  revert acc. induction calls as [|call calls IH]; intros acc Hacc; cbn [format_calls].
  - intros [= <-]. exact Hacc.
  - destruct call as [| | | |l|d]; try (apply IH; exact Hacc).
    destruct (dict_get d "function") as [f|]; [|apply IH; exact Hacc].
    destruct (format_call d f (length acc)) as [c|] eqn:E; [|discriminate].
    apply IH. apply Forall_app. split; [exact Hacc |].
    constructor; [|constructor]. exact (format_call_normal _ _ _ _ E).
Qed.

Lemma format_calls_raises (calls acc : list value) (e : exn) :
  format_calls calls acc = Raise e -> exn_cls e = AttributeError.
Proof.
  revert acc. induction calls as [|call calls IH]; intros acc; cbn [format_calls];
    [discriminate |].
  destruct call as [| | | |l|d]; try apply IH.
  destruct (dict_get d "function") as [f|]; [|apply IH].
  destruct (format_call d f (length acc)) as [c|e'] eqn:E; [apply IH |].
  intros [= <-]. unfold format_call, function_get in E.
  destruct f; try (injection E as <-; reflexivity).
  discriminate E.
Qed.

Lemma format_calls_ids (calls acc out : list value) :
  Forall lacks_id calls ->
  format_calls calls acc = Ret out ->
  exists new,
    out = (acc ++ new)%list
    /\ map call_id new
       = map (fun i => Some (VStr ("call_" +:+ str_of_nat i))) (seq (length acc) (length new)).
Proof.
  revert acc. induction calls as [|call calls IH]; intros acc Hl; cbn [format_calls].
  - intros [= <-]. exists []. rewrite app_nil_r. split; reflexivity.
  - apply Forall_cons_1 in Hl as [Hc Hl].
    destruct call as [| | | |l|d]; try (apply IH; exact Hl).
    destruct (dict_get d "function") as [f|]; [|apply IH; exact Hl].
    destruct (format_call d f (length acc)) as [c|] eqn:E; [|discriminate].
    intros H. destruct (IH _ Hl H) as (new & -> & Hids).
    exists (c :: new). rewrite <- app_assoc. split; [reflexivity |].
    rewrite length_app in Hids. simpl in Hids.
    replace (length acc + 1)%nat with (S (length acc)) in Hids by lia.
    cbn [map length seq]. rewrite Hids. f_equal.
    unfold format_call in E. simpl in Hc.
    destruct (function_get f "name" (VStr "")); [|discriminate E].
    destruct (function_get f "arguments" (VStr "{}")); [|discriminate E].
    injection E as <-. unfold call_id, default_get. simpl. rewrite Hc. reflexivity.
Qed.

Section Parser.

Variable json_loads : string -> outcome value.

Local Abbreviation parse_try := (parse_try json_loads).
Local Abbreviation _parse_tool_calls := (_parse_tool_calls json_loads).
Local Abbreviation tool_calling_message := (tool_calling_message json_loads).

(** X16. Every call that the parser returns is in normal form: an [id], the
    type "function", and a function with a name and arguments, whatever
    the entries of the model's answer looked like. *)
Theorem returned_calls_are_normal (text : string) (calls : list value) :
  _parse_tool_calls text = Ret calls -> Forall normal_call calls.
Proof.
  unfold Ollama._parse_tool_calls, Ollama.parse_try.
  destruct (search_tool_calls text) as [json_str|]; [|intros [= <-]; constructor].
  destruct (json_loads json_str) as [parsed|e].
  - destruct (lookup_tool_calls parsed) as [[tc|]|e].
    + destruct (iterate tc) as [l|e].
      * destruct (format_calls l []) as [out|e] eqn:E.
        -- intros [= <-]. exact (format_calls_normal _ _ _ (List.Forall_nil _) E).
        -- destruct (caught e); [intros [= <-]; constructor | discriminate].
      * destruct (caught e); [intros [= <-]; constructor | discriminate].
    + intros [= <-]. constructor.
    + destruct (caught e); [intros [= <-]; constructor | discriminate].
  - destruct (caught e); [intros [= <-]; constructor | discriminate].
Qed.

(** X17. A text in which the quoted key [tool_calls] does not occur is a plain
    answer whatever [json.loads] would do: no calls, and the text as
    content. *)
Theorem text_without_key_is_plain (text : string) :
  contains (Json.quoted "tool_calls") text = false ->
  tool_calling_message text
  = Ret {| m_role := "assistant"; m_content := Some text; m_tool_calls := None |}.
Proof.
  intros H. apply ParserProps.no_match_no_calls. apply no_key_no_match. exact H.
Qed.

(** X18. When [json.loads] raises nothing but [JSONDecodeError], the only
    exception that leaves the parser is a [TypeError]. *)
Theorem parser_raises_only_type_error (text : string) (e : exn) :
  (forall s e', json_loads s = Raise e' -> exn_cls e' = JSONDecodeError) ->
  _parse_tool_calls text = Raise e ->
  exn_cls e = TypeError.
Proof.
  intros Hj. unfold Ollama._parse_tool_calls, Ollama.parse_try.
  destruct (search_tool_calls text) as [json_str|]; [|discriminate].
  destruct (json_loads json_str) as [parsed|e0] eqn:E0.
  - destruct (lookup_tool_calls parsed) as [[tc|]|e1] eqn:E1.
    + destruct (iterate tc) as [l|e2] eqn:E2.
      * destruct (format_calls l []) as [out|e3] eqn:E3; [discriminate |].
        unfold caught. rewrite (format_calls_raises _ _ _ E3). discriminate.
      * destruct (caught e2); [discriminate |]. intros [= <-].
        destruct tc; simpl in E2; try discriminate E2; injection E2 as <-; reflexivity.
    + discriminate.
    + destruct (caught e1); [discriminate |]. intros [= <-].
      unfold lookup_tool_calls in E1.
      destruct parsed; try discriminate E1; try (injection E1 as <-; reflexivity).
      * destruct (contains "tool_calls" s); [injection E1 as <-; reflexivity | discriminate E1].
      * destruct (existsb _ l); [injection E1 as <-; reflexivity | discriminate E1].
  - unfold caught. rewrite (Hj _ _ E0). discriminate.
Qed.

End Parser.

(** X19. When no entry of the answer carries an [id], the calls that the loop
    of the parser formats are numbered in the order in which they are kept:
    the ids are [call_0], [call_1], ... without gaps, the dropped entries
    not being counted. *)
Theorem synthesized_ids_are_consecutive (entries out : list value) :
  Forall lacks_id entries ->
  format_calls entries [] = Ret out ->
  map call_id out
  = map (fun i => Some (VStr ("call_" +:+ str_of_nat i))) (seq 0 (length out)).
Proof.
  intros Hl H. destruct (format_calls_ids _ _ _ Hl H) as (new & -> & Hids).
  exact Hids.
Qed.

Import Prompt.

Lemma add_turn_other (conversation : string) (msg : ChatMessage) :
  is_turn msg = false -> add_turn conversation msg = conversation.
Proof.
  unfold is_turn, add_turn.
  destruct (String.eqb (role msg) "user"); [discriminate |].
  destruct (String.eqb (role msg) "assistant"); [discriminate |].
  destruct (String.eqb (role msg) "system"); [discriminate | reflexivity].
Qed.

(** X20. A message whose role is not "user", "assistant" or "system", a
    tool result for instance, leaves no trace in the conversation of the
    emulation prompt. *)
Theorem other_roles_are_dropped (before after : list ChatMessage) (msg : ChatMessage) :
  is_turn msg = false ->
  conversation_of (before ++ msg :: after) = conversation_of (before ++ after).
Proof.
  intros H. unfold conversation_of. rewrite !fold_left_app. simpl.
  rewrite (add_turn_other _ _ H). reflexivity.
Qed.

Lemma add_turn_appends (l : list ChatMessage) (acc : string) :
  Forall (fun m => is_system m = false) l ->
  fold_left add_turn l acc = acc +:+ fold_left add_turn l EmptyString.
Proof.
  revert acc. induction l as [|m l IH]; intros acc Hl; cbn [fold_left].
  - rewrite PyFacts.append_nil_r. reflexivity.
  - apply Forall_cons_1 in Hl as [Hm Hl].
    assert (Hpiece : exists piece, forall a, add_turn a m = a +:+ piece).
    { unfold add_turn. unfold is_system in Hm. rewrite Hm.
      destruct (String.eqb (role m) "user"); [eauto |].
      destruct (String.eqb (role m) "assistant"); [eauto |].
      exists EmptyString. intros a. rewrite PyFacts.append_nil_r. reflexivity. }
    destruct Hpiece as [piece Hp].
    rewrite (Hp acc), (Hp EmptyString). change (EmptyString +:+ piece) with piece.
    rewrite (IH (acc +:+ piece) Hl), (IH piece Hl).
    apply PyFacts.append_assoc.
Qed.

(** X21. A system message is hoisted: when no system message follows it, the
    conversation is its line "System: ...", then the turns that came before
    it, then the turns that came after it. *)
Theorem system_message_is_hoisted (before after : list ChatMessage) (msg : ChatMessage) :
  is_system msg = true ->
  Forall (fun m => is_system m = false) after ->
  conversation_of (before ++ msg :: after)
  = ("System: " +:+ content msg +:+ newline)
    +:+ (conversation_of before +:+ conversation_of after).
Proof.
  intros Hs Ha. unfold conversation_of. rewrite fold_left_app. cbn [fold_left].
  rewrite (add_turn_appends after _ Ha).
  assert (Hturn : forall a, add_turn a msg = ("System: " +:+ content msg +:+ newline) +:+ a).
  { intros a. unfold add_turn. unfold is_system in Hs.
    apply String.eqb_eq in Hs. rewrite Hs. reflexivity. }
  rewrite Hturn. apply PyFacts.append_assoc.
Qed.

End EmulationProps.

(** ** More on the workflow engine *)

Module WorkflowProps.
Import Engine Shapes.

Section WithWorld.

Context {World : Type}.
Variable now_iso : World -> string.
Variable now_compact : World -> string.
Variable repr_container : value -> string.
Variable py_eval :
  string -> list (string * value) -> World ->
  outcome Engine.eval_object * list (string * value) * World.

Local Abbreviation substitute_str := (substitute_str now_iso now_compact repr_container).
Local Abbreviation substitute_parameters :=
  (substitute_parameters now_iso now_compact repr_container).
Local Abbreviation _execute_step := (_execute_step now_iso now_compact repr_container).
Local Abbreviation run_step := (run_step now_iso now_compact repr_container).
Local Abbreviation loop_body := (loop_body now_iso now_compact repr_container py_eval).
Local Abbreviation run_steps := (run_steps now_iso now_compact repr_container py_eval).
Local Abbreviation execute_workflow :=
  (execute_workflow now_iso now_compact repr_container py_eval).
Local Abbreviation condition_rejects := (condition_rejects repr_container py_eval).

Implicit Types (reg : Base.ToolRegistry (World := World)) (step : WorkflowStep)
         (variables : list (string * value)) (w : World).

Lemma execute_step_facts reg step variables w :
  static_fields (fst (fst (_execute_step reg step variables w))) = static_fields step
  /\ (status (fst (fst (_execute_step reg step variables w))) = COMPLETED
      \/ status (fst (fst (_execute_step reg step variables w))) = FAILED).
Proof.
  unfold Engine._execute_step. simpl.
  destruct (Base.tools reg !! tool step) as [t|]; [|simpl; auto].
  destruct (Base.execute t _ w) as [[r|e] w1]; [|simpl; auto].
  destruct (Base.success r); simpl; auto.
Qed.

(** What one turn of the loop gives from the status [W_RUNNING]: the step
    keeps its static fields; either the loop goes on, still running, with the
    step completed, skipped or failed, or it breaks with the workflow failed,
    on a failed step or on a truth test that raised. *)
Lemma loop_body_running reg step werror variables w :
  let '(step', wstatus', _, _, _, f) := loop_body reg step W_RUNNING werror variables w in
  static_fields step' = static_fields step
  /\ ((f = Next /\ wstatus' = W_RUNNING
       /\ (settled step' \/ status step' = FAILED))
      \/ (f = Break /\ wstatus' = W_FAILED
          /\ (status step' = FAILED \/ ~ truth_tests_return py_eval))).
Proof.
  unfold Engine.loop_body.
  replace (wstatus_eqb W_RUNNING W_CANCELLED) with false by reflexivity.
  destruct (condition_rejects step variables w) as [[[[|]|e] variables1] w0] eqn:Hc.
  { split; [reflexivity |]. left. unfold settled. simpl. auto. }
  2:{ split; [reflexivity |]. right. split; [reflexivity |]. split; [reflexivity |].
      right. intros Hall. unfold Engine.condition_rejects in Hc.
      destruct (condition step) as [[|c cs]|]; try discriminate.
      unfold Engine._evaluate_condition in Hc.
      specialize (Hall (condition_text repr_container (String c cs) variables) variables w).
      destruct (py_eval _ variables w) as [[[o|e'] vs] w2]; simpl in Hall, Hc.
      - destruct (truth_test o); [discriminate | discriminate Hall].
      - discriminate. }
  clear Hc variables w. rename variables1 into variables, w0 into w.
  unfold Engine.run_step.
  destruct (execute_step_facts reg step variables w) as [Hs1 Hst1].
  destruct (_execute_step reg step variables w) as [[s1 v1] w1]. simpl in Hs1, Hst1.
  unfold status_eqb. case_bool_decide as Hf.
  - destruct (String.eqb (on_failure s1) "stop").
    + split; [exact Hs1 |]. right. auto.
    + destruct (_ && _).
      * destruct (execute_step_facts reg
                    (set_status (set_retry_count s1 (retry_count s1 + 1)) PENDING) v1 w1)
          as [Hs2 Hst2].
        destruct (_execute_step reg _ v1 w1) as [[s2 v2] w2]. simpl in Hs2, Hst2.
        split; [rewrite Hs2; exact Hs1 |]. left. unfold settled. tauto.
      * split; [exact Hs1 |]. left. auto.
  - split; [exact Hs1 |]. left. unfold settled.
    destruct Hst1 as [H | H]; [auto | contradiction].
Qed.

Lemma run_steps_running reg (steps : list WorkflowStep) werror variables w :
  let '(steps', wstatus', _, _, _) := run_steps reg steps W_RUNNING werror variables w in
  map static_fields steps' = map static_fields steps
  /\ ((wstatus' = W_RUNNING
       /\ Forall (fun s => settled s \/ status s = FAILED) steps')
      \/ (wstatus' = W_FAILED
          /\ (Exists (fun s => status s = FAILED) steps' \/ ~ truth_tests_return py_eval))).
Proof.
  revert werror variables w.
  induction steps as [|step rest IH]; intros werror variables w; cbn [Engine.run_steps].
  - split; [reflexivity |]. left. split; [reflexivity | constructor].
  - pose proof (loop_body_running reg step werror variables w) as Hb.
    destruct (loop_body reg step W_RUNNING werror variables w)
      as [[[[[s1 st1] err1] vs1] w1] f].
    destruct Hb as [Hs [(-> & -> & Hp) | (-> & -> & Hf)]].
    + specialize (IH err1 vs1 w1).
      destruct (run_steps reg rest W_RUNNING err1 vs1 w1) as [[[[steps2 st2] err2] vs2] w2].
      destruct IH as [Hm Hr]. split; [cbn [map]; rewrite Hs, Hm; reflexivity |].
      destruct Hr as [[-> Hall] | [-> [Hex | Hno]]].
      * left. split; [reflexivity |]. constructor; assumption.
      * right. split; [reflexivity |]. left. apply Exists_cons_tl. exact Hex.
      * right. split; [reflexivity |]. right. exact Hno.
    + split; [cbn [map]; rewrite Hs; reflexivity |].
      right. split; [reflexivity |]. destruct Hf as [Hf | Hno].
      * left. apply Exists_cons_hd. exact Hf.
      * right. exact Hno.
Qed.

(** X22. A run never adds, removes or reorders steps, and a step keeps its id,
    name, tool, parameter map (placeholders included), condition, retry
    budget, timeout and failure policy. *)
Theorem steps_keep_their_definition reg (workflow : Workflow)
        (variables : option (list (string * value))) w :
  match fst (execute_workflow reg workflow variables w) with
  | Ret wf' => map static_fields (wf_steps wf') = map static_fields (wf_steps workflow)
  | Raise _ => False
  end.
Proof.
  unfold Engine.execute_workflow.
  match goal with
  | |- context [run_steps reg ?ss W_RUNNING ?err ?vs w] =>
      pose proof (run_steps_running reg ss err vs w) as H;
      destruct (run_steps reg ss W_RUNNING err vs w) as [[[[steps st] err'] vs'] w1]
  end.
  destruct H as [Hm _].
  destruct (wstatus_eqb st W_RUNNING); [destruct (existsb _ steps) |]; exact Hm.
Qed.


(** X24. A step that its condition does not reject and that fails under the
    policy [stop] ends the run there: the workflow is failed with the error
    of the step, and the steps after it are left exactly as they were, none
    of their tools being run. *)
Theorem stop_leaves_the_rest reg step (rest : list WorkflowStep)
        (werror : option string) variables w variables' (w' : World) :
  condition_rejects step variables w = (Ret false, variables', w') ->
  on_failure step = "stop" ->
  status (fst (fst (_execute_step reg step variables' w'))) = FAILED ->
  run_steps reg (step :: rest) W_RUNNING werror variables w
  = (fst (fst (_execute_step reg step variables' w')) :: rest, W_FAILED,
     error (fst (fst (_execute_step reg step variables' w'))),
     snd (fst (_execute_step reg step variables' w')),
     snd (_execute_step reg step variables' w')).
Proof.
  intros Hc Hp Hf. cbn [Engine.run_steps]. unfold Engine.loop_body.
  replace (wstatus_eqb W_RUNNING W_CANCELLED) with false by reflexivity.
  rewrite Hc. unfold Engine.run_step.
  pose proof (EngineProps.execute_step_policy now_iso now_compact repr_container
                reg step variables' w') as Hpol.
  destruct (_execute_step reg step variables' w') as [[s1 v1] w1]. simpl in *.
  destruct Hpol as (Hon & _). rewrite Hf, Hon, Hp. reflexivity.
Qed.

(** X25. A string in which neither of the two special tokens nor the
    placeholder of any variable of the bag occurs is left as it is: its other
    placeholders stay verbatim. *)
Theorem unmatched_placeholders_stay (s : string) variables w :
  contains "{{now}}" s = false ->
  contains "{{timestamp}}" s = false ->
  Forall (fun kv => contains (placeholder (fst kv)) s = false) variables ->
  substitute_str s variables w = s.
Proof.
  intros Hn Ht Hv. unfold Engine.substitute_str. rewrite Hn, Ht.
  induction variables as [|kv variables IH]; cbn [fold_left]; [reflexivity |].
  apply Forall_cons_1 in Hv as [Hk Hv]. rewrite Hk. apply IH. exact Hv.
Qed.

(** X26. When the body of the tool returns a successful result whose payload
    is a non-empty dictionary, the step completes and the bag then holds the
    payload under "<step.id>_result", every other variable being as
    before. *)
Theorem dict_payload_is_merged reg step variables w (t : Base.BaseTool)
        (r : Base.ToolResult) (w1 : World) (kv : string * value)
        (d : list (string * value)) :
  Base.tools reg !! tool step = Some t ->
  Base.execute t (substitute_parameters (parameters step) variables w) w = (Ret r, w1) ->
  Base.success r = true ->
  Base.result r = VDict (kv :: d) ->
  let '(step', variables', w') := _execute_step reg step variables w in
  status step' = COMPLETED /\ w' = w1
  /\ dict_get variables' (id step +:+ "_result") = Some (VDict (kv :: d))
  /\ (forall k, k <> id step +:+ "_result" -> dict_get variables' k = dict_get variables k).
Proof.
  intros Ht Hx Hs Hr. unfold Engine._execute_step.
  cbn [parameters tool set_started_at set_status id]. rewrite Ht, Hx, Hs, Hr.
  cbn [truthy is_dict andb dict_update fold_left fst snd].
  split; [reflexivity |]. split; [reflexivity |]. split.
  - apply PyFacts.dict_get_set_eq.
  - intros k Hk. apply PyFacts.dict_get_set_ne. intros Heq. apply Hk. symmetry. exact Heq.
Qed.

(** X27. A step whose tool is not registered fails with the error
    "Tool '<name>' not found", and a step whose tool body raises fails with
    the message of the exception; in both cases the bag is as before, and in
    the first the world is as before: no body ran. *)
Theorem step_failures reg step variables w :
  (Base.tools reg !! tool step = None ->
   let '(step', variables', w') := _execute_step reg step variables w in
   status step' = FAILED
   /\ error step' = Some ("Tool '" +:+ tool step +:+ "' not found")
   /\ variables' = variables /\ w' = w)
  /\ (forall (t : Base.BaseTool) e w1,
        Base.tools reg !! tool step = Some t ->
        Base.execute t (substitute_parameters (parameters step) variables w) w
        = (Raise e, w1) ->
        let '(step', variables', w') := _execute_step reg step variables w in
        status step' = FAILED /\ error step' = Some (exn_str e)
        /\ result step' = result step /\ variables' = variables /\ w' = w1).
Proof.
  split.
  - intros Ht. unfold Engine._execute_step.
    cbn [parameters tool set_started_at set_status id]. rewrite Ht. simpl. auto.
  - intros t e w1 Ht Hx. unfold Engine._execute_step.
    cbn [parameters tool set_started_at set_status id]. rewrite Ht, Hx. simpl. auto 6.
Qed.

End WithWorld.

Import Templates.

(** X28. A workflow made from a template has the steps of the template, all
    pending and never retried; in its variables the values of the caller win
    and the defaults of the template stay for the other names; an unknown
    template gives no workflow and changes nothing. *)
Theorem template_instantiation (templates : gmap string Template)
        (template_name workflow_id : string) (variables : list (string * value)) :
  List.NoDup (map fst variables) ->
  match templates !! template_name with
  | None =>
      create_workflow_from_template templates template_name workflow_id (Some variables)
      = (None, templates)
  | Some template =>
      exists wf templates',
        create_workflow_from_template templates template_name workflow_id (Some variables)
        = (Some wf, templates')
        /\ wf_id wf = workflow_id
        /\ map static_fields (wf_steps wf) = map static_fields (map step_of (t_steps template))
        /\ Forall (fun s => status s = PENDING /\ retry_count s = 0 /\ result s = None)
                  (wf_steps wf)
        /\ (forall k v, In (k, v) variables -> dict_get (wf_variables wf) k = Some v)
        /\ (forall k, ~ In k (map fst variables) ->
                      dict_get (wf_variables wf) k = dict_get (t_variables template) k)
  end.
Proof.
  intros Hnd. unfold create_workflow_from_template.
  destruct (templates !! template_name) as [template|]; [|reflexivity].
  eexists. eexists. split; [reflexivity |]. cbn [wf_id wf_steps wf_variables].
  split; [reflexivity |]. split; [reflexivity |]. split.
  - apply List.Forall_forall. intros s Hin. apply in_map_iff in Hin as (d & <- & _).
    simpl. auto.
  - destruct variables as [|kv more].
    + split; [intros k v [] | reflexivity].
    + split.
      * intros k v Hin. apply PyFacts.dict_get_update_in; assumption.
      * intros k Hk. apply PyFacts.dict_get_update_notin. exact Hk.
Qed.

(** X29. Instantiating a template writes the caller's values into the
    template itself: the next workflow made from the same template without
    any value of its own starts from the variables of the previous one. *)
Theorem template_overrides_leak (templates : gmap string Template)
        (template_name id1 id2 : string) (variables : option (list (string * value)))
        (template : Template) :
  templates !! template_name = Some template ->
  exists wf1 templates1 wf2 templates2,
    create_workflow_from_template templates template_name id1 variables
    = (Some wf1, templates1)
    /\ create_workflow_from_template templates1 template_name id2 None
       = (Some wf2, templates2)
    /\ wf_variables wf2 = wf_variables wf1.
Proof.
  intros Ht. unfold create_workflow_from_template. rewrite Ht.
  eexists. eexists. eexists. eexists. split; [reflexivity |].
  rewrite lookup_insert_eq. split; reflexivity.
Qed.

End WorkflowProps.

(** ** The properties above on the samples *)

Module OnSamples.
Import Shapes.

Lemma json_loads_raises (s : string) (e : exn) :
  Json.loads s = Raise e -> exn_cls e = JSONDecodeError.
Proof.
  unfold Json.loads.
  destruct (Json.parse_value _ _) as [[v rest]|]; [|intros [= <-]; reflexivity].
  destruct (Json.skip_ws rest); [discriminate | intros [= <-]; reflexivity].
Qed.

Lemma success_without_200_exhausts_witness :
  Api._make_request 3 1000 Samples.always_204 Samples.message_of "GET" false
  = (Raise (Exn OpenRouterError "Max retries exceeded"), []).
Proof.
  apply (HostedProps.success_without_200_exhausts 3 1000 Samples.always_204
           Samples.message_of "GET" false).
  - reflexivity.
  - intros i Hi. eexists. split; [reflexivity |]. simpl. lia.
Defined.

Lemma unsupported_method_raises_witness :
  Api._make_request 3 1000 Samples.always_204 Samples.message_of "DELETE" false
  = (Raise (Exn ValueError "Unsupported HTTP method: DELETE"), []).
Proof.
  apply (HostedProps.unsupported_method_raises 3 1000 Samples.always_204
           Samples.message_of "DELETE" false); [lia | reflexivity | reflexivity].
Defined.

Lemma nothing_after_done_witness :
  Streaming._stream_request Json.loads 200 ""
    [Samples.chunk_line 1; Samples.done_line; Samples.chunk_line 2]
  = Streaming._stream_request Json.loads 200 "" [Samples.chunk_line 1].
Proof.
  apply (HostedProps.nothing_after_done Json.loads 200 "" [Samples.chunk_line 1]
           [Samples.chunk_line 2] Samples.done_line).
  reflexivity.
Defined.

Lemma skipped_lines_leave_no_trace_witness :
  Streaming._stream_request Json.loads 200 ""
    [Samples.chunk_line 1; Samples.comment_line; Samples.chunk_line 2]
  = Streaming._stream_request Json.loads 200 ""
      [Samples.chunk_line 1; Samples.chunk_line 2].
Proof.
  apply (HostedProps.skipped_lines_leave_no_trace Json.loads 200 ""
           [Samples.chunk_line 1] [Samples.chunk_line 2] Samples.comment_line).
  reflexivity.
Defined.

Lemma emulated_answer_converted_witness :
  let message :=
    Streaming.converted_message
      {| Streaming.o_message :=
           Some (Streaming.emulated_message_dict
                   {| Ollama.m_role := "assistant"; Ollama.m_content := None;
                      Ollama.m_tool_calls := Some [Samples.formatted "call_7"] |});
         Streaming.o_prompt_eval_count := None; Streaming.o_eval_count := None |} in
  [Samples.formatted "call_7"] <> []
  /\ dict_get message "tool_calls" = Some (VList [Samples.formatted "call_7"])
  /\ dict_get message "content" = Some VNone.
Proof.
  apply (HostedProps.emulated_answer_converted Json.loads Samples.in_prose
           {| Ollama.m_role := "assistant"; Ollama.m_content := None;
              Ollama.m_tool_calls := Some [Samples.formatted "call_7"] |} None None).
  vm_compute. reflexivity.
Defined.

Lemma returned_calls_are_normal_witness : Forall normal_call [Samples.formatted "call_7"].
Proof.
  apply (EmulationProps.returned_calls_are_normal Json.loads Samples.in_prose).
  vm_compute. reflexivity.
Defined.

Lemma text_without_key_is_plain_witness :
  Ollama.tool_calling_message Json.loads "The file has 3 lines."
  = Ret {| Ollama.m_role := "assistant"; Ollama.m_content := Some "The file has 3 lines.";
           Ollama.m_tool_calls := None |}.
Proof.
  apply (EmulationProps.text_without_key_is_plain Json.loads "The file has 3 lines.").
  vm_compute. reflexivity.
Defined.

Lemma parser_raises_only_type_error_witness :
  exn_cls (Exn TypeError "'NoneType' object is not iterable") = TypeError.
Proof.
  apply (EmulationProps.parser_raises_only_type_error Json.loads Samples.null_calls).
  - exact json_loads_raises.
  - vm_compute. reflexivity.
Defined.

Lemma synthesized_ids_are_consecutive_witness :
  map call_id [Samples.formatted "call_0"; Samples.formatted "call_1"]
  = map (fun i => Some (VStr ("call_" +:+ Ollama.str_of_nat i))) (seq 0 2).
Proof.
  apply (EmulationProps.synthesized_ids_are_consecutive
           [VDict [("function", Samples.read_file_function)]; VInt 3;
            VDict [("function", Samples.read_file_function)]]
           [Samples.formatted "call_0"; Samples.formatted "call_1"]).
  - constructor; [reflexivity |]. constructor; [exact I |].
    constructor; [reflexivity | constructor].
  - vm_compute. reflexivity.
Defined.

Lemma other_roles_are_dropped_witness :
  Prompt.conversation_of
    [Samples.turn "user" "hi"; Samples.turn "tool" "42"; Samples.turn "assistant" "ok"]
  = Prompt.conversation_of [Samples.turn "user" "hi"; Samples.turn "assistant" "ok"].
Proof.
  apply (EmulationProps.other_roles_are_dropped [Samples.turn "user" "hi"]
           [Samples.turn "assistant" "ok"] (Samples.turn "tool" "42")).
  reflexivity.
Defined.

Lemma system_message_is_hoisted_witness :
  Prompt.conversation_of
    [Samples.turn "user" "hi"; Samples.turn "system" "be brief";
     Samples.turn "assistant" "ok"]
  = ("System: " +:+ "be brief" +:+ Prompt.newline)
    +:+ (Prompt.conversation_of [Samples.turn "user" "hi"]
         +:+ Prompt.conversation_of [Samples.turn "assistant" "ok"]).
Proof.
  apply (EmulationProps.system_message_is_hoisted [Samples.turn "user" "hi"]
           [Samples.turn "assistant" "ok"] (Samples.turn "system" "be brief")).
  - reflexivity.
  - constructor; [reflexivity | constructor].
Defined.

Lemma stop_leaves_the_rest_witness :
  Engine.run_steps Samples.iso Samples.compact Samples.no_repr Samples.eval_table
    Samples.registry [Samples.stopping; Samples.bare_echo] Engine.W_RUNNING None [] 0%nat
  = (fst (fst (Engine._execute_step Samples.iso Samples.compact Samples.no_repr
                 Samples.registry Samples.stopping [] 0%nat)) :: [Samples.bare_echo],
     Engine.W_FAILED, Some "nope", [], 1%nat).
Proof.
  apply (WorkflowProps.stop_leaves_the_rest Samples.iso Samples.compact Samples.no_repr
           Samples.eval_table Samples.registry Samples.stopping [Samples.bare_echo] None
           [] 0%nat [] 0%nat);
    reflexivity.
Defined.

Lemma unmatched_placeholders_stay_witness :
  Engine.substitute_str Samples.iso Samples.compact Samples.no_repr
    "{{missing}}-x" Samples.flag_false 0%nat = "{{missing}}-x".
Proof.
  apply (WorkflowProps.unmatched_placeholders_stay Samples.iso Samples.compact
           Samples.no_repr "{{missing}}-x" Samples.flag_false 0%nat).
  - reflexivity.
  - reflexivity.
  - constructor; [reflexivity | constructor].
Defined.

Lemma dict_payload_is_merged_witness :
  let '(step', variables', w') :=
    Engine._execute_step Samples.iso Samples.compact Samples.no_repr
      Samples.registry2 Samples.asking Samples.flag_false 0%nat in
  Engine.status step' = Engine.COMPLETED /\ w' = 1%nat
  /\ dict_get variables' "a_result" = Some (VDict [("x", VInt 42)])
  /\ (forall k, k <> "a_result" -> dict_get variables' k = dict_get Samples.flag_false k).
Proof.
  apply (WorkflowProps.dict_payload_is_merged Samples.iso Samples.compact Samples.no_repr
           Samples.registry2 Samples.asking Samples.flag_false 0%nat Samples.answer
           (Samples.ok (VDict [("x", VInt 42)])) 1%nat ("x", VInt 42) []);
    reflexivity.
Defined.

Lemma run_step_retries_once_witness :
  Engine.run_step Samples.iso Samples.compact Samples.no_repr Samples.registry
    Samples.retrying Engine.W_RUNNING None [] 0%nat
  = let first :=
      Engine._execute_step Samples.iso Samples.compact Samples.no_repr
        Samples.registry Samples.retrying [] 0%nat in
    let second :=
      Engine._execute_step Samples.iso Samples.compact Samples.no_repr Samples.registry
        (Engine.set_status (Engine.set_retry_count (fst (fst first)) 1) Engine.PENDING)
        (snd (fst first)) (snd first) in
    (fst (fst second), Engine.W_RUNNING, None, snd (fst second), snd second, Engine.Next).
Proof.
  pose proof (EngineProps.run_step_retries_once Samples.iso Samples.compact Samples.no_repr
                Samples.registry Samples.retrying Engine.W_RUNNING None [] 0%nat
                eq_refl eq_refl) as H.
  change (Engine.retry_count Samples.retrying + 1) with 1 in H.
  cbv zeta.
  destruct (Engine._execute_step Samples.iso Samples.compact Samples.no_repr
              Samples.registry Samples.retrying [] 0%nat) as [[s1 v1] w1] eqn:E.
  cbn [fst snd].
  assert (Hf : Engine.status s1 = Engine.FAILED)
    by (vm_compute in E; injection E as <- _ _; reflexivity).
  rewrite (H Hf).
  destruct (Engine._execute_step Samples.iso Samples.compact Samples.no_repr
              Samples.registry _ v1 w1) as [[s2 v2] w2].
  reflexivity.
Defined.

Lemma template_instantiation_witness :
  exists wf templates',
    Templates.create_workflow_from_template Samples.templates "greeting" "wf1"
      (Some [("name", VStr "Ada")]) = (Some wf, templates')
    /\ dict_get (Engine.wf_variables wf) "name" = Some (VStr "Ada")
    /\ dict_get (Engine.wf_variables wf) "greeting" = Some (VStr "hello").
Proof.
  pose proof (WorkflowProps.template_instantiation Samples.templates "greeting" "wf1"
                [("name", VStr "Ada")]
                ltac:(constructor; [simpl; tauto | constructor])) as H.
  change (Samples.templates !! "greeting") with (Some Samples.greeting_template) in H.
  destruct H as (wf & templates' & Hc & _ & _ & _ & Hin & Hout).
  exists wf, templates'. split; [exact Hc |]. split.
  - apply Hin. left. reflexivity.
  - rewrite Hout; [reflexivity |]. simpl. intros [H | []]. discriminate H.
Defined.

Lemma template_overrides_leak_witness :
  exists wf1 templates1 wf2 templates2,
    Templates.create_workflow_from_template Samples.templates "greeting" "wf1"
      (Some [("name", VStr "Ada")]) = (Some wf1, templates1)
    /\ Templates.create_workflow_from_template templates1 "greeting" "wf2" None
       = (Some wf2, templates2)
    /\ Engine.wf_variables wf2 = Engine.wf_variables wf1.
Proof.
  apply (WorkflowProps.template_overrides_leak Samples.templates "greeting" "wf1" "wf2"
           (Some [("name", VStr "Ada")]) Samples.greeting_template).
  reflexivity.
Defined.

(** A string of one code point held in two bytes has length 1, and passes a
    length bound of 1. *)
Example len_counts_code_points :
  py_len Samples.e_acute = 1%nat
  /\ String.length Samples.e_acute = 2%nat
  /\ Base.validate_parameters Samples.any_match Samples.initial
       [("text", VStr Samples.e_acute)] = Ret true
  /\ Base.validate_parameters Samples.any_match Samples.initial
       [("text", VStr "ab")] = Ret false.
Proof. repeat split; reflexivity. Qed.

Lemma eval_table_truth_tests_return : truth_tests_return Samples.eval_table.
Proof.
  intros expression variables w. unfold Samples.eval_table.
  repeat match goal with
         | |- context [String.eqb expression ?k] => destruct (String.eqb expression k)
         end; simpl; auto.
Qed.


(** The third way a run can end.  The condition of the first step evaluates
    to an object whose truth test raises: the exception leaves the loop, the
    workflow is failed with the message of the exception, no body is run and
    both steps are still pending. *)
Example raising_truth_test_fails_run :
  let '(r, bodies_run) :=
    Engine.execute_workflow Samples.iso Samples.compact Samples.no_repr
      Samples.eval_objects Samples.registry
      (Samples.make_workflow [Samples.guarded Samples.negative_len; Samples.bare_echo] [])
      None 0%nat in
  bodies_run = 0%nat
  /\ exists wf, r = Ret wf
       /\ Engine.wf_status wf = Engine.W_FAILED
       /\ Engine.wf_error wf = Some "__len__() should return >= 0"
       /\ map Engine.status (Engine.wf_steps wf) = [Engine.PENDING; Engine.PENDING].
Proof.
  vm_compute. split; [reflexivity |].
  eexists. split; [reflexivity |]. repeat split; reflexivity.
Qed.

End OnSamples.
